(** * Notification delivery pipeline: circuit breaker, retry policy,
      channel consumers, broker topology and ingress gate.

    A shallow embedding of the Python sources

      - shared/circuit_breaker.py, shared/retry.py, shared/idempotency.py
      - services/email_service/{consumer,http_client}.py
      - services/push_service/consumer.py
      - services/api_gateway/{main,queue_manager,models}.py

    Effects are explicit: every function that touches the outside
    (clock, HTTP, SMTP, broker, Redis, database) threads a state and
    returns an [outcome], which is either a returned value or a raised
    Python exception.  Python floats (time stamps, delays) are modelled
    by exact rationals. *)

From Stdlib Require Import ZArith QArith Qminmax Qpower Lia Lqa Bool List String.
From stdpp Require Import base option list strings gmap.
Import ListNotations.

Local Open Scope string_scope.
Local Open Scope Z_scope.

(** ** Python values shared by all modules *)

Module Py.

(** A raised exception: its class name and [str(e)]. *)
Record exn := Exn { exn_class : string; exn_str : string }.

Definition Exception (msg : string) : exn := Exn "Exception" msg.
Definition TypeError (msg : string) : exn := Exn "TypeError" msg.
Definition ValueError (msg : string) : exn := Exn "ValueError" msg.

(** The result of running a fallible piece of code. *)
Inductive outcome (A : Type) : Type :=
| Returned (a : A)
| Raised (e : exn).
Arguments Returned {A} a.
Arguments Raised {A} e.

(** [isinstance(e, Exception)]: every exception modelled here derives
    from [Exception], the default of [expected_exception] and of
    [exceptions]. *)
Definition isinstance_Exception (_ : exn) : bool := true.

(** Truthiness of a [str]. *)
Definition truthy (s : string) : bool := negb (String.eqb s "").

(** [x > y] on rationals, as a boolean. *)
Definition Qgtb (x y : Q) : bool := negb (Qle_bool x y).

(** [str(x)] of an optional string: [None] prints as [None]. *)
Definition str_opt (x : option string) : string :=
  match x with Some s => s | None => "None" end.

(** Truthiness of an optional string: [None] and [''] are falsy. *)
Definition truthy_opt (x : option string) : bool :=
  match x with Some s => truthy s | None => false end.

(** Code that threads a state [S] and may raise. *)
Definition M (S A : Type) : Type := S -> S * outcome A.

Definition raise {S A} (e : exn) : M S A := fun s => (s, Raised e).

(** [try: m  except Exception as e: h e] *)
Definition try_except {S A} (m : M S A) (h : exn -> M S A) : M S A :=
  fun s =>
    let (s', r) := m s in
    match r with
    | Returned a => (s', Returned a)
    | Raised e => h e s'
    end.

#[export] Instance M_ret {S} : MRet (M S) :=
  fun A a s => (s, Returned a).

#[export] Instance M_bind {S} : MBind (M S) :=
  fun A B k m s =>
    let (s', r) := m s in
    match r with
    | Returned a => k a s'
    | Raised e => (s', Raised e)
    end.

End Py.
Import Py.

(** ** shared/circuit_breaker.py *)

Module CircuitBreaker.

Inductive CircuitState := CLOSED | OPEN | HALF_OPEN.

(** The attributes set by [CircuitBreaker.__init__].
    [last_failure_time] is [None] until the first failure. *)
Record t := Make {
  failure_threshold : Z;
  recovery_timeout : Q;
  expected_exception : exn -> bool;
  failure_count : Z;
  last_failure_time : option Q;
  state : CircuitState
}.

Definition init (failure_threshold : Z) (recovery_timeout : Q)
    (expected_exception : exn -> bool) : t :=
  Make failure_threshold recovery_timeout expected_exception 0 None CLOSED.

Definition set_state (s : CircuitState) (self : t) : t :=
  Make (failure_threshold self) (recovery_timeout self)
       (expected_exception self) (failure_count self)
       (last_failure_time self) s.

Definition set_failure_count (n : Z) (self : t) : t :=
  Make (failure_threshold self) (recovery_timeout self)
       (expected_exception self) n (last_failure_time self) (state self).

Definition set_last_failure_time (x : option Q) (self : t) : t :=
  Make (failure_threshold self) (recovery_timeout self)
       (expected_exception self) (failure_count self) x (state self).

(** The exception of line 39; the breaker has no error class of its
    own, the fail-fast error is a plain [Exception] with this text. *)
Definition circuit_open_error : exn :=
  Exception "Circuit breaker is OPEN - service unavailable".

(** [float - None] on line 35, when the breaker is OPEN without a
    recorded failure. *)
Definition none_operand_error : exn :=
  TypeError "unsupported operand type(s) for -: 'float' and 'NoneType'".

Definition on_success (self : t) : t :=
  match state self with
  | HALF_OPEN => set_failure_count 0 (set_state CLOSED self)
  | CLOSED => set_failure_count 0 self
  | OPEN => self
  end.

(** [now] is the value of [time.time()] on line 59. *)
Definition on_failure (now : Q) (self : t) : t :=
  let self := set_failure_count (failure_count self + 1) self in
  let self := set_last_failure_time (Some now) self in
  if failure_threshold self <=? failure_count self
  then set_state OPEN self
  else self.

Section Call.
(** The outside world, its clock, and an operation run in it. *)
Context {World : Type} (time_time : World -> Q).
Context {A : Type}.

Definition operation := World -> World * outcome A.

(** Lines 34-39: the gate in front of the wrapped call.  Either the
    call is refused with an exception, or it goes on with the
    (possibly HALF_OPEN) breaker. *)
Definition gate (self : t) (w : World) : exn + t :=
  match state self with
  | OPEN =>
      match last_failure_time self with
      | None => inl none_operand_error
      | Some last =>
          if Qgtb (time_time w - last) (recovery_timeout self)
          then inr (set_state HALF_OPEN self)
          else inl circuit_open_error
      end
  | _ => inr self
  end.

(** Lines 41-47: run the operation and record its outcome. *)
Definition invoke (self : t) (func : operation) (w : World)
  : t * World * outcome A :=
  let (w', r) := func w in
  match r with
  | Returned a => (on_success self, w', Returned a)
  | Raised e =>
      if expected_exception self e
      then (on_failure (time_time w') self, w', Raised e)
      else (self, w', Raised e)
  end.

Definition call (self : t) (func : operation) (w : World)
  : t * World * outcome A :=
  match gate self w with
  | inl e => (self, w, Raised e)
  | inr self' => invoke self' func w
  end.

(** The operation raises an exception the breaker counts. *)
Definition fails (self : t) (func : operation) (w : World) : Prop :=
  exists e, snd (func w) = Raised e /\ expected_exception self e = true.

Definition succeeds (func : operation) (w : World) : Prop :=
  exists a, snd (func w) = Returned a.

(** Successive calls on one breaker; each call finds the world in
    the state given with it. *)
Fixpoint calls (self : t) (l : list (operation * World)) : t :=
  match l with
  | [] => self
  | (func, w) :: l' => calls (fst (fst (call self func w))) l'
  end.

End Call.

End CircuitBreaker.

(** ** shared/retry.py *)

Module Retry.

(** What the wrapper does to the outside, in order: an attempt of the
    wrapped function with its outcome, or a [time.sleep]. *)
Inductive event (A : Type) : Type :=
| Attempt (r : outcome A)
| Sleep (secs : Q).
Arguments Attempt {A} r.
Arguments Sleep {A} secs.

(** Python's [min(a, b)]: [b] only when [b < a]. *)
Definition py_min (a b : Q) : Q := if Qgtb a b then b else a.

(** [time.sleep] refuses a negative length. *)
Definition negative_sleep_error : exn :=
  ValueError "sleep length must be non-negative".

(** Before that it converts the length to nanoseconds in 64 bits, and
    refuses a length that does not fit. *)
Definition sleep_limit : Q := 9223372036854775808 # 1000000000.

Definition sleep_overflow_error : exn :=
  Exn "OverflowError" "timestamp too large to convert to C _PyTime_t".

(** The exception [time.sleep(secs)] raises instead of sleeping, if
    any. *)
Definition sleep_refusal (secs : Q) : option exn :=
  if Qgtb secs sleep_limit || Qgtb (- sleep_limit) secs
  then Some sleep_overflow_error
  else if Qgtb 0 secs then Some negative_sleep_error
  else None.

(** [raise None] after a loop that never ran. *)
Definition raise_none_error : exn :=
  TypeError "exceptions must derive from BaseException".

Section Wrapper.
Context {World A : Type}.
Context (time_sleep : Q -> World -> World).
(** The decorator's arguments. *)
Context (max_retries : Z) (initial_delay max_delay exponential_base : Q)
        (exceptions : exn -> bool).
Context (func : World -> World * outcome A).

(** The [for attempt in range(max_retries + 1)] loop with [k]
    iterations left, at index [attempt], with the loop variables
    [delay] and [last_exception].  The delays are exact rationals;
    they are the floats of the source as long as the products are
    whole numbers. *)
Fixpoint loop (k : nat) (attempt : Z) (delay : Q)
    (last_exception : option exn) (w : World)
  : World * outcome A * list (event A) :=
  match k with
  | O =>
      (w, Raised (default raise_none_error last_exception), [])
  | S k' =>
      let (w1, r) := func w in
      match r with
      | Returned a => (w1, Returned a, [Attempt r])
      | Raised e =>
          if exceptions e then
            if attempt <? max_retries then
              let secs := py_min delay max_delay in
              match sleep_refusal secs with
              | Some refused => (w1, Raised refused, [Attempt r])
              | None =>
                  let '(w2, r2, evs) :=
                    loop k' (attempt + 1) (delay * exponential_base)%Q
                         (Some e) (time_sleep secs w1) in
                  (w2, r2, Attempt r :: Sleep secs :: evs)
              end
            else (w1, Raised e, [Attempt r])
          else (w1, Raised e, [Attempt r])
      end
  end.

Definition wrapper (w : World) : World * outcome A * list (event A) :=
  loop (Z.to_nat (max_retries + 1)) 0 initial_delay None w.

End Wrapper.

Definition attempts {A} (evs : list (event A)) : list (outcome A) :=
  omap (fun ev => match ev with Attempt r => Some r | Sleep _ => None end) evs.

Definition sleeps {A} (evs : list (event A)) : list Q :=
  omap (fun ev => match ev with Sleep d => Some d | Attempt _ => None end) evs.

(** The delay the contract gives for the sleep after attempt [i + 1]. *)
Definition backoff (initial_delay exponential_base max_delay : Q) (i : nat) : Q :=
  Qmin (initial_delay * exponential_base ^ Z.of_nat i) max_delay.

(** Attempts and sleeps taking turns, an attempt first and last. *)
Fixpoint schedule {A} (rs : list (outcome A)) (ds : list Q) : list (event A) :=
  match rs, ds with
  | r :: rs', d :: ds' => Attempt r :: Sleep d :: schedule rs' ds'
  | [r], [] => [Attempt r]
  | _, _ => []
  end.

(** The delay of the contract for whole numbers of seconds:
    [min(d0 * b^i, max_delay)] before retry [i + 1]. *)
Definition backoff_seconds (d0 b : Z) (max_delay : Q) (i : nat) : Q :=
  Qmin (inject_Z (d0 * b ^ Z.of_nat i)) max_delay.

(** The run the contract describes for an operation that fails at
    every attempt: the operation is run, and for each of the [k]
    retries left the wrapper sleeps [delay_at i] and runs the
    operation again in the world the sleep left; the outcome is the
    one of the last run. *)
Fixpoint failing_run {World A : Type} (time_sleep : Q -> World -> World)
    (func : World -> World * outcome A) (delay_at : nat -> Q)
    (k i : nat) (w : World) : World * outcome A * list (event A) :=
  let (w1, r) := func w in
  match k with
  | O => (w1, r, [Attempt r])
  | S k' =>
      let '(w2, r2, evs) :=
        failing_run time_sleep func delay_at k' (S i) (time_sleep (delay_at i) w1) in
      (w2, r2, Attempt r :: Sleep (delay_at i) :: evs)
  end.

(** An operation and a sleep on a world that also counts the runs of
    the operation. *)
Definition counted {World A : Type} (func : World -> World * outcome A)
  : World * nat -> (World * nat) * outcome A :=
  fun s => let (w', r) := func (fst s) in ((w', S (snd s)), r).

Definition counted_sleep {World : Type} (time_sleep : Q -> World -> World)
  : Q -> World * nat -> World * nat :=
  fun secs s => (time_sleep secs (fst s), snd s).

End Retry.

(** ** The AMQP broker, as the channel calls of the sources address it *)

Module Broker.

(** [pika.BasicProperties], with the fields the sources set.  The
    values of the headers are integers: the one header the services
    write or read is [x-retry-count], a count. *)
Record BasicProperties := Props {
  headers : option (gmap string Z);
  delivery_mode : option Z;
  content_type : option string
}.

(** A message as the broker keeps it. *)
Record Message := Msg {
  properties : BasicProperties;
  body : string
}.

Record Queue := Que {
  durable : bool;
  messages : list Message
}.

(** One binding of a queue to an exchange under a routing key. *)
Record Binding := Bind {
  b_exchange : string;
  b_queue : string;
  b_routing_key : string
}.

Record t := Make {
  exchanges : gmap string string;          (* name -> exchange_type *)
  queues : gmap string Queue;
  bindings : list Binding;
  unacked : gmap Z (string * Message);     (* delivery_tag -> queue, message *)
  next_tag : Z
}.

Definition empty : t := Make ∅ ∅ [] ∅ 1.

Definition exchange_declare (exchange exchange_type : string) (b : t) : t :=
  Make (<[exchange := exchange_type]> (exchanges b)) (queues b) (bindings b)
       (unacked b) (next_tag b).

(** Declaring an existing queue leaves its content alone. *)
Definition queue_declare (queue : string) (durable : bool) (b : t) : t :=
  match queues b !! queue with
  | Some _ => b
  | None =>
      Make (exchanges b) (<[queue := Que durable []]> (queues b)) (bindings b)
           (unacked b) (next_tag b)
  end.

Definition binding_matches (exchange routing_key : string) (bd : Binding) : bool :=
  String.eqb (b_exchange bd) exchange && String.eqb (b_routing_key bd) routing_key.

Definition same_binding (x y : Binding) : bool :=
  binding_matches (b_exchange x) (b_routing_key x) y
  && String.eqb (b_queue x) (b_queue y).

(** Binding twice under the same key is the same as binding once. *)
Definition queue_bind (exchange queue routing_key : string) (b : t) : t :=
  let bd := Bind exchange queue routing_key in
  if existsb (same_binding bd) (bindings b) then b
  else Make (exchanges b) (queues b) (bindings b ++ [bd])
            (unacked b) (next_tag b).

(** The queues a direct exchange routes a key to: those bound to it
    under exactly that key. *)
Definition route (exchange routing_key : string) (b : t) : list string :=
  b_queue <$> filter (fun bd => binding_matches exchange routing_key bd = true) (bindings b).

Definition enqueue (m : Message) (qs : gmap string Queue) (queue : string)
  : gmap string Queue :=
  match qs !! queue with
  | Some q => <[queue := Que (durable q) (messages q ++ [m])]> qs
  | None => qs
  end.

Definition requeue_front (m : Message) (qs : gmap string Queue) (queue : string)
  : gmap string Queue :=
  match qs !! queue with
  | Some q => <[queue := Que (durable q) (m :: messages q)]> qs
  | None => qs
  end.

(** [basic_publish] without the [mandatory] flag: a message that no
    binding matches is dropped. *)
Definition basic_publish (exchange routing_key : string) (body : string)
    (properties : BasicProperties) (b : t) : t :=
  Make (exchanges b)
       (foldl (enqueue (Msg properties body)) (queues b) (route exchange routing_key b))
       (bindings b) (unacked b) (next_tag b).

(** The broker hands the head of [queue] to the consumer. *)
Definition deliver (queue : string) (b : t) : option (Z * Message * t) :=
  match queues b !! queue with
  | Some (Que d (m :: rest)) =>
      Some (next_tag b, m,
            Make (exchanges b) (<[queue := Que d rest]> (queues b)) (bindings b)
                 (<[next_tag b := (queue, m)]> (unacked b)) (next_tag b + 1))
  | _ => None
  end.

Definition basic_ack (delivery_tag : Z) (b : t) : t :=
  Make (exchanges b) (queues b) (bindings b)
       (delete delivery_tag (unacked b)) (next_tag b).

(** [basic_nack] carries a delivery tag and the requeue flag, nothing
    else: a requeued message is the one the broker kept. *)
Definition basic_nack (delivery_tag : Z) (requeue : bool) (b : t) : t :=
  match unacked b !! delivery_tag with
  | Some (queue, m) =>
      Make (exchanges b)
           (if requeue then requeue_front m (queues b) queue else queues b)
           (bindings b) (delete delivery_tag (unacked b)) (next_tag b)
  | None => b
  end.

Definition queue_messages (queue : string) (b : t) : list Message :=
  match queues b !! queue with
  | Some q => messages q
  | None => []
  end.

(** api_gateway/queue_manager.py, [QueueManager.initialize], lines 30-52. *)
Definition QueueManager_initialize (b : t) : t :=
  let b := exchange_declare "notifications.direct" "direct" b in
  let b := queue_declare "email.queue" true b in
  let b := queue_declare "push.queue" true b in
  let b := queue_declare "failed.queue" true b in
  let b := queue_bind "notifications.direct" "email.queue" "email" b in
  queue_bind "notifications.direct" "push.queue" "push" b.

(** [QueueManager.publish], lines 64-72, with the serialised message. *)
Definition QueueManager_publish (routing_key body : string) (b : t) : t :=
  basic_publish "notifications.direct" routing_key body
                (Props None (Some 2) (Some "application/json")) b.

(** email_service/consumer.py, [EmailConsumer.connect], lines 39-46. *)
Definition EmailConsumer_connect (b : t) : t :=
  let b := exchange_declare "notifications.direct" "direct" b in
  let b := queue_declare "email.queue" true b in
  let b := queue_bind "notifications.direct" "email.queue" "email" b in
  queue_declare "failed.queue" true b.

(** push_service/consumer.py, [PushConsumer.connect], lines 37-44. *)
Definition PushConsumer_connect (b : t) : t :=
  let b := exchange_declare "notifications.direct" "direct" b in
  let b := queue_declare "push.queue" true b in
  let b := queue_bind "notifications.direct" "push.queue" "push" b in
  queue_declare "failed.queue" true b.

(** The topology once the gateway and both consumers have started. *)
Definition topology : t :=
  PushConsumer_connect (EmailConsumer_connect (QueueManager_initialize empty)).

End Broker.

(** ** Data exchanged between the services *)

Module Model.

(** The JSON object of a queue message, read with [message.get].
    The identifiers are only ever printed (into a URL or a log line):
    a key that is absent is [None], and a key that is present holds
    the [str()] of its value. *)
Record QueueMessage := QMsg {
  request_id : option string;
  user_id : option string;
  template_code : option string;
  variables : gmap string string;
  priority : option Z;
  metadata : gmap string string
}.

(** What [json.loads] makes of a body: a JSON object, or a value of
    another Python type ([list], [str], [int], [NoneType], ...), of
    which the callback sees the type and the truthiness. *)
Inductive Json :=
| JObject (message : QueueMessage)
| JOther (type_name : string) (truthy : bool).

(** The user dict of the User Service; a key that is absent is [None]
    and a present value is kept by its truthiness. *)
Record UserData := User {
  email : option string;
  push_token : option string;
  email_enabled : option bool;
  push_enabled : option bool
}.

Record Template := Tmpl {
  notification_type : option string
}.

Record Rendered := Rend {
  subject : option string;
  rendered_body : option string
}.

(** What happens on the channel and towards the gateway, in order. *)
Inductive effect :=
| Ack (delivery_tag : Z)
| Nack (delivery_tag : Z) (requeue : bool)
| Publish (exchange routing_key body : string) (props : Broker.BasicProperties)
| StatusPost (notification_id status : string) (error : option string)
| LogWarning (msg : string).

(** The delivery tags acknowledged, and those rejected, in a trace. *)
Definition acks (tr : list effect) : list Z :=
  omap (fun ev => match ev with Ack tag => Some tag | _ => None end) tr.

Definition nacks (tr : list effect) : list (Z * bool) :=
  omap (fun ev => match ev with Nack tag rq => Some (tag, rq) | _ => None end) tr.

(** The routing keys and bodies published in a trace. *)
Definition publishes (tr : list effect) : list (string * string) :=
  omap (fun ev => match ev with
                  | Publish _ routing_key body _ => Some (routing_key, body)
                  | _ => None
                  end) tr.

(** Effects that do not go over the channel. *)
Definition off_channel (ev : effect) : bool :=
  match ev with
  | StatusPost _ _ _ | LogWarning _ => true
  | _ => false
  end.

End Model.

(** ** services/email_service and services/push_service: the consumers *)

Module Consumer.
Import Model.

Section WithWorld.
Context {World : Type}.

(** The state a [process_message] call works on: the outside world,
    the consumer's breaker, the [properties] object handed to the
    callback, and what it has done so far. *)
Record St := MkSt {
  world : World;
  circuit_breaker : CircuitBreaker.t;
  properties : Broker.BasicProperties;
  trace : list effect
}.

Definition emit (ev : effect) : M St unit :=
  fun s => (MkSt (world s) (circuit_breaker s) (properties s) (trace s ++ [ev]),
            Returned tt).

(** A call to the outside. *)
Definition io {A} (op : World -> World * outcome A) : M St A :=
  fun s =>
    let (w, r) := op (world s) in
    (MkSt w (circuit_breaker s) (properties s) (trace s), r).

Definition set_headers (h : gmap string Z) : M St unit :=
  fun s =>
    let p := properties s in
    (MkSt (world s) (circuit_breaker s)
          (Broker.Props (Some h) (Broker.delivery_mode p) (Broker.content_type p))
          (trace s),
     Returned tt).

(** [self.circuit_breaker.call(func)] *)
Definition breaker_call {A} (time_time : World -> Q)
    (func : World -> World * outcome A) : M St A :=
  fun s =>
    let '(cb, w, r) :=
      CircuitBreaker.call time_time (circuit_breaker s) func (world s) in
    (MkSt w cb (properties s) (trace s), r).

(** [properties.headers.get("x-retry-count", 0) if properties.headers else 0] *)
Definition retry_count_of (p : Broker.BasicProperties) : Z :=
  match Broker.headers p with
  | Some h => if decide (h = ∅) then 0 else default 0 (h !! "x-retry-count")
  | None => 0
  end.

(** The retry-or-dead-letter decision that closes the [except]
    block of both consumers (email lines 129-146, push 127-141). *)
Definition retry_or_dead_letter (delivery_tag : Z) (body : string) : M St unit :=
  fun s =>
    let retry_count := retry_count_of (properties s) in
    if retry_count <? 3 then
      (h ← (fun s => (s, Returned (default ∅ (Broker.headers (properties s)))));
       set_headers (<["x-retry-count" := retry_count + 1]> h);;
       emit (Nack delivery_tag true)) s
    else
      (emit (Nack delivery_tag false);;
       emit (Publish "notifications.direct" "failed" body
                     (Broker.Props None (Some 2) None))) s.

(** [request_id] as the [except] block computes it: [message] is
    [None] when [json.loads] raised, and [message.get] is only reached
    for a truthy [message]. *)
Definition failed_request_id (message : option Json) : string :=
  match message with
  | Some (JObject m) => default "unknown" (request_id m)
  | Some (JOther _ _) => "unknown"
  | None => "unknown"
  end.

Definition parsed (r : outcome Json) : option Json :=
  match r with Returned m => Some m | Raised _ => None end.

(** [str(KeyError(key))] is the [repr] of the key. *)
Definition KeyError (key : string) : exn := Exn "KeyError" ("'" ++ key ++ "'").

(** [message.get] on a value that is not a [dict]. *)
Definition AttributeError (type_name : string) : exn :=
  Exn "AttributeError" ("'" ++ type_name ++ "' object has no attribute 'get'").

(** Whether the [message.get] of the [except] block (email line 119,
    push line 118) is reached and raises: [message] is truthy and not
    a [dict]. *)
Definition get_raises (message : option Json) : option exn :=
  match message with
  | Some (JOther type_name true) => Some (AttributeError type_name)
  | _ => None
  end.

(** *** services/email_service *)

Section Email.
Context (time_time : World -> Q).
Context (json_loads : string -> outcome Json).
(** [HTTPClient.get_user], [get_template] and [render_template]
    as their caller sees them: the dict, [None], or an exception
    (of [requests] or of the breaker that decorates them). *)
Context (get_user : option string -> World -> World * outcome (option UserData)).
Context (get_template : option string -> World -> World * outcome (option Template)).
Context (render_template :
           option string -> gmap string string ->
           World -> World * outcome (option Rendered)).
(** [requests.post] to [/internal/notifications/{id}/status]: the
    status code of the response, or the exception of [requests]. *)
Context (requests_post :
           string -> string -> option string -> World -> World * outcome Z).
(** [EmailSender.send] *)
Context (email_sender_send :
           string -> string -> string -> World -> World * outcome bool).

(** http_client.py, [HTTPClient.update_notification_status],
    lines 77-91.  The response of the POST is dropped unread. *)
Definition update_notification_status (notification_id status : string)
    (error : option string) : M St unit :=
  let payload_error := if truthy_opt error then error else None in
  try_except
    (emit (StatusPost notification_id status payload_error);;
     io (requests_post notification_id status payload_error);;
     mret tt)
    (fun e => emit (LogWarning ("Failed to update status: " ++ exn_str e))).

(** The closure [send_email] of lines 92-97. *)
Definition send_email (user_data : UserData) (rendered : Rendered)
  : World -> World * outcome bool :=
  fun w =>
    match subject rendered, rendered_body rendered with
    | None, _ => (w, Raised (KeyError "subject"))
    | Some _, None => (w, Raised (KeyError "body"))
    | Some subj, Some b =>
        email_sender_send (default "" (email user_data)) subj b w
    end.

(** The [try] block of [EmailConsumer.process_message],
    lines 58-112. *)
Definition email_try (delivery_tag : Z) (body : string) : M St unit :=
  message ← (fun s => (s, json_loads body));
  match message with
  | JOther type_name _ => raise (AttributeError type_name)
  | JObject message =>
  let request_id := default "unknown" (request_id message) in
  let user_id := user_id message in
  user_data ← io (get_user user_id);
  match user_data with
  | None =>
      raise (Exception ("User " ++ str_opt user_id ++ " not found or has no email"))
  | Some user_data =>
      if negb (truthy_opt (email user_data)) then
        raise (Exception ("User " ++ str_opt user_id ++ " not found or has no email"))
      else if negb (default true (email_enabled user_data)) then
        emit (Ack delivery_tag)
      else
        let template_code := template_code message in
        template ← io (get_template template_code);
        match template with
        | None =>
            raise (Exception ("Template " ++ str_opt template_code ++ " not found"))
        | Some _ =>
            rendered ← io (render_template template_code (variables message));
            match rendered with
            | None => raise (Exception "Failed to render template")
            | Some rendered =>
                result ← breaker_call time_time (send_email user_data rendered);
                (if result : bool
                 then update_notification_status request_id "delivered" None
                 else raise (Exception "Failed to send email"));;
                emit (Ack delivery_tag)
            end
        end
  end
  end.

(** The [except] block, lines 114-146. *)
Definition email_except (delivery_tag : Z) (body : string) (e : exn) : M St unit :=
  let message := parsed (json_loads body) in
  try_except
    (match get_raises message with
     | Some e' => raise e'
     | None =>
         update_notification_status
           (failed_request_id message) "failed" (Some (exn_str e))
     end)
    (fun _ => mret tt);;
  retry_or_dead_letter delivery_tag body.

(** [EmailConsumer.process_message(ch, method, properties, body)] *)
Definition email_process_message (delivery_tag : Z) (body : string) : M St unit :=
  try_except (email_try delivery_tag body) (email_except delivery_tag body).

End Email.

(** *** services/push_service *)

Section Push.
Context (time_time : World -> Q).
Context (json_loads : string -> outcome Json).
(** The [HTTPClient] of the push service is not among the sources;
    its four methods are taken as they are called. *)
Context (get_user : option string -> World -> World * outcome (option UserData)).
Context (get_template : option string -> World -> World * outcome (option Template)).
Context (render_template :
           option string -> gmap string string ->
           World -> World * outcome (option Rendered)).
Context (http_update_notification_status :
           string -> string -> option string -> World -> World * outcome unit).
(** [PushSender.send] *)
Context (push_sender_send :
           string -> string -> string -> gmap string string ->
           World -> World * outcome bool).

Definition push_report (notification_id status : string) (error : option string)
  : M St unit :=
  emit (StatusPost notification_id status error);;
  io (http_update_notification_status notification_id status error).

(** The [try] block of [PushConsumer.process_message],
    lines 56-111. *)
Definition push_try (delivery_tag : Z) (body : string) : M St unit :=
  message ← (fun s => (s, json_loads body));
  match message with
  | JOther type_name _ => raise (AttributeError type_name)
  | JObject message =>
  let request_id := default "unknown" (request_id message) in
  let user_id := user_id message in
  user_data ← io (get_user user_id);
  match user_data with
  | None => raise (Exception ("User " ++ str_opt user_id ++ " not found"))
  | Some user_data =>
      if negb (default true (push_enabled user_data)) then
        emit (Ack delivery_tag)
      else if negb (truthy_opt (push_token user_data)) then
        raise (Exception ("User " ++ str_opt user_id ++ " has no push token"))
      else
        let template_code := template_code message in
        template ← io (get_template template_code);
        match template with
        | None =>
            raise (Exception ("Template " ++ str_opt template_code ++ " not found"))
        | Some _ =>
            rendered ← io (render_template template_code (variables message));
            match rendered with
            | None => raise (Exception "Failed to render template")
            | Some rendered =>
                result ← breaker_call time_time
                           (push_sender_send
                              (default "" (push_token user_data))
                              (default "Notification" (subject rendered))
                              (default "" (rendered_body rendered))
                              (metadata message));
                (if result : bool
                 then push_report request_id "delivered" None
                 else raise (Exception "Failed to send push notification"));;
                emit (Ack delivery_tag)
            end
        end
  end
  end.

(** The [except] block, lines 113-141. *)
Definition push_except (delivery_tag : Z) (body : string) (e : exn) : M St unit :=
  let message := parsed (json_loads body) in
  try_except
    (match get_raises message with
     | Some e' => raise e'
     | None =>
         push_report (failed_request_id message) "failed" (Some (exn_str e))
     end)
    (fun _ => mret tt);;
  retry_or_dead_letter delivery_tag body.

(** [PushConsumer.process_message(ch, method, properties, body)] *)
Definition push_process_message (delivery_tag : Z) (body : string) : M St unit :=
  try_except (push_try delivery_tag body) (push_except delivery_tag body).

End Push.

End WithWorld.
Arguments St World : clear implicits.

(** What the broker does with the channel calls of a callback; the
    status report and the log do not reach it. *)
Definition apply_effect (b : Broker.t) (ev : effect) : Broker.t :=
  match ev with
  | Ack tag => Broker.basic_ack tag b
  | Nack tag requeue => Broker.basic_nack tag requeue b
  | Publish exchange routing_key body props =>
      Broker.basic_publish exchange routing_key body props b
  | StatusPost _ _ _ => b
  | LogWarning _ => b
  end.

(** One turn of [channel.start_consuming()] on [queue]: the broker
    delivers the head of the queue, the callback runs on a
    [properties] object decoded from that delivery, and the channel
    calls it made reach the broker.  The consumer's breaker lives on;
    the [properties] object is dropped with the callback's frame. *)
Definition consume_one {World} (queue : string)
    (callback : Z -> string -> M (St World) unit)
    (st : Broker.t * World * CircuitBreaker.t)
  : Broker.t * World * CircuitBreaker.t * list effect :=
  let '(b, w, cb) := st in
  match Broker.deliver queue b with
  | None => (b, w, cb, [])
  | Some (tag, m, b') =>
      let s := fst (callback tag (Broker.body m)
                             (MkSt w cb (Broker.properties m) [])) in
      (foldl apply_effect b' (trace s), world s, circuit_breaker s, trace s)
  end.

(** [n] turns; the traces of the callbacks, oldest first. *)
Fixpoint consume {World} (n : nat) (queue : string)
    (callback : Z -> string -> M (St World) unit)
    (st : Broker.t * World * CircuitBreaker.t)
  : Broker.t * World * CircuitBreaker.t * list (list effect) :=
  match n with
  | O => (st, [])
  | S n' =>
      let '(st', tr) := consume_one queue callback st in
      let '(st'', trs) := consume n' queue callback st' in
      (st'', tr :: trs)
  end.

(** The log line of the status reporter for the outcome of its POST:
    only an exception of [requests] is logged, a response is dropped
    whatever its status code. *)
Definition reporter_log (r : outcome Z) : list effect :=
  match r with
  | Raised e => [LogWarning ("Failed to update status: " ++ exn_str e)]
  | Returned _ => []
  end.

(** The channel calls of the retry-or-dead-letter decision. *)
Definition decision (delivery_tag : Z) (body : string) (retry_count : Z) : list effect :=
  if retry_count <? 3 then [Nack delivery_tag true]
  else [Nack delivery_tag false;
        Publish "notifications.direct" "failed" body (Broker.Props None (Some 2) None)].

(** The [properties] object after the decision. *)
Definition decided_properties (p : Broker.BasicProperties) : Broker.BasicProperties :=
  let retry_count := retry_count_of p in
  if retry_count <? 3 then
    Broker.Props (Some (<["x-retry-count" := retry_count + 1]> (default ∅ (Broker.headers p))))
                 (Broker.delivery_mode p) (Broker.content_type p)
  else p.

(** On a delivery of [m] the callback makes one channel call, a nack
    with requeue. *)
Definition requeues {World : Type} (callback : Z -> string -> M (St World) unit)
    (m : Broker.Message) : Prop :=
  forall tag w cb, exists s' pre,
    callback tag (Broker.body m) (MkSt w cb (Broker.properties m) []) = (s', Returned tt)
    /\ trace s' = (pre ++ [Nack tag true])%list
    /\ Forall (fun ev => off_channel ev = true) pre.

(** A trace whose only channel call is a nack with requeue. *)
Definition requeued_only (tr : list effect) : Prop :=
  acks tr = [] /\ publishes tr = [] /\ exists tag, nacks tr = [(tag, true)].

End Consumer.

(** ** shared/idempotency.py over a Redis with expiring keys *)

Module Idempotency.

(** A cached result: the JSON object that [json.dumps] wrote and
    [json.loads] reads back. *)
Definition json_obj := list (string * string).

(** Redis: under each key a value and the time it expires at. *)
Definition redis := gmap string (json_obj * Q).

(** A key is gone once the clock is past its expiry time; at the
    expiry time itself it is still there. *)
Definition redis_get (now : Q) (key : string) (r : redis) : option json_obj :=
  match r !! key with
  | Some (v, expires) => if Qgtb now expires then None else Some v
  | None => None
  end.

Definition redis_setex (now : Q) (key : string) (ttl : Q) (v : json_obj)
    (r : redis) : redis :=
  <[key := (v, (now + ttl)%Q)]> r.

Definition redis_exists (now : Q) (key : string) (r : redis) : Z :=
  match redis_get now key r with Some _ => 1 | None => 0 end.

(** [IdempotencyManager.generate_key] *)
Definition generate_key (request_id service : string) : string :=
  "idempotency:" ++ service ++ ":" ++ request_id.

(** [IdempotencyManager.check_and_store], lines 23-44: the cached
    result when there is one, else the result is stored and [None]
    comes back. *)
Definition check_and_store (ttl now : Q) (request_id service : string)
    (result : json_obj) (r : redis) : redis * option json_obj :=
  let key := generate_key request_id service in
  match redis_get now key r with
  | Some cached => (r, Some cached)
  | None => (redis_setex now key ttl result r, None)
  end.

(** [IdempotencyManager.is_duplicate] *)
Definition is_duplicate (now : Q) (request_id service : string) (r : redis) : bool :=
  0 <? redis_exists now (generate_key request_id service) r.

End Idempotency.

(** ** services/api_gateway/main.py *)

Module Gateway.
Import Model Idempotency.

Inductive NotificationType := type_email | type_push.
Inductive NotificationStatus := delivered | pending | failed.

(** The [.value] of the two enums. *)
Definition type_value (x : NotificationType) : string :=
  match x with type_email => "email" | type_push => "push" end.

Definition status_value (x : NotificationStatus) : string :=
  match x with
  | delivered => "delivered" | pending => "pending" | failed => "failed"
  end.

(** shared/models.py, [NotificationRequest] *)
Record NotificationRequest := Req {
  req_notification_type : NotificationType;
  req_user_id : string;
  req_template_code : string;
  req_variables : gmap string string;
  req_request_id : option string;
  req_priority : Z;
  req_metadata : gmap string string
}.

(** shared/models.py, [NotificationStatusUpdate] *)
Record NotificationStatusUpdate := Upd {
  upd_status : NotificationStatus;
  upd_timestamp : option Q;
  upd_error : option string
}.

(** api_gateway/models.py, a row of the [notifications] table. *)
Record Notification := Row {
  n_id : string;
  n_user_id : string;
  n_notification_type : string;
  n_template_code : string;
  n_status : string;
  n_priority : Z;
  n_metadata : gmap string string;
  n_error : option string;
  n_updated_at : option Q
}.

(** shared/models.py, [ResponseModel] *)
Record ResponseModel := Resp {
  success : bool;
  data : option json_obj;
  error : option string;
  message : string
}.

Definition success_response (data : json_obj) (message : string) : ResponseModel :=
  Resp true (Some data) None message.

Definition error_response (error message : string) : ResponseModel :=
  Resp false None (Some error) message.

(** What a request handler does towards its collaborators, in order. *)
Inductive effect :=
| GetUser (user_id : string)
| GetTemplate (template_code : string)
| Published (routing_key : string) (message : QueueMessage).

Definition IntegrityError (id : string) : exn :=
  Exn "IntegrityError" ("duplicate key value violates unique constraint: " ++ id).

(** [priority] is a column of 32-bit integers. *)
Definition NumericValueOutOfRange : exn := Exn "DataError" "integer out of range".

Definition int32 (z : Z) : bool := (-2147483648 <=? z) && (z <=? 2147483647).

Definition with_id (key : string) (row : Notification) : Notification :=
  Row key (n_user_id row) (n_notification_type row) (n_template_code row)
      (n_status row) (n_priority row) (n_metadata row) (n_error row)
      (n_updated_at row).

Section WithWorld.
Context {World : Type}.
(** [id] is a column of type uuid.  [uuid_in] is how the database
    reads a text as a uuid: the text it prints the value as (under
    which the table here keeps the row), or the exception raised for
    a text that is no uuid. *)
Context (uuid_in : string -> outcome string).

Record St := MkSt {
  world : World;
  redis_db : redis;
  table : list Notification;
  trace : list effect
}.

Definition emit (ev : effect) : M St unit :=
  fun s => (MkSt (world s) (redis_db s) (table s) (trace s ++ [ev]), Returned tt).

Definition io {A} (op : World -> World * outcome A) : M St A :=
  fun s =>
    let (w, r) := op (world s) in
    (MkSt w (redis_db s) (table s) (trace s), r).

(** The first row kept under the uuid [id]. *)
Definition query_first (id : string) (rows : list Notification) : option Notification :=
  List.find (fun r => String.eqb (n_id r) id) rows.

(** [db.query(Notification).filter(Notification.id == id).first()] *)
Definition select_by_id (id : string) : M St (option Notification) :=
  fun s =>
    match uuid_in id with
    | Raised e => (s, Raised e)
    | Returned key => (s, Returned (query_first key (table s)))
    end.

(** [db.add(row); db.commit()]: the values must fit the types of
    their columns, and [id] is the primary key. *)
Definition db_add (row : Notification) : M St unit :=
  fun s =>
    match uuid_in (n_id row) with
    | Raised e => (s, Raised e)
    | Returned key =>
        if negb (int32 (n_priority row)) then (s, Raised NumericValueOutOfRange)
        else
          match query_first key (table s) with
          | Some _ => (s, Raised (IntegrityError key))
          | None =>
              (MkSt (world s) (redis_db s) (table s ++ [with_id key row]) (trace s),
               Returned tt)
          end
    end.

(** The commit of a changed row: the row with that key is replaced. *)
Definition db_update (row : Notification) : M St unit :=
  fun s =>
    (MkSt (world s) (redis_db s)
          ((fun r => if String.eqb (n_id r) (n_id row) then row else r) <$> table s)
          (trace s),
     Returned tt).

Section Handlers.
(** The clock of the gateway and the one Redis expires keys by. *)
Context (time_time : World -> Q) (redis_time : World -> Q).
(** [str(uuid.uuid4())] *)
Context (uuid4 : World -> World * string).
(** api_gateway/http_client.py as its caller sees it. *)
Context (get_user : string -> World -> World * outcome (option UserData)).
Context (get_template : string -> World -> World * outcome (option Template)).
(** [QueueManager.publish] *)
Context (queue_publish : string -> QueueMessage -> World -> World * outcome unit).
(** [IdempotencyManager(redis_client)], default [ttl=3600]. *)
Context (ttl : Q).
(** [os.getenv("SERVICE_TOKEN", "internal-service-token")] *)
Context (service_token : string).

Definition idem_is_duplicate (request_id service : string) : M St bool :=
  fun s =>
    (s, Returned (is_duplicate (redis_time (world s)) request_id service (redis_db s))).

Definition idem_check_and_store (request_id service : string) (result : json_obj)
  : M St (option json_obj) :=
  fun s =>
    let (r', cached) :=
      check_and_store ttl (redis_time (world s)) request_id service result
                      (redis_db s) in
    (MkSt (world s) r' (table s) (trace s), Returned cached).

(** [notification.request_id or str(uuid.uuid4())] *)
Definition effective_request_id (notification : NotificationRequest) : M St string :=
  if truthy_opt (req_request_id notification)
  then mret (default "" (req_request_id notification))
  else fun s =>
         let (w, u) := uuid4 (world s) in
         (MkSt w (redis_db s) (table s) (trace s), Returned u).

Definition pending_result (request_id : string) : json_obj :=
  [("notification_id", request_id); ("status", "pending")].

(** Lines 107-166: validation, record, publish, idempotency entry. *)
Definition validate_and_queue (notification : NotificationRequest) (request_id : string)
  : M St ResponseModel :=
  emit (GetUser (req_user_id notification));;
  user_data ← io (get_user (req_user_id notification));
  match user_data with
  | None => mret (error_response "User not found" "Notification creation failed")
  | Some _ =>
      emit (GetTemplate (req_template_code notification));;
      template ← io (get_template (req_template_code notification));
      match template with
      | None => mret (error_response "Template not found" "Notification creation failed")
      | Some template =>
          let type := type_value (req_notification_type notification) in
          if negb (bool_decide (notification_type template = Some type)) then
            mret (error_response
                    ("Template type mismatch. Expected " ++ type)
                    "Notification creation failed")
          else
            db_add (Row request_id (req_user_id notification) type
                        (req_template_code notification)
                        (status_value pending) (req_priority notification)
                        (req_metadata notification) None None);;
            let message :=
              QMsg (Some request_id) (Some (req_user_id notification))
                   (Some (req_template_code notification))
                   (req_variables notification)
                   (Some (req_priority notification))
                   (req_metadata notification) in
            emit (Published type message);;
            io (queue_publish type message);;
            let result := pending_result request_id in
            idem_check_and_store request_id "notification" result;;
            mret (success_response result "Notification queued successfully")
      end
  end.

(** The [try] block of [create_notification], lines 87-166. *)
Definition create_try (notification : NotificationRequest) (user_id : string)
  : M St ResponseModel :=
  request_id ← effective_request_id notification;
  if negb (String.eqb (req_user_id notification) user_id) then
    mret (error_response
            "Unauthorized: You can only create notifications for yourself"
            "Notification creation failed")
  else
    dup ← idem_is_duplicate request_id "notification";
    if dup : bool then
      cached ← idem_check_and_store request_id "notification" [];
      match cached with
      | Some (_ :: _) =>
          mret (success_response (pending_result request_id)
                                 "Notification already processed (idempotent)")
      | _ => validate_and_queue notification request_id
      end
    else validate_and_queue notification request_id.

(** [create_notification(notification, user_id)] *)
Definition create_notification (notification : NotificationRequest)
    (user_id : string) : M St ResponseModel :=
  try_except (create_try notification user_id)
    (fun e => mret (error_response (exn_str e) "Failed to create notification")).

(** The [try] block of [update_notification_status_internal],
    lines 277-312. *)
Definition update_try (notification_id : string)
    (status_update : NotificationStatusUpdate)
    (x_service_token : option string) : M St ResponseModel :=
  if negb (bool_decide (x_service_token = Some service_token)) then
    mret (error_response "Unauthorized" "Invalid service token")
  else
    notification ← select_by_id notification_id;
    match notification with
    | None =>
        mret (error_response "Notification not found" "Status update failed")
    | Some notification =>
        let new_status := status_value (upd_status status_update) in
        let new_error :=
          if truthy_opt (upd_error status_update)
          then upd_error status_update
          else n_error notification in
        now ← (fun s => (s, Returned (time_time (world s))));
        db_update
          (Row (n_id notification) (n_user_id notification)
               (n_notification_type notification)
               (n_template_code notification)
               new_status (n_priority notification)
               (n_metadata notification) new_error (Some now));;
        mret (success_response
                [("notification_id", notification_id); ("status", new_status)]
                "Status updated successfully")
    end.

(** [update_notification_status_internal(notification_id,
    status_update, x_service_token)] *)
Definition update_notification_status_internal (notification_id : string)
    (status_update : NotificationStatusUpdate)
    (x_service_token : option string) : M St ResponseModel :=
  try_except (update_try notification_id status_update x_service_token)
    (fun e => mret (error_response (exn_str e) "Failed to update status")).

End Handlers.
End WithWorld.
Arguments St World : clear implicits.






End Gateway.

(** ** services/email_service/sender.py *)

Module Sender.

(** What [EmailSender.__init__] reads from the environment. *)
Record EmailSender := MkSender {
  sendgrid_api_key : option string;
  smtp_host : string;
  smtp_port : Z;
  smtp_user : option string;
  smtp_password : option string;
  email_from : string
}.

Definition HTTPError : exn := Exn "HTTPError" "error status for url".

(** [response.raise_for_status()] on a response with this status. *)
Definition raise_for_status (status_code : Z) : outcome unit :=
  if (400 <=? status_code) && (status_code <? 600)
  then Raised HTTPError
  else Returned tt.

Section WithWorld.
Context {World : Type}.
(** [requests.post] to the SendGrid API with the key, the sender, the
    recipient, the subject and the body: the status of the response. *)
Context (sendgrid_post :
           string -> string -> string -> string -> string ->
           World -> World * outcome Z).
(** The SMTP session of lines 73-76 (connect, starttls, login,
    send_message) with host, port, user, password, sender, recipient,
    subject and body. *)
Context (smtp_session :
           string -> Z -> string -> string -> string -> string -> string -> string ->
           World -> World * outcome unit).
Context (time_sleep : Q -> World -> World).

(** [EmailSender._send_via_sendgrid], lines 40-60. *)
Definition send_via_sendgrid (self : EmailSender) (to_email subject body : string)
  : World -> World * outcome bool :=
  fun w =>
    let (w', r) := sendgrid_post (default "" (sendgrid_api_key self)) (email_from self)
                                 to_email subject body w in
    match r with
    | Raised e => (w', Raised e)
    | Returned status_code =>
        match raise_for_status status_code with
        | Raised e => (w', Raised e)
        | Returned _ => (w', Returned true)
        end
    end.

(** [EmailSender._send_via_smtp], lines 62-82. *)
Definition send_via_smtp (self : EmailSender) (to_email subject body : string)
  : World -> World * outcome bool :=
  fun w =>
    let (w', r) := smtp_session (smtp_host self) (smtp_port self)
                                (default "" (smtp_user self))
                                (default "" (smtp_password self))
                                (email_from self) to_email subject body w in
    match r with
    | Raised e => (w', Raised e)
    | Returned _ => (w', Returned true)
    end.

(** [EmailSender._send_mock], lines 84-88: it only logs. *)
Definition send_mock (self : EmailSender) (to_email subject body : string)
  : World -> World * outcome bool :=
  fun w => (w, Returned true).

(** The body of [EmailSender.send], lines 32-38. *)
Definition send_body (self : EmailSender) (to_email subject body : string)
  : World -> World * outcome bool :=
  if truthy_opt (sendgrid_api_key self) then
    send_via_sendgrid self to_email subject body
  else if truthy_opt (smtp_user self) && truthy_opt (smtp_password self) then
    send_via_smtp self to_email subject body
  else
    send_mock self to_email subject body.

(** [EmailSender.send] as decorated on line 29:
    [@retry_with_backoff(max_retries=3, initial_delay=1.0)], the other
    arguments at their defaults. *)
Definition send_traced (self : EmailSender) (to_email subject body : string)
  : World -> World * outcome bool * list (Retry.event bool) :=
  Retry.wrapper time_sleep 3 1 60 2 isinstance_Exception
                (send_body self to_email subject body).

Definition send (self : EmailSender) (to_email subject body : string)
  : World -> World * outcome bool :=
  fun w => fst (send_traced self to_email subject body w).

End WithWorld.

End Sender.

(** ** services/email_service/http_client.py and
       services/api_gateway/http_client.py: the decorated getters *)

Module HttpClient.

(** A response of [requests.get]: its status, and what
    [response.json()] gives, read as the getters read it
    ([data.get("success")] by its truthiness, [data.get("data")] as
    [None] when absent or falsy). *)
Record JsonBody (A : Type) := Body {
  j_success : bool;
  j_data : option A
}.
Arguments Body {A} j_success j_data.
Arguments j_success {A} _.
Arguments j_data {A} _.

Record Response (A : Type) := Resp {
  status_code : Z;
  json : outcome (JsonBody A)
}.
Arguments Resp {A} status_code json.
Arguments status_code {A} _.
Arguments json {A} _.

Section WithWorld.
Context {World A : Type} (time_time : World -> Q).
(** [requests.get(url, ..., timeout=5)] *)
Context (requests_get : string -> World -> World * outcome (Response A)).

(** The body shared by [get_user] and [get_template]: the request,
    [raise_for_status], [response.json()], then the [data] field when
    the envelope says success. *)
Definition fetch (key : string) : World -> World * outcome (option A) :=
  fun w =>
    let (w', r) := requests_get key w in
    match r with
    | Raised e => (w', Raised e)
    | Returned response =>
        match Sender.raise_for_status (status_code response) with
        | Raised e => (w', Raised e)
        | Returned _ =>
            match json response with
            | Raised e => (w', Raised e)
            | Returned data =>
                if j_success data && bool_decide (is_Some (j_data data))
                then (w', Returned (j_data data))
                else (w', Returned None)
            end
        end
    end.

(** [@circuit_breaker(failure_threshold=5, recovery_timeout=60)]: the
    wrapper calls the one breaker the decorator made. *)
Definition fresh_breaker : CircuitBreaker.t :=
  CircuitBreaker.init 5 60 isinstance_Exception.

Definition decorated (breaker : CircuitBreaker.t) (key : string) (w : World)
  : CircuitBreaker.t * World * outcome (option A) :=
  CircuitBreaker.call time_time breaker (fetch key) w.

End WithWorld.

End HttpClient.

(** ** services/api_gateway/main.py: the other handlers *)

Module GatewayViews.
Import Model Idempotency Gateway.

(** [ResponseModel[T]] with the data of these handlers. *)
Record ResponseOf (T : Type) := RespOf {
  r_success : bool;
  r_data : option T;
  r_error : option string;
  r_message : string
}.
Arguments RespOf {T} r_success r_data r_error r_message.
Arguments r_success {T} _.
Arguments r_data {T} _.
Arguments r_error {T} _.
Arguments r_message {T} _.

Definition ok {T} (data : T) (message : string) : ResponseOf T :=
  RespOf true (Some data) None message.

Definition failure {T} (error message : string) : ResponseOf T :=
  RespOf false None (Some error) message.

(** The [data] of [get_notification_status] (without [created_at],
    which the rows here do not carry). *)
Record StatusView := View {
  v_notification_id : string;
  v_status : string;
  v_updated_at : option Q;
  v_error : option string
}.

(** shared/models.py, [PaginationMeta] *)
Record PaginationMeta := Meta {
  total : Z;
  limit : Z;
  page : Z;
  total_pages : Z;
  has_next : bool;
  has_previous : bool
}.

(** One entry of the [data] of [list_notifications]. *)
Record ListItem := Item {
  i_notification_id : string;
  i_status : string;
  i_notification_type : string
}.

Definition ZeroDivisionError : exn :=
  Exn "ZeroDivisionError" "integer division or modulo by zero".

(** The database refuses a negative OFFSET or LIMIT. *)
Definition DataError : exn :=
  Exn "DataError" "OFFSET and LIMIT must not be negative".

Section WithWorld.
Context {World : Type} (uuid_in : string -> outcome string) (time_time : World -> Q).

(** [get_notification_status(notification_id, user_id)],
    lines 182-217. *)
Definition get_notification_status (notification_id user_id : string)
  : M (St World) (ResponseOf StatusView) :=
  try_except
    (notification ← select_by_id uuid_in notification_id;
     match notification with
     | None => mret (failure "Notification not found" "Status retrieval failed")
     | Some notification =>
         if negb (String.eqb (n_user_id notification) user_id) then
           mret (failure "Unauthorized" "Access denied")
         else
           mret (ok (View (n_id notification) (n_status notification)
                          (n_updated_at notification) (n_error notification))
                    "Status retrieved successfully")
     end)
    (fun e => mret (failure (exn_str e) "Failed to retrieve status")).

(** [update_notification_status(notification_id, status_update,
    user_id)], the user endpoint, lines 227-267. *)
Definition update_notification_status (notification_id : string)
    (status_update : NotificationStatusUpdate) (user_id : string)
  : M (St World) ResponseModel :=
  try_except
    (notification ← select_by_id uuid_in notification_id;
     match notification with
     | None => mret (error_response "Notification not found" "Status update failed")
     | Some notification =>
         if negb (String.eqb (n_user_id notification) user_id) then
           mret (error_response "Unauthorized" "Access denied")
         else
           let new_status := status_value (upd_status status_update) in
           let new_error :=
             if truthy_opt (upd_error status_update)
             then upd_error status_update
             else n_error notification in
           now ← (fun s => (s, Returned (time_time (world s))));
           db_update
             (Row (n_id notification) (n_user_id notification)
                  (n_notification_type notification)
                  (n_template_code notification)
                  new_status (n_priority notification)
                  (n_metadata notification) new_error (Some now));;
           mret (success_response
                   [("notification_id", notification_id); ("status", new_status)]
                   "Status updated successfully")
     end)
    (fun e => mret (error_response (exn_str e) "Failed to update status")).

(** The rows a user owns, in the order of the table. *)
Definition owned_by (user_id : string) (rows : list Notification) : list Notification :=
  List.filter (fun r => String.eqb (n_user_id r) user_id) rows.

(** [.offset(offset).limit(limit).all()] *)
Definition offset_limit {A} (offset limit : Z) (rows : list A) : outcome (list A) :=
  if (offset <? 0) || (limit <? 0) then Raised DataError
  else Returned (take (Z.to_nat limit) (drop (Z.to_nat offset) rows)).

(** [x // y] *)
Definition floordiv (x y : Z) : outcome Z :=
  if y =? 0 then Raised ZeroDivisionError else Returned (x / y).

(** The [try] block of [list_notifications(page, limit, user_id)],
    lines 329-360. *)
Definition list_try (page limit : Z) (user_id : string)
  : M (St World) (ResponseOf (list ListItem) * option PaginationMeta) :=
  fun s =>
    let offset := (page - 1) * limit in
    let mine := owned_by user_id (table s) in
    match offset_limit offset limit mine with
    | Raised e => (s, Raised e)
    | Returned notifications =>
        let total := Z.of_nat (length mine) in
        match floordiv (total + limit - 1) limit with
        | Raised e => (s, Raised e)
        | Returned total_pages =>
            let meta := Meta total limit page total_pages
                             (page <? total_pages) (1 <? page) in
            let data :=
              (fun n => Item (n_id n) (n_status n) (n_notification_type n))
                <$> notifications in
            (s, Returned (ok data "Notifications retrieved successfully", Some meta))
        end
    end.

(** [list_notifications(page, limit, user_id)] *)
Definition list_notifications (page limit : Z) (user_id : string)
  : M (St World) (ResponseOf (list ListItem) * option PaginationMeta) :=
  try_except (list_try page limit user_id)
    (fun e => mret (failure (exn_str e) "Failed to list notifications", None)).

End WithWorld.

End GatewayViews.

(** ** services/api_gateway/database.py *)

Module Database.

Definition OperationalError (msg : string) : exn := Exn "OperationalError" msg.

Definition is_OperationalError (e : exn) : bool :=
  String.eqb (exn_class e) "OperationalError".

(** What [init_db] does to the outside, in order. *)
Inductive event :=
| Connect (r : outcome unit)
| Sleep (secs : Z).

Section WithWorld.
Context {World : Type}.
(** The body of the [try]: [SELECT 1] on a new connection, then
    [create_all]. *)
Context (connect_and_create : World -> World * outcome unit).
Context (time_sleep : Z -> World -> World).

(** The loop of [init_db] with [k] iterations left at index
    [attempt]; [max_retries = 5], [retry_delay = 2]. *)
Fixpoint init_loop (k : nat) (attempt : Z) (w : World)
  : World * outcome unit * list event :=
  match k with
  | O => (w, Returned tt, [])
  | S k' =>
      let (w1, r) := connect_and_create w in
      match r with
      | Returned _ => (w1, Returned tt, [Connect r])
      | Raised e =>
          if is_OperationalError e then
            if attempt <? 5 - 1 then
              let '(w2, r2, evs) := init_loop k' (attempt + 1) (time_sleep 2 w1) in
              (w2, r2, Connect r :: Sleep 2 :: evs)
            else (w1, Raised e, [Connect r])
          else (w1, Raised e, [Connect r])
      end
  end.

(** [init_db()] *)
Definition init_db (w : World) : World * outcome unit * list event :=
  init_loop 5 0 w.

End WithWorld.

Definition connects (evs : list event) : list (outcome unit) :=
  omap (fun ev => match ev with Connect r => Some r | Sleep _ => None end) evs.

Definition sleeps (evs : list event) : list Z :=
  omap (fun ev => match ev with Sleep d => Some d | Connect _ => None end) evs.

(** A connection attempt that raised [OperationalError]. *)
Definition unreachable (r : outcome unit) : bool :=
  match r with
  | Raised e => is_OperationalError e
  | Returned _ => false
  end.

End Database.

(** * Concrete runs

    Messages, collaborators and states on which the functions above
    are evaluated. *)

Module BreakerScenario.
Import CircuitBreaker.

(** A world that is its own clock, and two operations on it. *)
Definition clock_time (w : Q) : Q := w.

Definition failing_op : @operation Q unit :=
  fun w => ((w + 1)%Q, Raised (Exception "connection refused")).

Definition ok_op : @operation Q unit :=
  fun w => ((w + 1)%Q, Returned tt).

Definition tripped : t := Make 5 60 isinstance_Exception 5 (Some 100%Q) OPEN.

Definition about_to_trip : t := Make 5 60 isinstance_Exception 4 (Some 99%Q) CLOSED.

(** Five failing calls, ten seconds apart. *)
Definition five_failing_calls : list (@operation Q unit * Q) :=
  [(failing_op, 0%Q); (failing_op, 10%Q); (failing_op, 20%Q);
   (failing_op, 30%Q); (failing_op, 40%Q)].

(** A sender that is down: the world counts the calls made to it. *)
Definition smtp_down : nat -> nat * outcome bool :=
  fun w => (S w, Raised (Exception "smtp unreachable")).

Definition no_sleep : Q -> nat -> nat := fun _ w => w.

End BreakerScenario.

Module ConsumerScenario.
Import Model Consumer.

Definition body_42 : string :=
  "{request_id: r-42, user_id: u-7, template_code: welcome}".

Definition message_42 : QueueMessage :=
  QMsg (Some "r-42") (Some "u-7") (Some "welcome")
       {["name" := "Ada"; "link" := "https://example.com/a"]} (Some 5) ∅.

Definition json_loads_42 (body : string) : outcome Json :=
  if String.eqb body body_42 then Returned (JObject message_42)
  else Raised (Exn "JSONDecodeError" "Expecting value").

Definition user_ada : UserData :=
  User (Some "ada@example.com") (Some "fcm-token-ada") (Some true) (Some true).

Definition user_opted_out : UserData :=
  User (Some "ada@example.com") (Some "fcm-token-ada") (Some false) (Some false).

(** The world is its own clock; every call to the outside takes a second. *)
Definition tick {A} (r : outcome A) : Q -> Q * outcome A :=
  fun w => ((w + 1)%Q, r).

Definition get_user_ada (_ : option string) := tick (Returned (Some user_ada)).
Definition get_user_opted_out (_ : option string) := tick (Returned (Some user_opted_out)).
Definition get_user_missing (_ : option string) := tick (Returned (@None UserData)).
Definition get_template_ok (_ : option string) := tick (Returned (Some (Tmpl (Some "email")))).
Definition render_ok (_ : option string) (_ : gmap string string) :=
  tick (Returned (Some (Rend (Some "Welcome") (Some "<p>Hello Ada</p>")))).
Definition email_send_ok (_ _ _ : string) := tick (Returned true).
Definition push_send_ok (_ _ _ : string) (_ : gmap string string) := tick (Returned true).
Definition post_ok (_ _ : string) (_ : option string) := tick (Returned 200).
Definition post_500 (_ _ : string) (_ : option string) := tick (Returned 500).
Definition post_unreachable (_ _ : string) (_ : option string) :=
  tick (@Raised Z (Exn "ConnectionError" "connection refused")).
Definition push_report_ok (_ _ : string) (_ : option string) := tick (Returned tt).

Definition fresh_breaker : CircuitBreaker.t :=
  CircuitBreaker.init 5 60 isinstance_Exception.

(** The properties of a message as the gateway publishes it. *)
Definition published_props : Broker.BasicProperties :=
  Broker.Props None (Some 2) (Some "application/json").

Definition start (props : Broker.BasicProperties) : St Q :=
  MkSt 0%Q fresh_breaker props [].

(** The email queue with one message as the gateway publishes it. *)
Definition one_email_published : Broker.t :=
  Broker.QueueManager_publish "email" body_42 Broker.topology.

(** The email callback when the user of the message does not exist. *)
Definition email_callback_user_missing : Z -> string -> M (St Q) unit :=
  email_process_message (fun w => w) json_loads_42 get_user_missing get_template_ok
    render_ok post_ok email_send_ok.

(** The push callback for the same user. *)
Definition push_callback_user_missing : Z -> string -> M (St Q) unit :=
  push_process_message (fun w => w) json_loads_42 get_user_missing get_template_ok
    render_ok push_report_ok push_send_ok.

Definition one_push_published : Broker.t :=
  Broker.QueueManager_publish "push" body_42 Broker.topology.

(** The email queue with one message at the retry limit. *)
Definition one_email_exhausted : Broker.t :=
  Broker.basic_publish "notifications.direct" "email" body_42
    (Broker.Props (Some {["x-retry-count" := 3]}) (Some 2) None) Broker.topology.

End ConsumerScenario.

Module GatewayScenario.
Import Model Idempotency Gateway.

(** A reading of texts as uuids that takes the canonical form only,
    32 lower-case hexadecimal digits in groups of 8, 4, 4, 4 and 12,
    and prints it as it is. *)
Definition hex_digit (c : Ascii.ascii) : bool :=
  let n := Ascii.nat_of_ascii c in
  ((48 <=? n)%nat && (n <=? 57)%nat) || ((97 <=? n)%nat && (n <=? 102)%nat).

Fixpoint canonical_from (i : nat) (s : string) : bool :=
  match s with
  | EmptyString => (i =? 36)%nat
  | String c s' =>
      (if (i =? 8)%nat || (i =? 13)%nat || (i =? 18)%nat || (i =? 23)%nat
       then (Ascii.nat_of_ascii c =? 45)%nat else hex_digit c)
      && canonical_from (S i) s'
  end.

Definition uuid_canonical (s : string) : outcome string :=
  if canonical_from 0 s then Returned s
  else Raised (Exn "DataError" ("invalid input syntax for type uuid: " ++ s)).

(** The id of the notification of the runs below. *)
Definition id_42 : string := "0b7e4c1a-5d3f-4e2a-9c68-1f2d3a4b5c6d".

(** A table with one delivered notification, and a late [failed]. *)
Definition delivered_row : Notification :=
  Row id_42 "u-7" "email" "welcome" "delivered" 5 ∅ None (Some 10%Q).




Definition gateway_state : St Q := MkSt 20%Q ∅ [delivered_row] [].

Definition late_failure : NotificationStatusUpdate :=
  Upd failed None (Some "User u-7 not found or has no email").

(** A gateway with nothing in it and collaborators that know the
    user and the template. *)
Definition request_42 : NotificationRequest :=
  Req type_email "u-7" "welcome"
      {["name" := "Ada"; "link" := "https://example.com/a"]} (Some id_42) 5 ∅.

Definition uuid4_fixed : Q -> Q * string :=
  fun w => (w, "7c9e6679-7425-40de-944b-e07fc1f90ae7").

Definition gw_get_user (_ : string) :=
  ConsumerScenario.tick (Returned (Some ConsumerScenario.user_ada)).
Definition gw_get_template (_ : string) :=
  ConsumerScenario.tick (Returned (Some (Tmpl (Some "email")))).
Definition gw_publish (_ : string) (_ : QueueMessage) :=
  ConsumerScenario.tick (Returned tt).

Definition empty_gateway : St Q := MkSt 0%Q ∅ [] [].

Definition post_notification (notification : NotificationRequest) (user_id : string)
  : M (St Q) ResponseModel :=
  create_notification uuid_canonical (fun w => w) uuid4_fixed gw_get_user
    gw_get_template gw_publish 3600 notification user_id.


End GatewayScenario.

(** * Further notions and runs *)

Module BreakerInvariant.
Import CircuitBreaker.

(** What holds of a breaker however it has been used. *)
Definition consistent (b : t) : Prop :=
  0 < failure_threshold b
  /\ match state b with
     | CLOSED => 0 <= failure_count b < failure_threshold b
     | OPEN | HALF_OPEN =>
         failure_threshold b <= failure_count b /\ is_Some (last_failure_time b)
     end.

(** A returning operation on the clock world of [BreakerScenario]. *)
Definition ok_after (secs : Q) : @operation Q unit :=
  fun w => ((w + secs)%Q, Returned tt).

End BreakerInvariant.

Module RetrySpec.

(** An attempt that ended in an exception of the retried classes. *)
Definition retried {A} (exceptions : exn -> bool) (r : outcome A) : bool :=
  match r with
  | Raised e => exceptions e
  | Returned _ => false
  end.

(** A flaky operation on a world that counts the calls made: it
    fails until the third call. *)
Definition third_time_lucky : nat -> nat * outcome bool :=
  fun w => (S w, if (w <? 2)%nat then Raised (Exception "timeout") else Returned true).

End RetrySpec.

Module SenderScenario.
Import Sender.

(** No SendGrid key and no SMTP credentials. *)
Definition unconfigured : EmailSender :=
  MkSender None "smtp.gmail.com" 587 None None "noreply@example.com".

Definition with_sendgrid : EmailSender :=
  MkSender (Some "SG.key") "smtp.gmail.com" 587 (Some "mailer") (Some "secret")
           "noreply@example.com".

(** The world counts the requests made. *)
Definition sendgrid_503 (_ _ _ _ _ : string) : nat -> nat * outcome Z :=
  fun w => (S w, Returned 503).

Definition smtp_ok (_ : string) (_ : Z) (_ _ _ _ _ _ : string)
  : nat -> nat * outcome unit :=
  fun w => (S w, Returned tt).

(** The request to SendGrid raised or was answered with an error
    status. *)
Definition sendgrid_fails (r : outcome Z) : Prop :=
  match r with
  | Raised _ => True
  | Returned status_code => 400 <= status_code < 600
  end.

End SenderScenario.

Module HttpScenario.
Import HttpClient Model.

(** The User Service answers 200 with an error envelope when it does
    not know the user. *)
Definition user_unknown : Response UserData :=
  Resp 200 (Returned (Body false None)).

Definition get_unknown (_ : string) : Q -> Q * outcome (Response UserData) :=
  fun w => ((w + 1)%Q, Returned user_unknown).

End HttpScenario.

Module GatewaySpec.
Import Model Gateway.

(** The routing keys of the publishes in a gateway trace. *)
Definition published_keys (tr : list Gateway.effect) : list string :=
  omap (fun ev => match ev with
                  | Published routing_key _ => Some routing_key
                  | _ => None
                  end) tr.

(** The primary keys of a table. *)
Definition ids (rows : list Notification) : list string := n_id <$> rows.

(** A broker that cannot be reached. *)
Definition gw_publish_down (_ : string) (_ : QueueMessage) : Q -> Q * outcome unit :=
  fun w => ((w + 1)%Q, Raised (Exn "AMQPConnectionError" "connection refused")).

(** A second pending notification of another user. *)
Definition other_row : Notification :=
  Row "5f0c2d9e-8a41-4b7c-b3d2-6e1f0a9c8b7d" "u-8" "push" "promo" "pending" 5 ∅ None None.

Definition two_rows : St Q :=
  MkSt 20%Q ∅ [GatewayScenario.delivered_row; other_row] [].

(** The row an accepted status update writes. *)
Definition updated (row : Notification) (status_update : NotificationStatusUpdate)
    (now : Q) : Notification :=
  Row (n_id row) (n_user_id row) (n_notification_type row) (n_template_code row)
      (status_value (upd_status status_update)) (n_priority row) (n_metadata row)
      (if truthy_opt (upd_error status_update)
       then upd_error status_update else n_error row)
      (Some now).

End GatewaySpec.

Module ConsumerSpec.
Import Model Consumer.

(** The three ways a delivery is settled on the channel: one ack;
    one nack with requeue; one nack without requeue followed by the
    republish of the body under the routing key [failed]. *)
Definition settled_once (delivery_tag : Z) (body : string) (new : list effect) : Prop :=
  (acks new = [delivery_tag] /\ nacks new = [] /\ publishes new = [])
  \/ (acks new = [] /\ nacks new = [(delivery_tag, true)] /\ publishes new = [])
  \/ (acks new = [] /\ nacks new = [(delivery_tag, false)]
      /\ publishes new = [("failed", body)]).

(** A consumer whose breaker tripped at time 100, ten seconds ago. *)
Definition start_tripped : St Q :=
  MkSt 110%Q BreakerScenario.tripped ConsumerScenario.published_props [].

(** A sender that must not be reached. *)
Definition email_send_false (_ _ _ : string) : Q -> Q * outcome bool :=
  ConsumerScenario.tick (Returned false).

End ConsumerSpec.

Module BrokerSpec.
Import Broker.

(** A broker on which the declarations of the services are accepted:
    the queues it has are durable, and the exchange
    [notifications.direct], if it is there, is a direct one. *)
Definition accepts_declarations (b : t) : Prop :=
  map_Forall (fun _ q => durable q = true) (queues b)
  /\ default "direct" (exchanges b !! "notifications.direct") = "direct".

(** What makes a start-up step safe to repeat on a running broker:
    every queue keeps its messages, the deliveries in flight stay, and
    a second run changes nothing. *)
Definition harmless (f : t -> t) (b : t) : Prop :=
  (forall name, queue_messages name (f b) = queue_messages name b)
  /\ unacked (f b) = unacked b
  /\ f (f b) = f b.

(** The queue of a channel. *)
Definition queue_of (routing_key : string) : string := routing_key ++ ".queue".

End BrokerSpec.

(** * Properties *)

(** ** Rational comparisons *)

Lemma Qgtb_true x y : Qgtb x y = true <-> (y < x)%Q.
Proof.
  unfold Qgtb. rewrite negb_true_iff, <- not_true_iff_false, Qle_bool_iff.
  split; [apply Qnot_le_lt | apply Qlt_not_le].
Qed.

Lemma Qgtb_false x y : Qgtb x y = false <-> (x <= y)%Q.
Proof.
  unfold Qgtb. rewrite negb_false_iff. apply Qle_bool_iff.
Qed.

(** ** The circuit breaker *)

Module CircuitBreakerFacts.
Import CircuitBreaker BreakerScenario.

Section Facts.
Context {World A : Type} (time_time : World -> Q).
Implicit Types (self : t) (func : @operation World A) (w : World).

Lemma gate_not_open self w :
  state self <> OPEN -> gate time_time self w = inr self.
Proof. unfold gate. destruct (state self); congruence. Qed.

Lemma gate_open_early self w last :
  state self = OPEN -> last_failure_time self = Some last ->
  (time_time w - last <= recovery_timeout self)%Q ->
  gate time_time self w = inl circuit_open_error.
Proof.
  intros Hs Hl Hle. unfold gate. rewrite Hs, Hl.
  apply Qgtb_false in Hle. now rewrite Hle.
Qed.

Lemma gate_open_late self w last :
  state self = OPEN -> last_failure_time self = Some last ->
  (recovery_timeout self < time_time w - last)%Q ->
  gate time_time self w = inr (set_state HALF_OPEN self).
Proof.
  intros Hs Hl Hlt. unfold gate. rewrite Hs, Hl.
  apply Qgtb_true in Hlt. now rewrite Hlt.
Qed.

Lemma invoke_fails self func w :
  fails self func w ->
  invoke time_time self func w
  = (on_failure (time_time (fst (func w))) self, fst (func w), snd (func w)).
Proof.
  intros (e & He & Hexp). unfold invoke.
  destruct (func w) as [w' r]; simpl in *. subst r. now rewrite Hexp.
Qed.

Lemma invoke_succeeds self func w :
  succeeds func w ->
  invoke time_time self func w = (on_success self, fst (func w), snd (func w)).
Proof.
  intros (a & Ha). unfold invoke.
  destruct (func w) as [w' r]; simpl in *. now subst r.
Qed.

Lemma call_closed_fails self func w :
  state self = CLOSED -> fails self func w ->
  fst (fst (call time_time self func w))
  = on_failure (time_time (fst (func w))) self.
Proof.
  intros Hs Hf. unfold call.
  rewrite gate_not_open by congruence. now rewrite invoke_fails.
Qed.

(** What a failure does to a breaker that has not opened. *)
Lemma on_failure_fields now self :
  on_failure now self
  = Make (failure_threshold self) (recovery_timeout self)
         (expected_exception self) (failure_count self + 1) (Some now)
         (if failure_threshold self <=? failure_count self + 1
          then OPEN else state self).
Proof.
  unfold on_failure; simpl. now destruct (_ <=? _).
Qed.

(** The breaker after five failing calls from a fresh start. *)
Lemma five_failures rt expected (l : list (@operation World A * World)) :
  length l = 5%nat ->
  Forall (fun c => fails (init 5 rt expected) (fst c) (snd c)) l ->
  exists c, last l = Some c /\
    calls time_time (init 5 rt expected) l
    = Make 5 rt expected 5 (Some (time_time (fst (fst c (snd c))))) OPEN.
Proof.
  intros Hlen Hall.
  destruct l as [|[f1 w1] [|[f2 w2] [|[f3 w3] [|[f4 w4] [|[f5 w5] [|? ?]]]]]];
    try discriminate Hlen.
  repeat match goal with
         | H : Forall _ (_ :: _) |- _ => apply Forall_cons in H; destruct H
         end.
  exists (f5, w5). split; [reflexivity|].
  unfold init in *. simpl in *.
  rewrite (call_closed_fails _ f1 w1), on_failure_fields by (reflexivity || assumption).
  simpl.
  rewrite (call_closed_fails _ f2 w2), on_failure_fields by (reflexivity || assumption).
  simpl.
  rewrite (call_closed_fails _ f3 w3), on_failure_fields by (reflexivity || assumption).
  simpl.
  rewrite (call_closed_fails _ f4 w4), on_failure_fields by (reflexivity || assumption).
  simpl.
  rewrite (call_closed_fails _ f5 w5), on_failure_fields by (reflexivity || assumption).
  reflexivity.
Qed.

(** C6. While the breaker is OPEN and no more than
    [recovery_timeout] has passed since [last_failure_time], [call]
    raises the fail-fast exception at once: whatever the wrapped
    operation is, the world comes back as it was given (the
    operation was not run) and the breaker comes back with its
    state, failure count and last failure time unchanged. *)
Theorem open_breaker_fails_fast self func w last :
  state self = OPEN ->
  last_failure_time self = Some last ->
  (time_time w - last <= recovery_timeout self)%Q ->
  call time_time self func w = (self, w, Raised circuit_open_error).
Proof.
  intros Hs Hl Hle. unfold call.
  now rewrite (gate_open_early self w last).
Qed.

(** A call that returns leaves the counter at zero; a call that
    raises, refused at the gate or failed, never lowers it. *)
Lemma call_failure_count self func w :
  match snd (call time_time self func w) with
  | Returned _ => failure_count (fst (fst (call time_time self func w))) = 0
  | Raised _ =>
      failure_count self <= failure_count (fst (fst (call time_time self func w)))
  end.
Proof.
  assert (Hinvoke : forall b : t,
             state b <> OPEN -> failure_count b = failure_count self ->
             match snd (invoke time_time b func w) with
             | Returned _ => failure_count (fst (fst (invoke time_time b func w))) = 0
             | Raised _ =>
                 failure_count self <= failure_count (fst (fst (invoke time_time b func w)))
             end).
  { intros b Hb Hc. unfold invoke. destruct (func w) as [w' [a|e]]; simpl.
    - unfold on_success. destruct (state b); [reflexivity | congruence | reflexivity].
    - destruct (expected_exception b e); simpl; [|lia].
      rewrite on_failure_fields. simpl. lia. }
  unfold call, gate. destruct (state self) eqn:Hs.
  - apply Hinvoke; [congruence | reflexivity].
  - destruct (last_failure_time self) as [last|]; [|simpl; lia].
    destruct (Qgtb _ _); [|simpl; lia].
    apply Hinvoke; [discriminate | reflexivity].
  - apply Hinvoke; [congruence | reflexivity].
Qed.

(** C7, as the code has it.  A counted failure that brings the
    failure counter of a CLOSED breaker to [failure_threshold] (or
    beyond) opens the breaker and records the time of that failure
    in [last_failure_time]; the counter is not reset, it keeps the
    value it has reached.  Afterwards, as at any time, only a call
    that returns sets the counter to zero: whatever state [later] the
    breaker is in, a call on it that returns leaves the counter at
    zero, and a call that raises (refused by the open breaker, or
    failed) leaves it where it was or higher. *)
Theorem threshold_failure_opens self func w :
  state self = CLOSED ->
  fails self func w ->
  failure_threshold self <= failure_count self + 1 ->
  let self' := fst (fst (call time_time self func w)) in
  state self' = OPEN
  /\ failure_count self' = failure_count self + 1
  /\ last_failure_time self' = Some (time_time (fst (func w)))
  /\ forall later (func' : @operation World A) w',
       match snd (call time_time later func' w') with
       | Returned _ =>
           failure_count (fst (fst (call time_time later func' w'))) = 0
       | Raised _ =>
           failure_count later
           <= failure_count (fst (fst (call time_time later func' w')))
       end.
Proof.
  intros Hs Hf Hth. cbv zeta.
  rewrite call_closed_fails, on_failure_fields by assumption. simpl.
  apply Z.leb_le in Hth. rewrite Hth.
  split; [reflexivity|]. split; [reflexivity|]. split; [reflexivity|].
  intros later func' w'. apply call_failure_count.
Qed.

(** C3. A breaker with [failure_threshold=5] that starts CLOSED is
    OPEN after five consecutive failing calls, with the time of the
    fifth failure recorded.  A further call no later than
    [recovery_timeout] after that failure raises and leaves the
    world untouched, so the operation is not invoked.  A call later
    than that passes the gate as HALF_OPEN and runs the operation;
    when the operation returns the breaker is CLOSED, when it fails
    the breaker is OPEN again. *)
Theorem five_failures_open_then_probe rt expected
    (l : list (@operation World A * World)) :
  let b0 := init 5 rt expected in
  length l = 5%nat ->
  Forall (fun c => fails b0 (fst c) (snd c)) l ->
  let b5 := calls time_time b0 l in
  state b5 = OPEN
  /\ exists c t5,
       last l = Some c
       /\ t5 = time_time (fst (fst c (snd c)))
       /\ last_failure_time b5 = Some t5
       /\ (forall func w,
             (time_time w - t5 <= rt)%Q ->
             call time_time b5 func w = (b5, w, Raised circuit_open_error))
       /\ (forall func w,
             (rt < time_time w - t5)%Q ->
             exists half,
               gate time_time b5 w = inr half
               /\ state half = HALF_OPEN
               /\ call time_time b5 func w = invoke time_time half func w
               /\ snd (fst (call time_time b5 func w)) = fst (func w)
               /\ snd (call time_time b5 func w) = snd (func w)
               /\ (succeeds func w ->
                   state (fst (fst (call time_time b5 func w))) = CLOSED)
               /\ (fails b0 func w ->
                   state (fst (fst (call time_time b5 func w))) = OPEN)).
Proof.
  intros b0 Hlen Hall b5.
  destruct (five_failures rt expected l Hlen Hall) as (c & Hlast & Hb5).
  subst b0 b5. rewrite Hb5. split; [reflexivity|].
  exists c, (time_time (fst (fst c (snd c)))).
  repeat split; try assumption.
  - intros func w Hle. unfold call.
    now rewrite (gate_open_early _ w (time_time (fst (fst c (snd c))))).
  - intros func w Hlt.
    eexists. split.
    { apply gate_open_late with (last := time_time (fst (fst c (snd c))));
        [reflexivity | reflexivity | exact Hlt]. }
    split; [reflexivity|].
    unfold call.
    rewrite (gate_open_late _ w (time_time (fst (fst c (snd c)))))
      by (reflexivity || exact Hlt).
    split; [reflexivity|].
    unfold invoke, succeeds, fails. destruct (func w) as [w' r] eqn:Hfw.
    split; [destruct r as [a|e]; [reflexivity | simpl; now destruct (expected e)]|].
    split; [destruct r as [a|e]; [reflexivity | simpl; now destruct (expected e)]|].
    split.
    + intros (a & Ha). simpl in Ha. subst r. reflexivity.
    + intros (e & He & Hexp). simpl in He, Hexp. subst r. simpl.
      rewrite Hexp. reflexivity.
Qed.

End Facts.

Lemma open_breaker_fails_fast_witness :
  call clock_time tripped ok_op 130%Q = (tripped, 130%Q, Raised circuit_open_error).
Proof.
  apply (open_breaker_fails_fast clock_time tripped ok_op 130%Q 100%Q).
  - reflexivity.
  - reflexivity.
  - vm_compute. discriminate.
Defined.

Lemma threshold_failure_opens_witness :
  let self' := fst (fst (call clock_time about_to_trip failing_op 100%Q)) in
  state self' = OPEN
  /\ failure_count self' = 4 + 1
  /\ last_failure_time self' = Some (clock_time (fst (failing_op 100%Q))).
Proof.
  destruct (threshold_failure_opens clock_time about_to_trip failing_op 100%Q)
    as (Hstate & Hcount & Htime & _).
  - reflexivity.
  - exists (Exception "connection refused"). split; reflexivity.
  - vm_compute. discriminate.
  - auto.
Defined.

(** C7 as it is written fails: the breaker that opens on its fifth
    failure keeps a failure count of 5, it is not back at zero. *)
Lemma threshold_failure_keeps_count :
  let self' := fst (fst (call clock_time about_to_trip failing_op 100%Q)) in
  ~ (state self' = OPEN
     /\ failure_count self' = 0
     /\ last_failure_time self' = Some (clock_time (fst (failing_op 100%Q)))).
Proof.
  vm_compute. intros (_ & H & _). discriminate H.
Qed.

Lemma five_failures_open_then_probe_witness :
  let b5 := calls clock_time (init 5 60 isinstance_Exception) five_failing_calls in
  state b5 = OPEN
  /\ call clock_time b5 ok_op 50%Q = (b5, 50%Q, Raised circuit_open_error)
  /\ state (fst (fst (call clock_time b5 ok_op 200%Q))) = CLOSED
  /\ state (fst (fst (call clock_time b5 failing_op 200%Q))) = OPEN.
Proof.
  destruct (five_failures_open_then_probe clock_time 60%Q isinstance_Exception
              five_failing_calls) as (Hopen & c & t5 & Hlast & Ht5 & _ & Hearly & Hlate).
  - reflexivity.
  - repeat constructor; exists (Exception "connection refused"); split; reflexivity.
  - injection Hlast as <-. subst t5.
    split; [exact Hopen|]. split; [|split].
    + apply Hearly. vm_compute. discriminate.
    + destruct (Hlate ok_op 200%Q) as (half & _ & _ & _ & _ & _ & Hok & _);
        [vm_compute; reflexivity|].
      apply Hok. exists tt. reflexivity.
    + destruct (Hlate failing_op 200%Q) as (half & _ & _ & _ & _ & _ & _ & Hko);
        [vm_compute; reflexivity|].
      apply Hko. exists (Exception "connection refused"). split; reflexivity.
Defined.

End CircuitBreakerFacts.

(** ** The retry wrapper *)

Module RetryFacts.
Import Retry BreakerScenario.

Lemma py_min_Qmin a b : py_min a b = Qmin a b.
Proof.
  unfold py_min, Qgtb, Qle_bool, Qmin, GenericMinMax.gmin, Qcompare, Z.leb.
  now destruct (_ ?= _).
Qed.

Lemma Qpower_of_nat_succ (b : Q) (i : nat) :
  (b ^ Z.of_nat (S i) == b ^ Z.of_nat i * b)%Q.
Proof.
  rewrite Nat2Z.inj_succ, <- Z.add_1_r.
  rewrite Qpower_plus' by lia. now rewrite Qpower_1_r.
Qed.

Lemma Qmin_left (x y : Q) : (x <= y)%Q -> Qmin x y = x.
Proof.
  intros H. unfold Qmin, GenericMinMax.gmin.
  destruct (x ?= y)%Q eqn:E; try reflexivity.
  apply Qgt_alt in E. exfalso. exact (Qlt_not_le _ _ E H).
Qed.

(** [time.sleep] takes a length from zero up to its limit. *)
Lemma sleep_refusal_none (secs : Q) :
  (0 <= secs)%Q -> (secs <= sleep_limit)%Q -> sleep_refusal secs = None.
Proof.
  intros H0 Hmax. unfold sleep_refusal.
  replace (Qgtb secs sleep_limit) with false by (symmetry; now apply Qgtb_false).
  replace (Qgtb (- sleep_limit) secs) with false.
  - replace (Qgtb 0 secs) with false by (symmetry; now apply Qgtb_false).
    reflexivity.
  - symmetry. apply Qgtb_false. apply Qle_trans with 0%Q; [discriminate | exact H0].
Qed.

Lemma sleep_refusal_nonneg (secs : Q) : sleep_refusal secs = None -> (0 <= secs)%Q.
Proof.
  unfold sleep_refusal. destruct (_ || _); [discriminate|].
  destruct (Qgtb 0 secs) eqn:E; [discriminate|]. intros _. now apply Qgtb_false.
Qed.

Section Facts.
Context {World A : Type}.
Context (time_sleep : Q -> World -> World).
Context (max_retries : Z) (initial_delay max_delay exponential_base : Q)
        (exceptions : exn -> bool).
Context (func : World -> World * outcome A).

Local Abbreviation loop :=
  (loop time_sleep max_retries max_delay exponential_base exceptions func).

Lemma loop_unfold k attempt delay last_exception w :
  loop (S k) attempt delay last_exception w
  = let (w1, r) := func w in
    match r with
    | Returned a => (w1, Returned a, [Attempt r])
    | Raised e =>
        if exceptions e then
          if attempt <? max_retries then
            let secs := py_min delay max_delay in
            match sleep_refusal secs with
            | Some refused => (w1, Raised refused, [Attempt r])
            | None =>
                let '(w2, r2, evs) :=
                  loop k (attempt + 1) (delay * exponential_base)%Q
                       (Some e) (time_sleep secs w1) in
                (w2, r2, Attempt r :: Sleep secs :: evs)
            end
          else (w1, Raised e, [Attempt r])
        else (w1, Raised e, [Attempt r])
    end.
Proof. reflexivity. Qed.

(** No more attempts than iterations of the loop. *)
Lemma loop_attempts_bound k attempt delay last_exception w :
  (length (attempts (snd (loop k attempt delay last_exception w))) <= k)%nat.
Proof.
  revert attempt delay last_exception w.
  induction k as [|k IH]; intros attempt delay last_exception w.
  - simpl. lia.
  - rewrite loop_unfold.
    destruct (func w) as [w1 [a|e]]; [simpl; lia|].
    destruct (exceptions e); [|simpl; lia].
    destruct (attempt <? max_retries); [|simpl; lia].
    cbv zeta. destruct (sleep_refusal _); [simpl; lia|].
    specialize (IH (attempt + 1) (delay * exponential_base)%Q (Some e)
                   (time_sleep (py_min delay max_delay) w1)).
    destruct (loop k _ _ _ _) as [[w2 r2] evs]. simpl in *. lia.
Qed.

End Facts.

(** Every attempt the wrapper records is a run of the operation, and
    the other way round: on a world that counts the runs, the count
    grows by the number of attempts. *)
Lemma loop_counts_the_runs {World A : Type} (time_sleep : Q -> World -> World)
    (max_retries : Z) (max_delay exponential_base : Q) (exceptions : exn -> bool)
    (func : World -> World * outcome A) k :
  forall attempt delay last_exception (s : World * nat),
    let res := Retry.loop (counted_sleep time_sleep) max_retries max_delay
                 exponential_base exceptions (counted func)
                 k attempt delay last_exception s in
    snd (fst (fst res)) = (snd s + length (attempts (snd res)))%nat.
Proof.
  induction k as [|k IH]; intros attempt delay last_exception [w0 c] res; subst res.
  - simpl. lia.
  - rewrite loop_unfold. unfold counted in *. cbn [fst snd].
    destruct (func w0) as [w1 [a|e]]; [simpl; lia|].
    destruct (exceptions e); [|simpl; lia].
    destruct (attempt <? max_retries); [|simpl; lia].
    cbv zeta. destruct (sleep_refusal _); [simpl; lia|].
    specialize (IH (attempt + 1) (delay * exponential_base)%Q (Some e)
                   (counted_sleep time_sleep (py_min delay max_delay) (w1, S c))).
    destruct (Retry.loop _ _ _ _ _ _ k _ _ _ _) as [[s2 r2] evs].
    simpl in *. lia.
Qed.

Section AllFail.
Context {World A : Type}.
Context (time_sleep : Q -> World -> World).
Context (max_retries d0 b : Z) (max_delay : Q) (exceptions : exn -> bool).
Context (func : World -> World * outcome A).

Hypothesis every_attempt_fails :
  forall w, exists e, snd (func w) = Raised e /\ exceptions e = true.
Hypothesis d0_nonneg : 0 <= d0.
Hypothesis b_nonneg : 0 <= b.
Hypothesis max_delay_nonneg : (0 <= max_delay)%Q.
Hypothesis max_delay_sleepable : (max_delay <= 9000000000)%Q.

Lemma backoff_seconds_sleepable j :
  sleep_refusal (backoff_seconds d0 b max_delay j) = None.
Proof.
  unfold backoff_seconds. apply sleep_refusal_none.
  - apply Q.min_glb; [|assumption].
    change 0%Q with (inject_Z 0). rewrite <- Zle_Qle.
    apply Z.mul_nonneg_nonneg; [assumption|]. now apply Z.pow_nonneg.
  - apply Qle_trans with max_delay; [apply Q.le_min_r|].
    apply Qle_trans with 9000000000%Q; [assumption | discriminate].
Qed.

(** The loop at index [j] with [k] retries left is the run of the
    contract. *)
Lemma loop_all_fail k : forall j last_exception w,
  Z.of_nat j + Z.of_nat k = max_retries ->
  Retry.loop time_sleep max_retries max_delay (inject_Z b) exceptions func
    (S k) (Z.of_nat j) (inject_Z (d0 * b ^ Z.of_nat j)) last_exception w
  = failing_run time_sleep func (backoff_seconds d0 b max_delay) k j w.
Proof.
  induction k as [|k IH]; intros j last_exception w Hj;
    rewrite loop_unfold; cbn [failing_run];
    destruct (every_attempt_fails w) as (e & He & Hexc);
    destruct (func w) as [w1 r]; simpl in He; subst r; rewrite Hexc.
  - replace (Z.of_nat j <? max_retries) with false by (symmetry; apply Z.ltb_ge; lia).
    reflexivity.
  - replace (Z.of_nat j <? max_retries) with true by (symmetry; apply Z.ltb_lt; lia).
    cbv zeta. rewrite py_min_Qmin.
    change (Qmin (inject_Z (d0 * b ^ Z.of_nat j)) max_delay)
      with (backoff_seconds d0 b max_delay j).
    rewrite backoff_seconds_sleepable.
    replace (inject_Z (d0 * b ^ Z.of_nat j) * inject_Z b)%Q
      with (inject_Z (d0 * b ^ Z.of_nat (S j))).
    + replace (Z.of_nat j + 1) with (Z.of_nat (S j)) by lia.
      rewrite IH by lia. reflexivity.
    + unfold Qmult, inject_Z. cbn [Qnum Qden Pos.mul]. f_equal.
      rewrite Nat2Z.inj_succ, Z.pow_succ_r by lia. ring.
Qed.

(** What the run of the contract consists of. *)
Lemma failing_run_shape (delay_at : nat -> Q) k : forall i w,
  let res := failing_run time_sleep func delay_at k i w in
  length (attempts (snd res)) = S k
  /\ sleeps (snd res) = List.map delay_at (seq i k)
  /\ exists w_last e,
      func w_last = (fst (fst res), Raised e)
      /\ exceptions e = true
      /\ snd (fst res) = Raised e
      /\ last (snd res) = Some (Attempt (Raised e)).
Proof.
  induction k as [|k IH]; intros i w res; subst res; cbn [failing_run];
    destruct (every_attempt_fails w) as (e & He & Hexc);
    destruct (func w) as [w1 r] eqn:Hf; simpl in He; subst r.
  - simpl. repeat split. exists w, e. rewrite Hf. auto.
  - specialize (IH (S i) (time_sleep (delay_at i) w1)).
    destruct (failing_run _ _ _ k _ _) as [[w2 r2] evs]. simpl in *.
    destruct IH as (Hlen & Hsleeps & w_last & e' & Hrun & He' & Hr & Hlast).
    repeat split.
    + now rewrite Hlen.
    + now rewrite Hsleeps.
    + exists w_last, e'. repeat split; try assumption.
      destruct evs as [|ev evs']; [discriminate Hlast | exact Hlast].
Qed.

End AllFail.

(** C5. With [max_retries] n >= 0 the wrapper runs the operation at
    most n + 1 times: on a world that counts the runs of the
    operation, the count it ends with is the number of attempts and
    at most n + 1, whatever the operation does.  When every attempt
    raises an exception of the retried classes, and [initial_delay]
    d0 and the base b are whole non-negative numbers and [max_delay]
    lies between 0 and 9e9 seconds (where the products are exact in
    floating point and [time.sleep] takes the length), the wrapper
    does what the contract says and nothing else: it runs the
    operation, and n times sleeps [min(d0 * b^(i-1), max_delay)]
    after run i and runs the operation again in the world the sleep
    left; it ends in the world the last run left and raises the
    exception that run raised.  With d0 = 1, b = 2, n = 3 and
    [max_delay] at least 4 the sleeps are 1, 2 and 4 seconds. *)
Theorem retry_with_backoff_contract {World A : Type}
    (time_sleep : Q -> World -> World)
    (max_retries d0 b : Z) (max_delay : Q)
    (exceptions : exn -> bool) (func : World -> World * outcome A) (w : World) :
  0 <= max_retries ->
  0 <= d0 -> 0 <= b -> (0 <= max_delay)%Q -> (max_delay <= 9000000000)%Q ->
  (let counting :=
     wrapper (counted_sleep time_sleep) max_retries (inject_Z d0) max_delay
             (inject_Z b) exceptions (counted func) (w, 0%nat) in
   snd (fst (fst counting)) = length (attempts (snd counting))
   /\ Z.of_nat (snd (fst (fst counting))) <= max_retries + 1)
  /\ ((forall w0, exists e, snd (func w0) = Raised e /\ exceptions e = true) ->
      let res := wrapper time_sleep max_retries (inject_Z d0) max_delay
                         (inject_Z b) exceptions func w in
      res = failing_run time_sleep func (backoff_seconds d0 b max_delay)
              (Z.to_nat max_retries) 0 w
      /\ Z.of_nat (length (attempts (snd res))) = max_retries + 1
      /\ sleeps (snd res)
         = List.map (backoff_seconds d0 b max_delay) (seq 0 (Z.to_nat max_retries))
      /\ (exists w_last e,
             func w_last = (fst (fst res), Raised e)
             /\ snd (fst res) = Raised e
             /\ last (snd res) = Some (Attempt (Raised e)))
      /\ (max_retries = 3 -> d0 = 1 -> b = 2 -> (4 <= max_delay)%Q ->
          sleeps (snd res) = [1%Q; 2%Q; 4%Q])).
Proof.
  intros Hn Hd0 Hb Hmax0 Hmax. split.
  - intros counting. subst counting. unfold wrapper.
    pose proof (loop_counts_the_runs time_sleep max_retries max_delay (inject_Z b)
                  exceptions func (Z.to_nat (max_retries + 1)) 0 (inject_Z d0)
                  None (w, 0%nat)) as Hcount.
    pose proof (loop_attempts_bound (counted_sleep time_sleep) max_retries max_delay
                  (inject_Z b) exceptions (counted func)
                  (Z.to_nat (max_retries + 1)) 0 (inject_Z d0) None (w, 0%nat))
      as Hbound.
    cbv zeta in Hcount. simpl snd in Hcount at 2. rewrite Hcount. split; lia.
  - intros Hfail res.
    assert (Hres : res = failing_run time_sleep func (backoff_seconds d0 b max_delay)
                           (Z.to_nat max_retries) 0 w).
    { subst res. unfold wrapper.
      replace (Z.to_nat (max_retries + 1)) with (S (Z.to_nat max_retries)) by lia.
      replace (inject_Z d0) with (inject_Z (d0 * b ^ Z.of_nat 0))
        by (f_equal; simpl; lia).
      change 0 with (Z.of_nat 0) at 1.
      apply loop_all_fail; try assumption. lia. }
    destruct (failing_run_shape time_sleep exceptions func Hfail
                (backoff_seconds d0 b max_delay) (Z.to_nat max_retries) 0%nat w)
      as (Hlen & Hsleeps & w_last & e & Hrun & _ & Hr & Hlast).
    rewrite <- Hres in Hlen, Hsleeps, Hrun, Hr, Hlast.
    split; [exact Hres|]. split; [rewrite Hlen; lia|]. split; [exact Hsleeps|].
    split; [exists w_last, e; auto|].
    intros -> -> -> H4. rewrite Hsleeps.
    change (seq 0 (Z.to_nat 3)) with [0; 1; 2]%nat. cbn [List.map].
    unfold backoff_seconds.
    rewrite !Qmin_left; [reflexivity | | | ]; simpl;
      (apply Qle_trans with 4%Q; [discriminate | exact H4]).
Qed.

Lemma retry_with_backoff_contract_witness :
  let res := wrapper no_sleep 3 1 60 2 isinstance_Exception smtp_down 0%nat in
  fst (fst res) = 4%nat
  /\ snd (fst res) = Raised (Exception "smtp unreachable")
  /\ sleeps (snd res) = [1%Q; 2%Q; 4%Q].
Proof.
  intros res.
  change res with (wrapper no_sleep 3 (inject_Z 1) 60 (inject_Z 2)
                           isinstance_Exception smtp_down 0%nat).
  clear res. assert (H03 : 0 <= 3) by lia.
  destruct (retry_with_backoff_contract no_sleep 3 1 2 60 isinstance_Exception
              smtp_down 0%nat H03) as [_ H]; try discriminate; try lia.
  destruct H as (Hres & _ & _ & _ & Hsleeps).
  - intros w0. exists (Exception "smtp unreachable"). split; reflexivity.
  - split; [|split].
    + rewrite Hres. reflexivity.
    + rewrite Hres. reflexivity.
    + apply Hsleeps; [reflexivity | reflexivity | reflexivity | discriminate].
Defined.

End RetryFacts.

(** ** The broker *)

Module BrokerFacts.
Import Broker.

(** The bindings the three services declare: one per channel queue,
    none for [failed.queue]. *)
Lemma topology_bindings :
  bindings topology
  = [Bind "notifications.direct" "email.queue" "email";
     Bind "notifications.direct" "push.queue" "push"].
Proof. reflexivity. Qed.

Lemma topology_queues :
  queues topology !! "email.queue" = Some (Que true [])
  /\ queues topology !! "push.queue" = Some (Que true [])
  /\ queues topology !! "failed.queue" = Some (Que true []).
Proof. repeat split; vm_compute; reflexivity. Qed.

(** A publish that no binding matches changes nothing. *)
Lemma basic_publish_unrouted exchange routing_key body props (b : t) :
  route exchange routing_key b = [] ->
  basic_publish exchange routing_key body props b = b.
Proof.
  intros H. unfold basic_publish. rewrite H. now destruct b.
Qed.

(** Delivery followed by a requeueing nack puts the broker back as it
    was, but for the tag counter: the message returns to the head of
    its queue with the properties the broker holds for it. *)
Lemma deliver_nack_requeue queue (b b' : t) tag m :
  deliver queue b = Some (tag, m, b') ->
  unacked b !! next_tag b = None ->
  basic_nack tag true b'
  = Make (exchanges b) (queues b) (bindings b) (unacked b) (next_tag b + 1).
Proof.
  unfold deliver. intros H Hfresh.
  destruct (queues b !! queue) as [[d [|m0 rest]]|] eqn:Hq; try discriminate.
  injection H as <- <- <-.
  unfold basic_nack; simpl. rewrite lookup_insert_eq.
  unfold requeue_front. rewrite lookup_insert_eq. simpl.
  rewrite insert_insert_eq, delete_insert_eq.
  f_equal.
  - now apply insert_id.
  - now apply delete_id.
Qed.

End BrokerFacts.

(** ** The channel consumers *)

Module ConsumerFacts.
Import Model Consumer ConsumerScenario.

(** *** C8: a disabled channel *)

(** C8, as the code has it.  When the fetched user profile has the
    channel of the message disabled ([email_enabled] false on a
    profile with an address for the email consumer, [push_enabled]
    false for the push consumer), the consumer acknowledges the message
    and returns: that one ack is all it does, no status is reported and
    the message is neither nacked, requeued nor dead-lettered. *)
Theorem disabled_channel_is_acknowledged {World : Type}
    (time_time : World -> Q) (json_loads : string -> outcome Json)
    (get_user : option string -> World -> World * outcome (option UserData))
    (get_template : option string -> World -> World * outcome (option Template))
    (render_template : option string -> gmap string string ->
                       World -> World * outcome (option Rendered))
    (requests_post : string -> string -> option string -> World -> World * outcome Z)
    (email_sender_send : string -> string -> string -> World -> World * outcome bool)
    (http_update_notification_status :
       string -> string -> option string -> World -> World * outcome unit)
    (push_sender_send : string -> string -> string -> gmap string string ->
                        World -> World * outcome bool)
    (delivery_tag : Z) (body : string) (m : QueueMessage) (u : UserData)
    (s : St World) (w' : World) :
  json_loads body = Returned (JObject m) ->
  get_user (user_id m) (world s) = (w', Returned (Some u)) ->
  let acked :=
    (MkSt w' (circuit_breaker s) (properties s) (trace s ++ [Ack delivery_tag]),
     Returned tt) in
  (truthy_opt (email u) = true -> email_enabled u = Some false ->
   email_process_message time_time json_loads get_user get_template
     render_template requests_post email_sender_send delivery_tag body s = acked)
  /\ (push_enabled u = Some false ->
      push_process_message time_time json_loads get_user get_template
        render_template http_update_notification_status push_sender_send
        delivery_tag body s = acked).
Proof.
  intros Hjson Huser acked. subst acked. split.
  - intros Hmail Hoff.
    unfold email_process_message, try_except, email_try, mbind, M_bind, io.
    rewrite Hjson, Huser, Hmail, Hoff. reflexivity.
  - intros Hoff.
    unfold push_process_message, try_except, push_try, mbind, M_bind, io.
    rewrite Hjson, Huser, Hoff. reflexivity.
Qed.

Lemma disabled_channel_is_acknowledged_witness :
  email_process_message (fun w => w) json_loads_42 get_user_opted_out
    get_template_ok render_ok post_ok email_send_ok 7 body_42 (start published_props)
  = (MkSt 1%Q fresh_breaker published_props [Ack 7], Returned tt)
  /\ push_process_message (fun w => w) json_loads_42 get_user_opted_out
       get_template_ok render_ok push_report_ok push_send_ok 7 body_42
       (start published_props)
     = (MkSt 1%Q fresh_breaker published_props [Ack 7], Returned tt).
Proof.
  destruct (disabled_channel_is_acknowledged (fun w => w) json_loads_42
              get_user_opted_out get_template_ok render_ok post_ok email_send_ok
              push_report_ok push_send_ok 7 body_42 message_42 user_opted_out
              (start published_props) (0 + 1)%Q eq_refl eq_refl)
    as [Hemail Hpush].
  split; [apply Hemail | apply Hpush]; reflexivity.
Defined.

(** C8 as it is written fails: for a user who has opted out of email
    the consumer neither reports [failed] nor nacks the message. *)
Lemma disabled_channel_not_failed :
  let s := fst (email_process_message (fun w => w) json_loads_42 get_user_opted_out
                  get_template_ok render_ok post_ok email_send_ok 7 body_42
                  (start published_props)) in
  ~ ((exists err, StatusPost "r-42" "failed" err ∈ trace s)
     /\ (exists requeue, Nack 7 requeue ∈ trace s)).
Proof.
  intros s [_ [requeue H]]. vm_compute in H.
  apply list_elem_of_In in H. simpl in H. destruct H as [H|[]]. discriminate H.
Qed.

(** *** What a failed attempt does *)

Ltac run_monad :=
  unfold try_except, mbind, M_bind, mret, M_ret, raise, io, emit, set_headers,
    breaker_call in *.

Ltac split_matches :=
  repeat (simpl in *; simplify_eq;
          match goal with
          | H : context [match ?x with _ => _ end] |- _ => destruct x eqn:?
          | |- context [match ?x with _ => _ end] => destruct x eqn:?
          end);
  simpl in *; simplify_eq.

Lemma retry_or_dead_letter_spec {World : Type} delivery_tag body (s : St World) :
  retry_or_dead_letter delivery_tag body s
  = (MkSt (world s) (circuit_breaker s) (decided_properties (properties s))
          (trace s ++ decision delivery_tag body (retry_count_of (properties s))),
     Returned tt).
Proof.
  unfold retry_or_dead_letter, decided_properties, decision. run_monad.
  destruct (retry_count_of (properties s) <? 3); simpl.
  - reflexivity.
  - rewrite <- app_assoc. now destruct (properties s).
Qed.

Section EmailFacts.
Context {World : Type}.
Context (time_time : World -> Q) (json_loads : string -> outcome Json).
Context (get_user : option string -> World -> World * outcome (option UserData)).
Context (get_template : option string -> World -> World * outcome (option Template)).
Context (render_template : option string -> gmap string string ->
                           World -> World * outcome (option Rendered)).
Context (requests_post : string -> string -> option string -> World -> World * outcome Z).
Context (email_sender_send : string -> string -> string -> World -> World * outcome bool).

Local Abbreviation update_notification_status :=
  (update_notification_status requests_post).
Local Abbreviation email_try :=
  (email_try time_time json_loads get_user get_template render_template
             requests_post email_sender_send).
Local Abbreviation email_except := (email_except json_loads requests_post).
Local Abbreviation email_process_message :=
  (email_process_message time_time json_loads get_user get_template render_template
                         requests_post email_sender_send).

(** The status reporter never raises: it posts, and logs when the POST
    raised. *)
Lemma update_notification_status_spec notification_id status error (s : St World) :
  let payload_error := if truthy_opt error then error else None in
  let posted := requests_post notification_id status payload_error (world s) in
  update_notification_status notification_id status error s
  = (MkSt (fst posted) (circuit_breaker s) (properties s)
          (trace s ++ [StatusPost notification_id status payload_error]
                   ++ reporter_log (snd posted)),
     Returned tt).
Proof.
  cbv zeta. unfold Consumer.update_notification_status. run_monad. simpl.
  destruct (requests_post _ _ _ _) as [w [code|e]]; simpl.
  - now rewrite ?app_nil_r.
  - now rewrite <- ?app_assoc.
Qed.

(** A [try] block that raises has made no channel call and no report,
    and has left [properties] alone. *)
Lemma email_try_raises delivery_tag body (s s1 : St World) e :
  email_try delivery_tag body s = (s1, Raised e) ->
  trace s1 = trace s /\ properties s1 = properties s.
Proof.
  unfold Consumer.email_try, Consumer.update_notification_status. run_monad.
  intros H. split_matches; auto.
Qed.

(** The [except] block: one [failed] report, then the decision. *)
Lemma email_except_spec delivery_tag body e (s : St World) :
  get_raises (parsed (json_loads body)) = None ->
  let rid := failed_request_id (parsed (json_loads body)) in
  let err := if truthy (exn_str e) then Some (exn_str e) else None in
  let posted := requests_post rid "failed" err (world s) in
  email_except delivery_tag body e s
  = (MkSt (fst posted) (circuit_breaker s) (decided_properties (properties s))
          (trace s ++ [StatusPost rid "failed" err] ++ reporter_log (snd posted)
                   ++ decision delivery_tag body (retry_count_of (properties s))),
     Returned tt).
Proof.
  intros Hget. cbv zeta. unfold Consumer.email_except. cbv zeta. rewrite Hget.
  unfold try_except at 1, mbind, M_bind.
  rewrite update_notification_status_spec. cbv zeta. simpl.
  rewrite retry_or_dead_letter_spec. simpl.
  now rewrite <- !app_assoc.
Qed.

(** When the body is a truthy value that is no object, the report is
    not made: only the decision is left. *)
Lemma email_except_silent delivery_tag body e e' (s : St World) :
  get_raises (parsed (json_loads body)) = Some e' ->
  email_except delivery_tag body e s
  = (MkSt (world s) (circuit_breaker s) (decided_properties (properties s))
          (trace s ++ decision delivery_tag body (retry_count_of (properties s))),
     Returned tt).
Proof.
  intros Hget. unfold Consumer.email_except. cbv zeta. rewrite Hget.
  unfold try_except at 1, mbind, M_bind, raise, mret, M_ret.
  now rewrite retry_or_dead_letter_spec.
Qed.

(** In both cases: effects off the channel, then the decision. *)
Lemma email_except_shape delivery_tag body e (s : St World) :
  exists w' pre,
    email_except delivery_tag body e s
    = (MkSt w' (circuit_breaker s) (decided_properties (properties s))
            (trace s ++ pre
                     ++ decision delivery_tag body (retry_count_of (properties s))),
       Returned tt)
    /\ Forall (fun ev => off_channel ev = true) pre.
Proof.
  destruct (get_raises (parsed (json_loads body))) as [e'|] eqn:Hget.
  - exists (world s), []. split; [now apply email_except_silent with e'|constructor].
  - exists (fst (requests_post (failed_request_id (parsed (json_loads body))) "failed"
                   (if truthy (exn_str e) then Some (exn_str e) else None) (world s))).
    exists ([StatusPost (failed_request_id (parsed (json_loads body))) "failed"
               (if truthy (exn_str e) then Some (exn_str e) else None)]
            ++ reporter_log
                 (snd (requests_post (failed_request_id (parsed (json_loads body)))
                         "failed"
                         (if truthy (exn_str e) then Some (exn_str e) else None)
                         (world s))))%list.
    split.
    + rewrite (email_except_spec _ _ _ _ Hget). cbv zeta.
      now rewrite <- !app_assoc.
    + apply Forall_app. split; [repeat constructor|].
      destruct (snd _); repeat constructor.
Qed.

(** What [process_message] does when its [try] block raises. *)
Lemma email_process_message_failure delivery_tag body (s s1 : St World) e :
  Consumer.email_try time_time json_loads get_user get_template render_template
    requests_post email_sender_send delivery_tag body s = (s1, Raised e) ->
  email_process_message delivery_tag body s = email_except delivery_tag body e s1.
Proof.
  intros H. unfold Consumer.email_process_message, try_except. now rewrite H.
Qed.

(** C9, as the code has it.  When the send through the breaker has
    succeeded, the status reporter posts [delivered] and the message
    is acknowledged exactly once, whatever became of the POST: an
    exception of the POST (a network error) is logged as a warning and
    goes no further, a response is dropped unread and so a non-2xx
    status is ignored without a log line; in neither case is the
    message nacked or an exception raised. *)
Theorem delivered_message_is_acked delivery_tag body (s : St World)
    (m : QueueMessage) (u : UserData) (t : Template) (r : Rendered)
    (w1 w2 w3 w4 w5 : World) (cb : CircuitBreaker.t) (posted : outcome Z) :
  json_loads body = Returned (JObject m) ->
  get_user (user_id m) (world s) = (w1, Returned (Some u)) ->
  truthy_opt (email u) = true ->
  default true (email_enabled u) = true ->
  get_template (template_code m) w1 = (w2, Returned (Some t)) ->
  render_template (template_code m) (variables m) w2 = (w3, Returned (Some r)) ->
  CircuitBreaker.call time_time (circuit_breaker s)
    (send_email email_sender_send u r) w3 = (cb, w4, Returned true) ->
  requests_post (default "unknown" (request_id m)) "delivered" None w4 = (w5, posted) ->
  let res := email_process_message delivery_tag body s in
  res = (MkSt w5 cb (properties s)
              (trace s
               ++ [StatusPost (default "unknown" (request_id m)) "delivered" None]
               ++ reporter_log posted
               ++ [Ack delivery_tag]),
         Returned tt)
  /\ acks (trace (fst res)) = (acks (trace s) ++ [delivery_tag])%list
  /\ nacks (trace (fst res)) = nacks (trace s).
Proof.
  intros Hjson Huser Hmail Hon Htmpl Hrend Hsend Hpost res.
  assert (Hres : res = (MkSt w5 cb (properties s)
              (trace s
               ++ [StatusPost (default "unknown" (request_id m)) "delivered" None]
               ++ reporter_log posted
               ++ [Ack delivery_tag]),
         Returned tt)); [subst res|].
  2:{ split; [exact Hres|]. rewrite Hres. simpl. unfold acks, nacks.
      rewrite !omap_app. simpl.
      destruct posted; simpl; rewrite ?app_nil_r; auto. }
  unfold Consumer.email_process_message, Consumer.email_try.
  unfold try_except, mbind, M_bind, io, breaker_call.
  rewrite Hjson, Huser, Hmail, Hon. simpl.
  rewrite Htmpl. simpl. rewrite Hrend. simpl. rewrite Hsend.
  rewrite update_notification_status_spec. cbv zeta. simpl.
  rewrite Hpost. unfold emit. simpl. now rewrite <- !app_assoc.
Qed.

End EmailFacts.

Lemma delivered_message_is_acked_witness :
  email_process_message (fun w => w) json_loads_42 get_user_ada get_template_ok
    render_ok post_unreachable email_send_ok 7 body_42 (start published_props)
  = (MkSt 5%Q fresh_breaker published_props
          [StatusPost "r-42" "delivered" None;
           LogWarning "Failed to update status: connection refused";
           Ack 7],
     Returned tt).
Proof.
  refine (proj1 (delivered_message_is_acked (fun w => w) json_loads_42 get_user_ada
           get_template_ok render_ok post_unreachable email_send_ok 7 body_42
           (start published_props) message_42 user_ada (Tmpl (Some "email"))
           (Rend (Some "Welcome") (Some "<p>Hello Ada</p>"))
           1%Q 2%Q 3%Q 4%Q 5%Q fresh_breaker
           (Raised (Exn "ConnectionError" "connection refused"))
           _ _ _ _ _ _ _ _));
    reflexivity.
Defined.

(** C9 as it is written fails: when the status endpoint answers 500
    the message is acknowledged, but nothing is logged. *)
Lemma http_error_report_not_logged :
  let s := fst (email_process_message (fun w => w) json_loads_42 get_user_ada
                  get_template_ok render_ok post_500 email_send_ok 7 body_42
                  (start published_props)) in
  ~ (acks (trace s) = [7]
     /\ exists msg, LogWarning msg ∈ trace s).
Proof.
  intros s [_ [msg H]]. vm_compute in H.
  apply list_elem_of_In in H. simpl in H.
  destruct H as [H|[H|[]]]; discriminate H.
Qed.

(** *** services/push_service *)

Section PushFacts.
Context {World : Type}.
Context (time_time : World -> Q) (json_loads : string -> outcome Json).
Context (get_user : option string -> World -> World * outcome (option UserData)).
Context (get_template : option string -> World -> World * outcome (option Template)).
Context (render_template : option string -> gmap string string ->
                           World -> World * outcome (option Rendered)).
Context (http_update_notification_status :
           string -> string -> option string -> World -> World * outcome unit).
Context (push_sender_send : string -> string -> string -> gmap string string ->
                            World -> World * outcome bool).

Local Abbreviation push_try :=
  (push_try time_time json_loads get_user get_template render_template
            http_update_notification_status push_sender_send).
Local Abbreviation push_except :=
  (push_except json_loads http_update_notification_status).
Local Abbreviation push_process_message :=
  (push_process_message time_time json_loads get_user get_template render_template
                        http_update_notification_status push_sender_send).

(** A [try] block that raises has made no channel call; it may have
    posted [delivered] when it is the reporter that raised. *)
Lemma push_try_raises delivery_tag body (s s1 : St World) e :
  push_try delivery_tag body s = (s1, Raised e) ->
  exists pre, trace s1 = (trace s ++ pre)%list
              /\ Forall (fun ev => off_channel ev = true) pre
              /\ properties s1 = properties s.
Proof.
  unfold Consumer.push_try, push_report. run_monad.
  intros H. split_matches;
    first [ exists []; rewrite app_nil_r; now auto
          | eexists; split; [reflexivity|]; split; [|reflexivity];
            repeat constructor ].
Qed.

(** The [except] block: one [failed] report, then the decision. *)
Lemma push_except_spec delivery_tag body e (s : St World) :
  get_raises (parsed (json_loads body)) = None ->
  let rid := failed_request_id (parsed (json_loads body)) in
  let posted := http_update_notification_status rid "failed" (Some (exn_str e)) (world s) in
  push_except delivery_tag body e s
  = (MkSt (fst posted) (circuit_breaker s) (decided_properties (properties s))
          (trace s ++ [StatusPost rid "failed" (Some (exn_str e))]
                   ++ decision delivery_tag body (retry_count_of (properties s))),
     Returned tt).
Proof.
  intros Hget. cbv zeta. unfold Consumer.push_except, push_report. cbv zeta.
  rewrite Hget.
  unfold try_except at 1, mbind, M_bind, emit, io. simpl.
  destruct (http_update_notification_status _ _ _ _) as [w [[]|e']]; simpl;
    rewrite retry_or_dead_letter_spec; simpl; now rewrite <- !app_assoc.
Qed.

Lemma push_except_silent delivery_tag body e e' (s : St World) :
  get_raises (parsed (json_loads body)) = Some e' ->
  push_except delivery_tag body e s
  = (MkSt (world s) (circuit_breaker s) (decided_properties (properties s))
          (trace s ++ decision delivery_tag body (retry_count_of (properties s))),
     Returned tt).
Proof.
  intros Hget. unfold Consumer.push_except. cbv zeta. rewrite Hget.
  unfold try_except at 1, mbind, M_bind, raise, mret, M_ret.
  now rewrite retry_or_dead_letter_spec.
Qed.

Lemma push_except_shape delivery_tag body e (s : St World) :
  exists w' pre,
    push_except delivery_tag body e s
    = (MkSt w' (circuit_breaker s) (decided_properties (properties s))
            (trace s ++ pre
                     ++ decision delivery_tag body (retry_count_of (properties s))),
       Returned tt)
    /\ Forall (fun ev => off_channel ev = true) pre.
Proof.
  destruct (get_raises (parsed (json_loads body))) as [e'|] eqn:Hget.
  - exists (world s), []. split; [now apply push_except_silent with e'|constructor].
  - eexists. exists [StatusPost (failed_request_id (parsed (json_loads body)))
                       "failed" (Some (exn_str e))].
    split; [now apply push_except_spec | repeat constructor].
Qed.

End PushFacts.

(** *** C1: what a requeue gives back *)

Lemma off_channel_no_effect (b : Broker.t) pre :
  Forall (fun ev => off_channel ev = true) pre -> foldl apply_effect b pre = b.
Proof.
  induction 1 as [|ev pre Hev _ IH]; [reflexivity|].
  simpl. destruct ev; try discriminate Hev; exact IH.
Qed.

Lemma off_channel_counts pre :
  Forall (fun ev => off_channel ev = true) pre ->
  acks pre = [] /\ publishes pre = [] /\ nacks pre = [].
Proof.
  induction 1 as [|ev pre Hev _ IH]; [auto|].
  destruct ev; try discriminate Hev; exact IH.
Qed.

Lemma requeued_only_intro pre tag :
  Forall (fun ev => off_channel ev = true) pre ->
  requeued_only (pre ++ [Nack tag true]).
Proof.
  intros H. destruct (off_channel_counts pre H) as (Ha & Hp & Hn).
  unfold requeued_only, acks, publishes, nacks in *.
  rewrite !omap_app, Ha, Hp, Hn. simpl. eauto.
Qed.

(** One delivery to a callback that requeues [m]: the broker is as
    before, but for the tag counter. *)
Lemma consume_one_requeues {World : Type} (callback : Z -> string -> M (St World) unit)
    (m : Broker.Message) queue d rest (b : Broker.t) w cb :
  requeues callback m ->
  Broker.queues b !! queue = Some (Broker.Que d (m :: rest)) ->
  Broker.unacked b !! Broker.next_tag b = None ->
  exists w' cb' pre,
    consume_one queue callback (b, w, cb)
    = (Broker.Make (Broker.exchanges b) (Broker.queues b) (Broker.bindings b)
                   (Broker.unacked b) (Broker.next_tag b + 1),
       w', cb', (pre ++ [Nack (Broker.next_tag b) true])%list)
    /\ Forall (fun ev => off_channel ev = true) pre.
Proof.
  intros Hreq Hq Hfresh.
  pose (b' := Broker.Make (Broker.exchanges b)
                (<[queue := Broker.Que d rest]> (Broker.queues b)) (Broker.bindings b)
                (<[Broker.next_tag b := (queue, m)]> (Broker.unacked b))
                (Broker.next_tag b + 1)).
  assert (Hdel : Broker.deliver queue b = Some (Broker.next_tag b, m, b')).
  { unfold Broker.deliver. now rewrite Hq. }
  destruct (Hreq (Broker.next_tag b) w cb) as (s' & pre & Hcb & Htr & Hoff).
  exists (world s'), (circuit_breaker s'), pre. split; [|exact Hoff].
  unfold consume_one. rewrite Hdel, Hcb. cbn [fst].
  rewrite Htr, foldl_app, (off_channel_no_effect _ pre Hoff).
  cbn [foldl apply_effect].
  now rewrite (BrokerFacts.deliver_nack_requeue queue b b' _ m Hdel).
Qed.

(** However often a callback that requeues [m] is run, the queue is
    as it was before every delivery. *)
Lemma consume_requeues {World : Type} (callback : Z -> string -> M (St World) unit)
    (m : Broker.Message) queue d rest :
  requeues callback m ->
  forall n (b : Broker.t) w cb,
    Broker.queues b !! queue = Some (Broker.Que d (m :: rest)) ->
    (forall t, Broker.next_tag b <= t -> Broker.unacked b !! t = None) ->
    let res := consume n queue callback (b, w, cb) in
    Broker.queues (fst (fst (fst res))) = Broker.queues b
    /\ length (snd res) = n
    /\ Forall requeued_only (snd res).
Proof.
  intros Hreq. induction n as [|n IH]; intros b w cb Hq Hfresh res; subst res.
  - simpl. auto.
  - destruct (consume_one_requeues callback m queue d rest b w cb Hreq Hq)
      as (w' & cb' & pre & Hone & Hoff).
    { apply Hfresh. lia. }
    cbn [consume]. rewrite Hone.
    specialize (IH (Broker.Make (Broker.exchanges b) (Broker.queues b)
                      (Broker.bindings b) (Broker.unacked b) (Broker.next_tag b + 1))
                   w' cb' Hq).
    destruct (consume n queue callback _) as [st'' trs] eqn:Hrest.
    destruct IH as (IHq & IHlen & IHall).
    { intros t Ht. apply Hfresh. simpl in Ht. lia. }
    simpl in *. repeat split.
    + exact IHq.
    + now rewrite IHlen.
    + constructor; [now apply requeued_only_intro | exact IHall].
Qed.

Lemma email_requeues {World : Type}
    (time_time : World -> Q) (json_loads : string -> outcome Json)
    (get_user : option string -> World -> World * outcome (option UserData))
    (get_template : option string -> World -> World * outcome (option Template))
    (render_template : option string -> gmap string string ->
                       World -> World * outcome (option Rendered))
    (requests_post : string -> string -> option string -> World -> World * outcome Z)
    (email_sender_send : string -> string -> string -> World -> World * outcome bool)
    (m : Broker.Message) :
  retry_count_of (Broker.properties m) < 3 ->
  (forall tag w cb, exists s1 e,
      email_try time_time json_loads get_user get_template render_template
        requests_post email_sender_send tag (Broker.body m)
        (MkSt w cb (Broker.properties m) []) = (s1, Raised e)) ->
  requeues (email_process_message time_time json_loads get_user get_template
              render_template requests_post email_sender_send) m.
Proof.
  intros Hrc Hfail tag w cb.
  destruct (Hfail tag w cb) as (s1 & e & Htry).
  destruct (email_try_raises _ _ _ _ _ _ _ _ _ _ _ _ Htry) as [Htr Hprops].
  rewrite (email_process_message_failure _ _ _ _ _ _ _ _ _ _ _ _ Htry).
  destruct (email_except_shape json_loads requests_post tag (Broker.body m) e s1)
    as (w' & pre & Hexc & Hoff).
  rewrite Hexc. simpl in Htr, Hprops.
  rewrite Htr, Hprops. unfold decision.
  apply Z.ltb_lt in Hrc. rewrite Hrc.
  eexists. exists pre. split; [reflexivity|]. simpl. split.
  - reflexivity.
  - exact Hoff.
Qed.

Lemma push_requeues {World : Type}
    (time_time : World -> Q) (json_loads : string -> outcome Json)
    (get_user : option string -> World -> World * outcome (option UserData))
    (get_template : option string -> World -> World * outcome (option Template))
    (render_template : option string -> gmap string string ->
                       World -> World * outcome (option Rendered))
    (http_update_notification_status :
       string -> string -> option string -> World -> World * outcome unit)
    (push_sender_send : string -> string -> string -> gmap string string ->
                        World -> World * outcome bool)
    (m : Broker.Message) :
  retry_count_of (Broker.properties m) < 3 ->
  (forall tag w cb, exists s1 e,
      push_try time_time json_loads get_user get_template render_template
        http_update_notification_status push_sender_send tag (Broker.body m)
        (MkSt w cb (Broker.properties m) []) = (s1, Raised e)) ->
  requeues (push_process_message time_time json_loads get_user get_template
              render_template http_update_notification_status push_sender_send) m.
Proof.
  intros Hrc Hfail tag w cb.
  destruct (Hfail tag w cb) as (s1 & e & Htry).
  destruct (push_try_raises _ _ _ _ _ _ _ _ _ _ _ _ Htry) as (pre & Htr & Hoff & Hprops).
  unfold push_process_message, try_except at 1. rewrite Htry.
  destruct (push_except_shape json_loads http_update_notification_status tag
              (Broker.body m) e s1) as (w' & post & Hexc & Hpost).
  rewrite Hexc. simpl in Htr, Hprops.
  rewrite Htr, Hprops. unfold decision.
  apply Z.ltb_lt in Hrc. rewrite Hrc.
  eexists. exists (pre ++ post)%list.
  split; [reflexivity|]. simpl. split.
  - now rewrite <- app_assoc.
  - apply Forall_app. split; assumption.
Qed.

(** C1, what the code does.  The incremented [x-retry-count] is
    written to the [properties] object of the callback and is not part
    of any channel call: [basic_nack] carries the delivery tag and the
    requeue flag only.  So a message whose processing keeps failing and
    whose header is below 3 comes back from every requeue with the
    header the broker holds for it: after any number [n] of failed
    deliveries (the fourth included) the queue is as it was, each of
    the [n] callbacks has nacked with requeue, and none has nacked
    without requeue or published to the dead-letter queue.  This holds
    for the email consumer and for the push consumer. *)
Theorem requeued_message_keeps_its_retry_count {World : Type}
    (time_time : World -> Q) (json_loads : string -> outcome Json)
    (get_user : option string -> World -> World * outcome (option UserData))
    (get_template : option string -> World -> World * outcome (option Template))
    (render_template : option string -> gmap string string ->
                       World -> World * outcome (option Rendered))
    (requests_post : string -> string -> option string -> World -> World * outcome Z)
    (email_sender_send : string -> string -> string -> World -> World * outcome bool)
    (http_update_notification_status :
       string -> string -> option string -> World -> World * outcome unit)
    (push_sender_send : string -> string -> string -> gmap string string ->
                        World -> World * outcome bool)
    (m : Broker.Message) (queue : string) (d : bool) (rest : list Broker.Message)
    (n : nat) (b : Broker.t) (w : World) (cb : CircuitBreaker.t) :
  retry_count_of (Broker.properties m) < 3 ->
  Broker.queues b !! queue = Some (Broker.Que d (m :: rest)) ->
  (forall t, Broker.next_tag b <= t -> Broker.unacked b !! t = None) ->
  ((forall tag w cb, exists s1 e,
       email_try time_time json_loads get_user get_template render_template
         requests_post email_sender_send tag (Broker.body m)
         (MkSt w cb (Broker.properties m) []) = (s1, Raised e)) ->
   let res :=
     consume n queue
       (email_process_message time_time json_loads get_user get_template
          render_template requests_post email_sender_send) (b, w, cb) in
   Broker.queues (fst (fst (fst res))) = Broker.queues b
   /\ length (snd res) = n
   /\ Forall requeued_only (snd res))
  /\ ((forall tag w cb, exists s1 e,
         push_try time_time json_loads get_user get_template render_template
           http_update_notification_status push_sender_send tag (Broker.body m)
           (MkSt w cb (Broker.properties m) []) = (s1, Raised e)) ->
      let res :=
        consume n queue
          (push_process_message time_time json_loads get_user get_template
             render_template http_update_notification_status push_sender_send)
          (b, w, cb) in
      Broker.queues (fst (fst (fst res))) = Broker.queues b
      /\ length (snd res) = n
      /\ Forall requeued_only (snd res)).
Proof.
  intros Hrc Hq Hfresh. split; intros Hfail.
  - apply (consume_requeues _ m queue d rest); try assumption.
    now apply email_requeues.
  - apply (consume_requeues _ m queue d rest); try assumption.
    now apply push_requeues.
Qed.

Lemma requeued_message_keeps_its_retry_count_witness :
  (let res := consume 4 "email.queue" email_callback_user_missing
                (one_email_published, 0%Q, fresh_breaker) in
   Broker.queues (fst (fst (fst res))) = Broker.queues one_email_published
   /\ length (snd res) = 4%nat
   /\ Forall requeued_only (snd res))
  /\ (let res := consume 4 "push.queue" push_callback_user_missing
                   (one_push_published, 0%Q, fresh_breaker) in
      Broker.queues (fst (fst (fst res))) = Broker.queues one_push_published
      /\ length (snd res) = 4%nat
      /\ Forall requeued_only (snd res)).
Proof.
  split.
  - refine (proj1 (requeued_message_keeps_its_retry_count (fun w => w) json_loads_42
              get_user_missing get_template_ok render_ok post_ok email_send_ok
              push_report_ok push_send_ok
              (Broker.Msg published_props body_42) "email.queue" true [] 4
              one_email_published 0%Q fresh_breaker _ _ _) _).
    + reflexivity.
    + vm_compute. reflexivity.
    + intros t _. apply lookup_empty.
    + intros tag w cb.
      exists (MkSt (w + 1)%Q cb published_props []),
             (Exception "User u-7 not found or has no email").
      reflexivity.
  - refine (proj2 (requeued_message_keeps_its_retry_count (fun w => w) json_loads_42
              get_user_missing get_template_ok render_ok post_ok email_send_ok
              push_report_ok push_send_ok
              (Broker.Msg published_props body_42) "push.queue" true [] 4
              one_push_published 0%Q fresh_breaker _ _ _) _).
    + reflexivity.
    + vm_compute. reflexivity.
    + intros t _. apply lookup_empty.
    + intros tag w cb.
      exists (MkSt (w + 1)%Q cb published_props []),
             (Exception "User u-7 not found").
      reflexivity.
Defined.

(** The four deliveries of that message, call by call: the fourth
    failure is requeued like the first, with the retry count the
    callback reads still at zero. *)
Lemma fourth_failure_is_requeued :
  let res := consume 4 "email.queue" email_callback_user_missing
               (one_email_published, 0%Q, fresh_breaker) in
  snd res
  = (fun tag => [StatusPost "r-42" "failed"
                            (Some "User u-7 not found or has no email");
                 Nack tag true]) <$> [1; 2; 3; 4]
  /\ Broker.queue_messages "email.queue" (fst (fst (fst res)))
     = [Broker.Msg published_props body_42]
  /\ Broker.queue_messages "failed.queue" (fst (fst (fst res))) = [].
Proof. vm_compute. auto. Qed.

(** *** C2: where the dead-letter publish goes *)

Lemma basic_nack_keeps_bindings tag requeue (b : Broker.t) :
  Broker.bindings (Broker.basic_nack tag requeue b) = Broker.bindings b.
Proof.
  unfold Broker.basic_nack. now destruct (Broker.unacked b !! tag) as [[q m]|].
Qed.

(** C2, what the code does.  In the topology the services declare,
    [failed.queue] exists and is durable but is bound to nothing, and
    the exchange [notifications.direct] has bindings for the keys
    [email] and [push] only.  The republish of an exhausted message
    (routing key [failed]) therefore matches no binding and is dropped:
    the channel calls of the exhaustion branch leave the broker as the
    nack without requeue alone does, and [failed.queue] holds what it
    held before. *)
Theorem dead_letter_publish_is_dropped (b : Broker.t) (delivery_tag : Z)
    (body : string) (retry_count : Z) :
  Broker.bindings b = Broker.bindings Broker.topology ->
  3 <= retry_count ->
  let b' := foldl apply_effect b (decision delivery_tag body retry_count) in
  Broker.route "notifications.direct" "failed" b = []
  /\ b' = Broker.basic_nack delivery_tag false b
  /\ Broker.queue_messages "failed.queue" b' = Broker.queue_messages "failed.queue" b.
Proof.
  intros Hb Hrc b'. subst b'.
  assert (Hroute : forall b0 : Broker.t,
             Broker.bindings b0 = Broker.bindings Broker.topology ->
             Broker.route "notifications.direct" "failed" b0 = []).
  { intros b0 H0. unfold Broker.route. rewrite H0. reflexivity. }
  unfold decision. replace (retry_count <? 3) with false by (symmetry; apply Z.ltb_ge; lia).
  cbn [foldl apply_effect].
  rewrite BrokerFacts.basic_publish_unrouted
    by (apply Hroute; now rewrite basic_nack_keeps_bindings).
  repeat split; [now apply Hroute|].
  unfold Broker.queue_messages, Broker.basic_nack.
  now destruct (Broker.unacked b !! delivery_tag) as [[q m]|].
Qed.

Lemma dead_letter_publish_is_dropped_witness :
  let b' := foldl apply_effect Broker.topology (decision 1 body_42 3) in
  Broker.route "notifications.direct" "failed" Broker.topology = []
  /\ b' = Broker.basic_nack 1 false Broker.topology
  /\ Broker.queue_messages "failed.queue" b'
     = Broker.queue_messages "failed.queue" Broker.topology.
Proof.
  apply (dead_letter_publish_is_dropped Broker.topology 1 body_42 3).
  - reflexivity.
  - discriminate.
Defined.

(** A message that fails at the retry limit: the callback nacks it
    without requeue and publishes it under the key [failed]; after
    that it is in no queue at all. *)
Lemma exhausted_message_is_lost :
  let res := consume_one "email.queue" email_callback_user_missing
               (one_email_exhausted, 0%Q, fresh_breaker) in
  snd res
  = [StatusPost "r-42" "failed" (Some "User u-7 not found or has no email");
     Nack 1 false;
     Publish "notifications.direct" "failed" body_42 (Broker.Props None (Some 2) None)]
  /\ Broker.queue_messages "email.queue" (fst (fst (fst res))) = []
  /\ Broker.queue_messages "push.queue" (fst (fst (fst res))) = []
  /\ Broker.queue_messages "failed.queue" (fst (fst (fst res))) = [].
Proof. vm_compute. auto. Qed.

End ConsumerFacts.

(** ** The gateway *)

Module GatewayFacts.
Import Model Idempotency Gateway GatewayScenario.

#[local] Arguments generate_key : simpl never.


Ltac split_matches :=
  repeat (simpl in *; simplify_eq;
          match goal with
          | H : context [match ?x with _ => _ end] |- _ => destruct x eqn:?
          | |- context [match ?x with _ => _ end] => destruct x eqn:?
          end);
  simpl in *; simplify_eq.

Lemma query_first_id id rows row :
  query_first id rows = Some row -> n_id row = id.
Proof.
  unfold query_first. intros H. apply find_some in H as [_ H].
  now apply String.eqb_eq.
Qed.


(** After the commit of a changed row the query finds the new row. *)
Lemma query_first_updated id rows row row' :
  query_first id rows = Some row ->
  n_id row' = id ->
  query_first id ((fun r => if String.eqb (n_id r) id then row' else r) <$> rows)
  = Some row'.
Proof.
  intros H Hid. unfold query_first in *.
  induction rows as [|r rows IH]; [discriminate H|].
  simpl in *. destruct (String.eqb (n_id r) id) eqn:E.
  - simpl. now rewrite Hid, String.eqb_refl.
  - simpl. rewrite E. now apply IH.
Qed.



Lemma truthy_nonempty rid : rid <> "" -> truthy rid = true.
Proof.
  intros H. unfold truthy. destruct (String.eqb_spec rid ""); [contradiction|reflexivity].
Qed.

(** *** C10: the internal status endpoint *)




(** *** C4: a request seen before *)

Section Admission.
Context {World : Type} (uuid_in : string -> outcome string).
Context (redis_time : World -> Q) (uuid4 : World -> World * string).
Context (get_user : string -> World -> World * outcome (option UserData)).
Context (get_template : string -> World -> World * outcome (option Template)).
Context (queue_publish : string -> QueueMessage -> World -> World * outcome unit).
Context (ttl : Q).

Local Abbreviation create_notification :=
  (create_notification uuid_in redis_time uuid4 get_user get_template
                       queue_publish ttl).



End Admission.




End GatewayFacts.

(** * Further properties of the code *)

(** ** shared/circuit_breaker.py *)

Module CircuitBreakerMore.
Import CircuitBreaker BreakerScenario BreakerInvariant.

Section Facts.
Context {World A : Type} (time_time : World -> Q).
Implicit Types (self : t) (func : @operation World A) (w : World).

Lemma consistent_init n rt expected : 0 < n -> consistent (init n rt expected).
Proof. intros H. unfold consistent; simpl. lia. Qed.

Lemma on_success_consistent self :
  consistent self -> state self <> OPEN -> consistent (on_success self).
Proof.
  unfold consistent, on_success. intros [Hpos H] Hne.
  destruct (state self) eqn:E; try congruence; simpl; rewrite ?E; lia.
Qed.

Lemma on_failure_consistent now self :
  consistent self -> state self <> OPEN -> consistent (on_failure now self).
Proof.
  unfold consistent. intros [Hpos H] Hne.
  rewrite CircuitBreakerFacts.on_failure_fields. simpl.
  split; [assumption|].
  destruct (failure_threshold self <=? failure_count self + 1) eqn:E.
  - apply Z.leb_le in E. eauto.
  - apply Z.leb_gt in E.
    destruct (state self) eqn:Es; try congruence; [lia|].
    destruct H as [H _]. lia.
Qed.

Lemma invoke_consistent self func w :
  consistent self -> state self <> OPEN ->
  consistent (fst (fst (invoke time_time self func w))).
Proof.
  intros Hc Hne. unfold invoke.
  destruct (func w) as [w' [a|e]]; simpl.
  - now apply on_success_consistent.
  - destruct (expected_exception self e); simpl;
      [now apply on_failure_consistent | assumption].
Qed.

Lemma call_consistent self func w :
  consistent self -> consistent (fst (fst (call time_time self func w))).
Proof.
  intros Hc. unfold call, gate.
  destruct (state self) eqn:Es.
  - apply invoke_consistent; [assumption | congruence].
  - destruct (last_failure_time self) as [last|] eqn:El; [|exact Hc].
    destruct (Qgtb _ _); [|exact Hc].
    apply invoke_consistent; [|simpl; congruence].
    destruct Hc as [Hpos H]. rewrite Es in H.
    unfold consistent; simpl. now rewrite El in *.
  - apply invoke_consistent; [assumption | congruence].
Qed.

Lemma calls_consistent self (l : list (@operation World A * World)) :
  consistent self -> consistent (calls time_time self l).
Proof.
  revert self. induction l as [|[f w] l IH]; intros self Hc; [exact Hc|].
  simpl. apply IH. now apply call_consistent.
Qed.

(** X1.  A breaker created with a positive threshold stays
    consistent under any sequence of calls, whatever the operations
    do: CLOSED goes with a failure count below the threshold, OPEN and
    HALF_OPEN with a count at or above it and a recorded failure time.
    So the gate of such a breaker never fails on a missing
    [last_failure_time], and a counted failure that finds it
    HALF_OPEN always reopens it. *)
Theorem reachable_breaker_is_consistent n rt expected
    (l : list (@operation World A * World)) :
  0 < n ->
  let b := calls time_time (init n rt expected) l in
  consistent b
  /\ (forall w, gate time_time b w <> inl none_operand_error)
  /\ (forall func w,
        state b = HALF_OPEN -> fails b func w ->
        state (fst (fst (call time_time b func w))) = OPEN).
Proof.
  intros Hn b.
  assert (Hc : consistent b) by (apply calls_consistent, consistent_init, Hn).
  split; [exact Hc|]. destruct Hc as [Hpos Hc]. split.
  - intros w. unfold gate. destruct (state b); try discriminate.
    destruct Hc as [_ [last Hl]]. rewrite Hl.
    destruct (Qgtb _ _); discriminate.
  - intros func w Hs Hf. rewrite Hs in Hc. destruct Hc as [Hge _].
    unfold call. rewrite CircuitBreakerFacts.gate_not_open by congruence.
    rewrite CircuitBreakerFacts.invoke_fails by assumption. simpl.
    rewrite CircuitBreakerFacts.on_failure_fields. simpl.
    replace (failure_threshold b <=? failure_count b + 1) with true
      by (symmetry; apply Z.leb_le; lia).
    reflexivity.
Qed.

(** Failing calls on a CLOSED breaker, as long as the count stays
    within the threshold. *)
Lemma failures_count self (l : list (@operation World A * World)) :
  state self = CLOSED ->
  0 <= failure_count self < failure_threshold self ->
  failure_count self + Z.of_nat (length l) <= failure_threshold self ->
  Forall (fun c => fails self (fst c) (snd c)) l ->
  let b := calls time_time self l in
  failure_count b = failure_count self + Z.of_nat (length l)
  /\ state b = (if failure_count b <? failure_threshold self then CLOSED else OPEN)
  /\ failure_threshold b = failure_threshold self
  /\ expected_exception b = expected_exception self.
Proof.
  revert self. induction l as [|[f w] l IH]; intros self Hs Hc Hlen Hall b; subst b.
  - simpl. rewrite Z.add_0_r.
    replace (failure_count self <? failure_threshold self) with true
      by (symmetry; apply Z.ltb_lt; lia).
    auto.
  - apply Forall_cons in Hall as [Hf Hall]. simpl in Hf.
    cbn [calls]. rewrite CircuitBreakerFacts.call_closed_fails by assumption.
    rewrite CircuitBreakerFacts.on_failure_fields.
    cbn [length] in Hlen. rewrite Nat2Z.inj_succ in Hlen.
    destruct (failure_threshold self <=? failure_count self + 1) eqn:E.
    + apply Z.leb_le in E.
      assert (l = []) as -> by (destruct l; [reflexivity | simpl in Hlen; lia]).
      simpl.
      replace (failure_count self + 1 <? failure_threshold self) with false
        by (symmetry; apply Z.ltb_ge; lia).
      repeat split; lia.
    + apply Z.leb_gt in E.
      specialize (IH (Make (failure_threshold self) (recovery_timeout self)
                           (expected_exception self) (failure_count self + 1)
                           (Some (time_time (fst (f w)))) (state self))).
      simpl in IH. destruct IH as (Hcnt & Hst & Hth & Hex); try assumption; try lia.
      cbn [length]. rewrite Nat2Z.inj_succ.
      split; [rewrite Hcnt; lia|]. split; [exact Hst|]. split; assumption.
Qed.

(** X2.  For every positive threshold [n]: [k <= n] consecutive
    failing calls on a fresh breaker leave it with a failure count of
    [k], CLOSED when [k < n] and OPEN when [k = n]. *)
Theorem failures_open_at_threshold n rt expected
    (l : list (@operation World A * World)) :
  0 < n ->
  Z.of_nat (length l) <= n ->
  Forall (fun c => fails (init n rt expected) (fst c) (snd c)) l ->
  let b := calls time_time (init n rt expected) l in
  failure_count b = Z.of_nat (length l)
  /\ state b = (if Z.of_nat (length l) <? n then CLOSED else OPEN).
Proof.
  intros Hn Hlen Hall b.
  destruct (failures_count (init n rt expected) l) as (Hc & Hs & _);
    simpl; try assumption; try lia; try reflexivity.
  subst b. simpl in Hc, Hs. rewrite Hc in Hs. auto.
Qed.

Lemma calls_app self (l1 l2 : list (@operation World A * World)) :
  calls time_time self (l1 ++ l2) = calls time_time (calls time_time self l1) l2.
Proof.
  revert self. induction l1 as [|[f w] l1 IH]; intros self; [reflexivity|].
  simpl. apply IH.
Qed.

(** X3.  Failures only add up when they are consecutive: a call that
    returns on a CLOSED breaker puts the count back to zero, so up to
    [n - 1] failures, one success and up to [n - 1] more failures
    leave the breaker CLOSED, with only the later failures counted. *)
Theorem success_resets_the_count n rt expected
    (before after : list (@operation World A * World)) func w :
  0 < n ->
  Z.of_nat (length before) < n ->
  Z.of_nat (length after) < n ->
  Forall (fun c => fails (init n rt expected) (fst c) (snd c)) before ->
  Forall (fun c => fails (init n rt expected) (fst c) (snd c)) after ->
  succeeds func w ->
  let b := calls time_time (init n rt expected) (before ++ (func, w) :: after) in
  state b = CLOSED /\ failure_count b = Z.of_nat (length after).
Proof.
  intros Hn Hb Ha Hfb Hfa Hok b. subst b.
  rewrite calls_app. cbn [calls].
  destruct (failures_count (init n rt expected) before) as (Hc & Hs & Hth & Hex);
    simpl; try assumption; try lia; try reflexivity.
  simpl in Hc, Hs, Hth, Hex.
  set (b1 := calls time_time (init n rt expected) before) in *.
  rewrite Hc in Hs.
  replace (0 + Z.of_nat (length before) <? n) with true in Hs
    by (symmetry; apply Z.ltb_lt; lia).
  unfold call. rewrite CircuitBreakerFacts.gate_not_open by congruence.
  rewrite CircuitBreakerFacts.invoke_succeeds by assumption. cbn [fst].
  assert (Hb2 : on_success b1
                = Make n (recovery_timeout b1) expected 0 (last_failure_time b1) CLOSED).
  { unfold on_success. rewrite Hs. unfold set_failure_count. rewrite Hs, Hth, Hex.
    reflexivity. }
  rewrite Hb2.
  destruct (failures_count
              (Make n (recovery_timeout b1) expected 0 (last_failure_time b1) CLOSED)
              after) as (Hc2 & Hs2 & _);
    simpl; try assumption; try lia; try reflexivity.
  simpl in Hc2, Hs2. rewrite Hc2 in Hs2.
  replace (0 + Z.of_nat (length after) <? n) with true in Hs2
    by (symmetry; apply Z.ltb_lt; lia).
  split; [exact Hs2 | lia].
Qed.

End Facts.

Lemma reachable_breaker_is_consistent_witness :
  consistent (calls clock_time (init 5 60 isinstance_Exception) five_failing_calls).
Proof.
  refine (proj1 (reachable_breaker_is_consistent clock_time 5 60%Q
                   isinstance_Exception five_failing_calls _)).
  reflexivity.
Defined.

Lemma failures_open_at_threshold_witness :
  let b := calls clock_time (init 5 60 isinstance_Exception) five_failing_calls in
  failure_count b = 5 /\ state b = OPEN.
Proof.
  apply (failures_open_at_threshold clock_time 5 60%Q isinstance_Exception
           five_failing_calls).
  - reflexivity.
  - discriminate.
  - repeat constructor; exists (Exception "connection refused"); split; reflexivity.
Defined.

Lemma success_resets_the_count_witness :
  let b := calls clock_time (init 3 60 isinstance_Exception)
             ([(failing_op, 0%Q); (failing_op, 10%Q)]
              ++ (ok_after 1, 20%Q) :: [(failing_op, 30%Q); (failing_op, 40%Q)]) in
  state b = CLOSED /\ failure_count b = 2.
Proof.
  apply (success_resets_the_count clock_time 3 60%Q isinstance_Exception
           [(failing_op, 0%Q); (failing_op, 10%Q)]
           [(failing_op, 30%Q); (failing_op, 40%Q)] (ok_after 1) 20%Q).
  - reflexivity.
  - reflexivity.
  - reflexivity.
  - repeat constructor; exists (Exception "connection refused"); split; reflexivity.
  - repeat constructor; exists (Exception "connection refused"); split; reflexivity.
  - exists tt. reflexivity.
Defined.

End CircuitBreakerMore.

(** ** shared/retry.py *)

Module RetryMore.
Import Retry RetrySpec BreakerScenario.

Section Facts.
Context {World A : Type}.
Context (time_sleep : Q -> World -> World).
Context (max_retries : Z) (initial_delay max_delay exponential_base : Q)
        (exceptions : exn -> bool).
Context (func : World -> World * outcome A).

Local Abbreviation loop :=
  (loop time_sleep max_retries max_delay exponential_base exceptions func).

(** A value the wrapper returns is a value the function returned. *)
Lemma loop_returned k attempt delay last_exception w a :
  snd (fst (loop k attempt delay last_exception w)) = Returned a ->
  exists w', snd (func w') = Returned a.
Proof.
  revert attempt delay last_exception w.
  induction k as [|k IH]; intros attempt delay last_exception w.
  - simpl. destruct last_exception; discriminate.
  - rewrite RetryFacts.loop_unfold.
    destruct (func w) as [w1 [a'|e]] eqn:Hf.
    + simpl. intros [= ->]. exists w. now rewrite Hf.
    + destruct (exceptions e); [|discriminate].
      destruct (attempt <? max_retries); [|discriminate].
      cbv zeta. destruct (sleep_refusal _); [discriminate|].
      specialize (IH (attempt + 1) (delay * exponential_base)%Q (Some e)
                     (time_sleep (py_min delay max_delay) w1)).
      destruct (loop k _ _ _ _) as [[w2 r2] evs]. simpl in *. exact IH.
Qed.

(** Every sleep is between zero and [max_delay], and a sleep needs
    an index below [max_retries]. *)
Lemma loop_sleeps_bound k attempt delay last_exception w :
  let evs := snd (loop k attempt delay last_exception w) in
  Z.of_nat (length (sleeps evs)) <= Z.max 0 (max_retries - attempt)
  /\ Forall (fun d => (0 <= d)%Q /\ (d <= max_delay)%Q) (sleeps evs).
Proof.
  revert attempt delay last_exception w.
  induction k as [|k IH]; intros attempt delay last_exception w evs; subst evs.
  - simpl. split; [lia | constructor].
  - rewrite RetryFacts.loop_unfold.
    destruct (func w) as [w1 [a|e]]; [simpl; split; [lia | constructor]|].
    destruct (exceptions e); [|simpl; split; [lia | constructor]].
    destruct (attempt <? max_retries) eqn:Hlt; [|simpl; split; [lia | constructor]].
    apply Z.ltb_lt in Hlt.
    cbv zeta.
    destruct (sleep_refusal _) eqn:Hsleep; [simpl; split; [lia | constructor]|].
    specialize (IH (attempt + 1) (delay * exponential_base)%Q (Some e)
                   (time_sleep (py_min delay max_delay) w1)).
    destruct (loop k _ _ _ _) as [[w2 r2] evs] eqn:Hrec. simpl in *.
    destruct IH as [IHlen IHall]. split.
    + lia.
    + constructor; [|exact IHall]. split.
      * now apply RetryFacts.sleep_refusal_nonneg.
      * rewrite RetryFacts.py_min_Qmin. apply Q.le_min_r.
Qed.

(** X5.  Whatever the function does and however the decorator is
    configured, the wrapper never sleeps a negative time or longer
    than [max_delay], and it sleeps at most [max_retries] times. *)
Theorem sleeps_are_bounded (w : World) :
  let evs := snd (wrapper time_sleep max_retries initial_delay max_delay
                          exponential_base exceptions func w) in
  Z.of_nat (length (sleeps evs)) <= Z.max 0 max_retries
  /\ Forall (fun d => (0 <= d)%Q /\ (d <= max_delay)%Q) (sleeps evs).
Proof.
  intros evs. subst evs. unfold wrapper.
  destruct (loop_sleeps_bound (Z.to_nat (max_retries + 1)) 0 initial_delay None w)
    as [Hlen Hall].
  split; [rewrite Z.sub_0_r in Hlen; exact Hlen | exact Hall].
Qed.

Hypothesis initial_delay_nonneg : (0 <= initial_delay)%Q.
Hypothesis exponential_base_nonneg : (0 <= exponential_base)%Q.
Hypothesis max_delay_nonneg : (0 <= max_delay)%Q.
Hypothesis max_delay_sleepable : (max_delay <= 9000000000)%Q.

Lemma backoff_nonneg j : (0 <= backoff initial_delay exponential_base max_delay j)%Q.
Proof.
  unfold backoff. apply Q.min_glb; [|assumption].
  apply Qmult_le_0_compat; [assumption|]. now apply Qpower_0_le.
Qed.

(** The loop at index [j] with [k] retries left, whatever the
    attempts give. *)
Lemma loop_shape k : forall j delay last_exception w,
  Z.of_nat j + Z.of_nat k = max_retries ->
  (delay == initial_delay * exponential_base ^ Z.of_nat j)%Q ->
  let res := loop (S k) (Z.of_nat j) delay last_exception w in
  snd res = Retry.schedule (attempts (snd res)) (sleeps (snd res))
  /\ last (attempts (snd res)) = Some (snd (fst res))
  /\ Forall (fun r => retried exceptions r = true) (removelast (attempts (snd res)))
  /\ (retried exceptions (snd (fst res)) = true -> length (attempts (snd res)) = S k).
Proof.
  induction k as [|k IH]; intros j delay last_exception w Hj Hdelay res;
    subst res; rewrite RetryFacts.loop_unfold;
    destruct (func w) as [w1 [a|e]] eqn:Hf;
    try (simpl; repeat split; (constructor || discriminate)).
  - destruct (exceptions e) eqn:He.
    + replace (Z.of_nat j <? max_retries) with false
        by (symmetry; apply Z.ltb_ge; lia).
      simpl. repeat split; constructor.
    + simpl. rewrite He. repeat split; (constructor || discriminate).
  - destruct (exceptions e) eqn:He.
    2:{ simpl. rewrite He. repeat split; (constructor || discriminate). }
    replace (Z.of_nat j <? max_retries) with true
      by (symmetry; apply Z.ltb_lt; lia).
    cbv zeta.
    assert (Hmin : (py_min delay max_delay
                    == backoff initial_delay exponential_base max_delay j)%Q).
    { rewrite RetryFacts.py_min_Qmin. unfold backoff. now rewrite Hdelay. }
    assert (Hpos : sleep_refusal (py_min delay max_delay) = None).
    { apply RetryFacts.sleep_refusal_none.
      - rewrite Hmin. apply backoff_nonneg.
      - rewrite RetryFacts.py_min_Qmin.
        apply Qle_trans with max_delay; [apply Q.le_min_r|].
        apply Qle_trans with 9000000000%Q; [assumption | discriminate]. }
    rewrite Hpos.
    specialize (IH (S j) (delay * exponential_base)%Q (Some e)
                   (time_sleep (py_min delay max_delay) w1)).
    replace (Z.of_nat j + 1) with (Z.of_nat (S j)) by lia.
    destruct IH as (Hsched & Hlast & Hall & Hfull).
    { lia. }
    { rewrite Hdelay, RetryFacts.Qpower_of_nat_succ. ring. }
    destruct (Retry.loop _ _ _ _ _ _ (S k) _ _ _ _) as [[w2 r2] evs]. simpl in *.
    destruct (attempts evs) as [|r0 rs] eqn:Hatt; [discriminate Hlast|].
    repeat split.
    + do 2 f_equal. exact Hsched.
    + exact Hlast.
    + constructor; [exact He | exact Hall].
    + intros Hr. f_equal. now apply Hfull.
Qed.

End Facts.

(** X4.  With [max_retries] n >= 0, non-negative delays and a
    [max_delay] of at most 9e9 seconds (so that [time.sleep] takes
    every length it is given), a run of the wrapper is a sequence of
    attempts with a sleep between two consecutive ones; every attempt
    but the last raised an exception of the retried classes, and what
    the wrapper returns or raises is the outcome of the last attempt.
    So it stops at the first attempt that returns and at the first
    exception outside the retried classes, and only when the last
    attempt raised a retried exception have all n + 1 attempts been
    made. *)
Theorem wrapper_ends_with_last_attempt {World A : Type}
    (time_sleep : Q -> World -> World)
    (max_retries : Z) (initial_delay max_delay exponential_base : Q)
    (exceptions : exn -> bool) (func : World -> World * outcome A) (w : World) :
  0 <= max_retries ->
  (0 <= initial_delay)%Q -> (0 <= exponential_base)%Q -> (0 <= max_delay)%Q ->
  (max_delay <= 9000000000)%Q ->
  let res := wrapper time_sleep max_retries initial_delay max_delay
                     exponential_base exceptions func w in
  let evs := snd res in
  evs = Retry.schedule (attempts evs) (sleeps evs)
  /\ last (attempts evs) = Some (snd (fst res))
  /\ Forall (fun r => retried exceptions r = true) (removelast (attempts evs))
  /\ (retried exceptions (snd (fst res)) = true ->
      Z.of_nat (length (attempts evs)) = max_retries + 1).
Proof.
  intros Hn Hd0 Hb Hmax Hsleep res evs. subst evs res. unfold wrapper.
  replace (Z.to_nat (max_retries + 1)) with (S (Z.to_nat max_retries)) by lia.
  destruct (loop_shape time_sleep max_retries initial_delay max_delay
              exponential_base exceptions func Hd0 Hb Hmax Hsleep
              (Z.to_nat max_retries) 0%nat initial_delay None w)
    as (Hsched & Hlast & Hall & Hfull).
  { lia. }
  { simpl. ring. }
  change (Z.of_nat 0) with 0 in *.
  repeat split; try assumption.
  intros Hr. rewrite (Hfull Hr). lia.
Qed.

Lemma wrapper_ends_with_last_attempt_witness :
  let res := wrapper no_sleep 3 1 60 2 isinstance_Exception third_time_lucky 0%nat in
  last (attempts (snd res)) = Some (Returned true)
  /\ snd (fst res) = Returned true
  /\ length (attempts (snd res)) = 3%nat.
Proof.
  assert (H03 : 0 <= 3) by lia.
  destruct (wrapper_ends_with_last_attempt no_sleep 3 1 60 2 isinstance_Exception
              third_time_lucky 0%nat H03) as (_ & Hlast & _ & _);
    try discriminate.
  split; [exact Hlast|]. split; reflexivity.
Defined.

End RetryMore.

(** ** services/email_service/sender.py *)

Module SenderFacts.
Import Sender SenderScenario Retry.

Section Facts.
Context {World : Type}.
Context (sendgrid_post :
           string -> string -> string -> string -> string ->
           World -> World * outcome Z).
Context (smtp_session :
           string -> Z -> string -> string -> string -> string -> string -> string ->
           World -> World * outcome unit).
Context (time_sleep : Q -> World -> World).

Lemma send_body_not_false (self : EmailSender) to_email subject body w :
  snd (send_body sendgrid_post smtp_session self to_email subject body w)
  <> Returned false.
Proof.
  unfold send_body, send_via_sendgrid, send_via_smtp, send_mock.
  destruct (truthy_opt (sendgrid_api_key self)).
  - destruct (sendgrid_post _ _ _ _ _ _) as [w' [c|e]]; simpl; [|discriminate].
    destruct (raise_for_status c); discriminate.
  - destruct (truthy_opt (smtp_user self) && truthy_opt (smtp_password self)).
    + destruct (smtp_session _ _ _ _ _ _ _ _ _) as [w' [[]|e]]; discriminate.
    + discriminate.
Qed.

(** X6.  [EmailSender.send] returns [True] or raises; it never
    returns [False], with or without the retry decorator.  (So the
    [else] branch "Failed to send email" of the consumer is not taken
    with this sender.) *)
Theorem send_never_returns_false (self : EmailSender) (to_email subject body : string)
    (w : World) :
  snd (send_body sendgrid_post smtp_session self to_email subject body w)
  <> Returned false
  /\ snd (send sendgrid_post smtp_session time_sleep self to_email subject body w)
     <> Returned false.
Proof.
  split; [apply send_body_not_false|].
  unfold send, send_traced, wrapper. intros H.
  apply RetryMore.loop_returned in H as [w' H].
  now apply send_body_not_false in H.
Qed.

(** X7.  Without a SendGrid key and without both SMTP credentials
    (unset or empty), [send] answers [True] at its first attempt
    without touching the outside: no request, no SMTP session, no
    sleep. *)
Theorem unconfigured_sender_pretends (self : EmailSender)
    (to_email subject body : string) (w : World) :
  truthy_opt (sendgrid_api_key self) = false ->
  truthy_opt (smtp_user self) && truthy_opt (smtp_password self) = false ->
  send_traced sendgrid_post smtp_session time_sleep self to_email subject body w
  = (w, Returned true, [Attempt (Returned true)]).
Proof.
  intros Hkey Hsmtp. unfold send_traced, wrapper. simpl.
  unfold send_body. now rewrite Hkey, Hsmtp.
Qed.

(** X8.  With a SendGrid key set and SendGrid failing on every
    request, one [send] makes four requests with sleeps of 1, 2 and 4
    seconds between them and raises; the SMTP settings play no part
    (there is no fallback), and a CLOSED circuit breaker around the
    call counts all of it as one failure. *)
Theorem sendgrid_outage_costs_four_requests (self : EmailSender)
    (to_email subject body : string) (w : World) :
  truthy_opt (sendgrid_api_key self) = true ->
  (forall key from w0,
      sendgrid_fails (snd (sendgrid_post key from to_email subject body w0))) ->
  let res := send_traced sendgrid_post smtp_session time_sleep self
                         to_email subject body w in
  length (attempts (snd res)) = 4%nat
  /\ Forall2 Qeq (sleeps (snd res)) [1%Q; 2%Q; 4%Q]
  /\ (exists e, snd (fst res) = Raised e)
  /\ (forall other_smtp,
         send_traced sendgrid_post other_smtp time_sleep self to_email subject body w
         = res)
  /\ (forall (time_time : World -> Q) (cb : CircuitBreaker.t),
         CircuitBreaker.state cb = CircuitBreaker.CLOSED ->
         CircuitBreaker.expected_exception cb = isinstance_Exception ->
         fst (fst (CircuitBreaker.call time_time cb
                     (send sendgrid_post smtp_session time_sleep self
                           to_email subject body) w))
         = CircuitBreaker.on_failure (time_time (fst (fst res))) cb).
Proof.
  intros Hkey Hdown res.
  assert (Hfail : forall w0, exists e,
             snd (send_body sendgrid_post smtp_session self to_email subject body w0)
             = Raised e /\ isinstance_Exception e = true).
  { intros w0. unfold send_body. rewrite Hkey. unfold send_via_sendgrid.
    specialize (Hdown (default "" (sendgrid_api_key self)) (email_from self) w0).
    destruct (sendgrid_post _ _ _ _ _ _) as [w' [c|e]]; simpl in *.
    - unfold raise_for_status.
      replace ((400 <=? c) && (c <? 600)) with true
        by (symmetry; apply andb_true_iff; split;
            [apply Z.leb_le | apply Z.ltb_lt]; lia).
      eauto.
    - eauto. }
  pose proof (RetryFacts.loop_all_fail time_sleep 3 1 2 60 isinstance_Exception
                (send_body sendgrid_post smtp_session self to_email subject body)
                Hfail ltac:(lia) ltac:(lia) ltac:(discriminate) ltac:(discriminate)
                3%nat 0%nat None w eq_refl) as Hrun.
  change (Retry.loop _ _ _ _ _ _ _ _ _ _ _) with res in Hrun.
  destruct (RetryFacts.failing_run_shape time_sleep isinstance_Exception
              (send_body sendgrid_post smtp_session self to_email subject body)
              Hfail (backoff_seconds 1 2 60) 3 0%nat w)
    as (Hlen & Hsleeps & w_last & e & _ & _ & Hr & _).
  rewrite <- Hrun in Hlen, Hsleeps, Hr.
  split; [exact Hlen|]. split; [|split; [|split]].
  - rewrite Hsleeps. repeat constructor.
  - eauto.
  - intros other_smtp. subst res. unfold send_traced, send_body. now rewrite Hkey.
  - intros time_time cb Hclosed Hexp.
    rewrite CircuitBreakerFacts.call_closed_fails; [reflexivity | assumption |].
    exists e. split; [exact Hr|]. now rewrite Hexp.
Qed.

End Facts.

Lemma unconfigured_sender_pretends_witness :
  send_traced sendgrid_503 smtp_ok BreakerScenario.no_sleep unconfigured
    "ada@example.com" "Welcome" "<p>Hello Ada</p>" 0%nat
  = (0%nat, Returned true, [Attempt (Returned true)]).
Proof.
  apply (unconfigured_sender_pretends sendgrid_503 smtp_ok BreakerScenario.no_sleep
           unconfigured); reflexivity.
Defined.

Lemma sendgrid_outage_costs_four_requests_witness :
  let res := send_traced sendgrid_503 smtp_ok BreakerScenario.no_sleep with_sendgrid
               "ada@example.com" "Welcome" "<p>Hello Ada</p>" 0%nat in
  length (attempts (snd res)) = 4%nat
  /\ Forall2 Qeq (sleeps (snd res)) [1%Q; 2%Q; 4%Q]
  /\ fst (fst res) = 4%nat.
Proof.
  destruct (sendgrid_outage_costs_four_requests sendgrid_503 smtp_ok
              BreakerScenario.no_sleep with_sendgrid
              "ada@example.com" "Welcome" "<p>Hello Ada</p>" 0%nat)
    as (Hlen & Hsleeps & _).
  - reflexivity.
  - intros key from w0. simpl. lia.
  - split; [exact Hlen|]. split; [exact Hsleeps | reflexivity].
Defined.

End SenderFacts.

(** ** services/api_gateway/database.py *)

Module DatabaseFacts.
Import Database.

Section Facts.
Context {World : Type}.
Context (connect_and_create : World -> World * outcome unit).
Context (time_sleep : Z -> World -> World).

Lemma init_loop_unfold k attempt w :
  init_loop connect_and_create time_sleep (S k) attempt w
  = let (w1, r) := connect_and_create w in
    match r with
    | Returned _ => (w1, Returned tt, [Connect r])
    | Raised e =>
        if is_OperationalError e then
          if attempt <? 5 - 1 then
            let '(w2, r2, evs) :=
              init_loop connect_and_create time_sleep k (attempt + 1)
                        (time_sleep 2 w1) in
            (w2, r2, Connect r :: Sleep 2 :: evs)
          else (w1, Raised e, [Connect r])
        else (w1, Raised e, [Connect r])
    end.
Proof. reflexivity. Qed.

Lemma init_loop_shape k : forall attempt w,
  attempt + Z.of_nat k = 4 -> 0 <= attempt ->
  let res := init_loop connect_and_create time_sleep (S k) attempt w in
  last (connects (snd res)) = Some (snd (fst res))
  /\ Forall (fun r => unreachable r = true) (removelast (connects (snd res)))
  /\ sleeps (snd res) = repeat 2 (Nat.pred (length (connects (snd res))))
  /\ (length (connects (snd res)) <= S k)%nat
  /\ (unreachable (snd (fst res)) = true -> length (connects (snd res)) = S k).
Proof.
  induction k as [|k IH]; intros attempt w Hk Ha res; subst res;
    rewrite init_loop_unfold; destruct (connect_and_create w) as [w1 [[]|e]] eqn:Hc.
  - simpl. repeat split; try constructor; try lia; try discriminate.
  - destruct (is_OperationalError e) eqn:He.
    + replace (attempt <? 5 - 1) with false by (symmetry; apply Z.ltb_ge; lia).
      simpl. repeat split; try constructor; try lia; try discriminate.
    + simpl. rewrite He. repeat split; try constructor; try lia; try discriminate.
  - simpl. repeat split; try constructor; try lia; try discriminate.
  - destruct (is_OperationalError e) eqn:He.
    2:{ simpl. rewrite He. repeat split; try constructor; try lia; try discriminate. }
    replace (attempt <? 5 - 1) with true by (symmetry; apply Z.ltb_lt; lia).
    specialize (IH (attempt + 1) (time_sleep 2 w1)).
    destruct IH as (Hlast & Hall & Hsleeps & Hlen & Hfull); [lia | lia |].
    destruct (init_loop _ _ (S k) _ _) as [[w2 r2] evs]. simpl in *.
    destruct (connects evs) as [|r0 rs] eqn:Hcon; [discriminate Hlast|].
    simpl in *. repeat split.
    + exact Hlast.
    + constructor; [exact He | exact Hall].
    + now rewrite Hsleeps.
    + lia.
    + intros Hr. f_equal. now apply Hfull.
Qed.

(** X9.  [init_db] tries to connect between one and five times and
    sleeps two seconds between consecutive attempts; every attempt but
    the last raised [OperationalError], and [init_db] returns or
    raises as the last attempt did.  So it stops at the first attempt
    that succeeds and at the first exception of another class, and
    only when it raises [OperationalError] has it made all five
    attempts. *)
Theorem init_db_attempts (w : World) :
  let res := init_db connect_and_create time_sleep w in
  last (connects (snd res)) = Some (snd (fst res))
  /\ Forall (fun r => unreachable r = true) (removelast (connects (snd res)))
  /\ sleeps (snd res) = repeat 2 (Nat.pred (length (connects (snd res))))
  /\ (1 <= length (connects (snd res)) <= 5)%nat
  /\ (unreachable (snd (fst res)) = true -> length (connects (snd res)) = 5%nat).
Proof.
  intros res. subst res. unfold init_db.
  destruct (init_loop_shape 4 0 w) as (Hlast & Hall & Hsleeps & Hlen & Hfull);
    [reflexivity | lia |].
  repeat split; try assumption.
  destruct (connects _); [discriminate Hlast | simpl; lia].
Qed.

End Facts.

End DatabaseFacts.

(** ** The decorated getters of the HTTP clients *)

Module HttpClientFacts.
Import HttpClient HttpScenario.

Section Facts.
Context {World A : Type} (time_time : World -> Q).
Context (requests_get : string -> World -> World * outcome (Response A)).

(** X10.  A getter behind a CLOSED breaker: an answer with a status
    below 400 (or from 600) whose JSON can be read is returned as the
    [data] of a successful envelope and as [None] otherwise, and the
    breaker counts it as a success either way, so an envelope that
    says "not found" puts the failure count back to zero; an error
    status, an unreadable body and an exception of the request are
    raised to the caller and counted as one failure. *)
Theorem getter_outcomes (cb : CircuitBreaker.t) (key : string) (w w' : World) :
  CircuitBreaker.state cb = CircuitBreaker.CLOSED ->
  CircuitBreaker.expected_exception cb = isinstance_Exception ->
  (forall response data,
      requests_get key w = (w', Returned response) ->
      ~ 400 <= status_code response < 600 ->
      json response = Returned data ->
      decorated time_time requests_get cb key w
      = (CircuitBreaker.set_failure_count 0 cb, w',
         Returned (if j_success data then j_data data else None)))
  /\ (forall response,
         requests_get key w = (w', Returned response) ->
         400 <= status_code response < 600 ->
         decorated time_time requests_get cb key w
         = (CircuitBreaker.on_failure (time_time w') cb, w', Raised Sender.HTTPError))
  /\ (forall response e,
         requests_get key w = (w', Returned response) ->
         ~ 400 <= status_code response < 600 ->
         json response = Raised e ->
         decorated time_time requests_get cb key w
         = (CircuitBreaker.on_failure (time_time w') cb, w', Raised e))
  /\ (forall e,
         requests_get key w = (w', Raised e) ->
         decorated time_time requests_get cb key w
         = (CircuitBreaker.on_failure (time_time w') cb, w', Raised e)).
Proof.
  intros Hclosed Hexp.
  assert (Hgate : CircuitBreaker.gate time_time cb w = inr cb)
    by (apply CircuitBreakerFacts.gate_not_open; congruence).
  assert (Hstatus : forall c, ~ 400 <= c < 600 -> Sender.raise_for_status c = Returned tt).
  { intros c Hc. unfold Sender.raise_for_status.
    destruct ((400 <=? c) && (c <? 600)) eqn:E; [|reflexivity].
    apply andb_true_iff in E as [E1 E2].
    apply Z.leb_le in E1. apply Z.ltb_lt in E2. lia. }
  assert (Herr : forall c, 400 <= c < 600 ->
                           Sender.raise_for_status c = Raised Sender.HTTPError).
  { intros c Hc. unfold Sender.raise_for_status.
    replace ((400 <=? c) && (c <? 600)) with true; [reflexivity|].
    symmetry. apply andb_true_iff. split; [apply Z.leb_le | apply Z.ltb_lt]; lia. }
  unfold decorated, CircuitBreaker.call. rewrite Hgate.
  unfold CircuitBreaker.invoke, fetch.
  repeat split.
  - intros response data Hget Hc Hjson.
    rewrite Hget, (Hstatus _ Hc), Hjson.
    unfold CircuitBreaker.on_success. rewrite Hclosed.
    destruct (j_success data); simpl; [|reflexivity].
    destruct (j_data data); reflexivity.
  - intros response Hget Hc. rewrite Hget, (Herr _ Hc), Hexp. reflexivity.
  - intros response e Hget Hc Hjson.
    rewrite Hget, (Hstatus _ Hc), Hjson, Hexp. reflexivity.
  - intros e Hget. rewrite Hget, Hexp. reflexivity.
Qed.

End Facts.

Lemma getter_outcomes_witness :
  decorated BreakerScenario.clock_time get_unknown BreakerScenario.about_to_trip
            "u-7" 100%Q
  = (CircuitBreaker.set_failure_count 0 BreakerScenario.about_to_trip, 101%Q,
     Returned None).
Proof.
  refine (proj1 (getter_outcomes BreakerScenario.clock_time get_unknown
                   BreakerScenario.about_to_trip "u-7" 100%Q (100 + 1)%Q
                   eq_refl eq_refl) user_unknown (Body false None) eq_refl _ eq_refl).
  simpl. lia.
Defined.

End HttpClientFacts.

(** ** shared/idempotency.py *)

Module IdempotencyFacts.
Import Idempotency.

Lemma append_cancel_l (p a b : string) : p ++ a = p ++ b -> a = b.
Proof.
  induction p as [|c p IH]; simpl; [auto|]. intros [= H]. auto.
Qed.

(** Within one service, different request ids have different keys. *)
Lemma generate_key_inj service rid rid' :
  generate_key rid service = generate_key rid' service -> rid = rid'.
Proof.
  unfold generate_key. intros H.
  now do 3 apply append_cancel_l in H.
Qed.

Lemma redis_get_setex now t key ttl v (r : redis) :
  redis_get now key (redis_setex t key ttl v r)
  = if Qgtb now (t + ttl) then None else Some v.
Proof.
  unfold redis_get, redis_setex, redis in *. now rewrite lookup_insert_eq.
Qed.

Lemma redis_get_setex_ne now t key key' ttl v (r : redis) :
  key <> key' ->
  redis_get now key' (redis_setex t key ttl v r) = redis_get now key' r.
Proof.
  intros H. unfold redis_get, redis_setex, redis in *. now rewrite lookup_insert_ne.
Qed.

(** X11.  The first result stored for a request wins until it
    expires: after [check_and_store] has stored a result for a request
    that had no live entry, every [check_and_store] for that request
    made less than [ttl] later returns the stored result, whatever
    result it is given, and leaves Redis as it is; [is_duplicate] is
    true throughout. *)
Theorem first_result_wins (ttl t0 t1 : Q) (rid service : string)
    (result other : json_obj) (r : redis) :
  (0 < ttl)%Q ->
  redis_get t0 (generate_key rid service) r = None ->
  (t1 < t0 + ttl)%Q ->
  let r1 := fst (check_and_store ttl t0 rid service result r) in
  snd (check_and_store ttl t0 rid service result r) = None
  /\ check_and_store ttl t1 rid service other r1 = (r1, Some result)
  /\ is_duplicate t1 rid service r1 = true.
Proof.
  intros Httl Hnone Hlive r1. subst r1.
  unfold check_and_store, is_duplicate, redis_exists. rewrite Hnone. cbn [fst snd].
  rewrite redis_get_setex. apply Qlt_le_weak, Qgtb_false in Hlive.
  rewrite Hlive. auto.
Qed.

(** X12.  An entry is gone once more than [ttl] has passed: from
    then on [is_duplicate] is false for the request and
    [check_and_store] stores the result it is given, which is what
    later calls get. *)
Theorem expired_result_is_replaced (ttl t0 t1 t2 : Q) (rid service : string)
    (result other : json_obj) (r : redis) :
  (0 < ttl)%Q ->
  redis_get t0 (generate_key rid service) r = None ->
  (t0 + ttl < t1)%Q ->
  (t2 < t1 + ttl)%Q ->
  let r1 := fst (check_and_store ttl t0 rid service result r) in
  let r2 := fst (check_and_store ttl t1 rid service other r1) in
  is_duplicate t1 rid service r1 = false
  /\ snd (check_and_store ttl t1 rid service other r1) = None
  /\ redis_get t2 (generate_key rid service) r2 = Some other.
Proof.
  intros Httl Hnone Hexp Hlive r1 r2. subst r2 r1.
  unfold check_and_store, is_duplicate, redis_exists. rewrite Hnone. cbn [fst snd].
  rewrite redis_get_setex. apply Qgtb_true in Hexp. rewrite Hexp. cbn [fst snd].
  rewrite redis_get_setex. apply Qlt_le_weak, Qgtb_false in Hlive.
  rewrite Hlive. auto.
Qed.

(** X13.  Requests do not disturb each other: what [check_and_store]
    does for one request id changes nothing for another request id of
    the same service, at any time. *)
Theorem other_requests_are_untouched (ttl t now : Q) (rid rid' service : string)
    (result : json_obj) (r : redis) :
  rid <> rid' ->
  let r1 := fst (check_and_store ttl t rid service result r) in
  redis_get now (generate_key rid' service) r1
  = redis_get now (generate_key rid' service) r
  /\ is_duplicate now rid' service r1 = is_duplicate now rid' service r.
Proof.
  intros Hne r1. subst r1.
  assert (Hkey : generate_key rid service <> generate_key rid' service)
    by (intros H; apply Hne; exact (generate_key_inj _ _ _ H)).
  assert (Hget : redis_get now (generate_key rid' service)
                   (fst (check_and_store ttl t rid service result r))
                 = redis_get now (generate_key rid' service) r).
  { unfold check_and_store.
    destruct (redis_get t (generate_key rid service) r); [reflexivity|].
    cbn [fst]. now apply redis_get_setex_ne. }
  split; [exact Hget|]. unfold is_duplicate, redis_exists. now rewrite Hget.
Qed.

Lemma first_result_wins_witness :
  let r1 := fst (check_and_store 3600 0 "r-42" "notification"
                   [("status", "pending")] ∅) in
  check_and_store 3600 1800 "r-42" "notification" [] r1
  = (r1, Some [("status", "pending")]).
Proof.
  refine (proj1 (proj2 (first_result_wins 3600 0 1800 "r-42" "notification"
                          [("status", "pending")] [] ∅ _ _ _)));
    reflexivity.
Defined.

Lemma expired_result_is_replaced_witness :
  let r1 := fst (check_and_store 3600 0 "r-42" "notification"
                   [("status", "pending")] ∅) in
  is_duplicate 3601 "r-42" "notification" r1 = false.
Proof.
  refine (proj1 (expired_result_is_replaced 3600 0 3601 3700 "r-42" "notification"
                   [("status", "pending")] [] ∅ _ _ _ _));
    first [reflexivity | discriminate].
Defined.

Lemma other_requests_are_untouched_witness :
  let r1 := fst (check_and_store 3600 0 "r-42" "notification"
                   [("status", "pending")] ∅) in
  is_duplicate 10 "r-43" "notification" r1 = is_duplicate 10 "r-43" "notification" ∅.
Proof.
  refine (proj2 (other_requests_are_untouched 3600 0 10 "r-42" "r-43" "notification"
                   [("status", "pending")] ∅ _)).
  discriminate.
Defined.

End IdempotencyFacts.

(** ** services/api_gateway/main.py: the other handlers *)

Module GatewayMoreFacts.
Import Model Idempotency Gateway GatewayViews GatewayScenario GatewaySpec.

#[local] Arguments generate_key : simpl never.

Ltac split_matches :=
  repeat (simpl in *; simplify_eq;
          match goal with
          | H : context [match ?x with _ => _ end] |- _ => destruct x eqn:?
          | |- context [match ?x with _ => _ end] => destruct x eqn:?
          end);
  simpl in *; simplify_eq.

Lemma query_first_not_in id rows :
  query_first id rows = None -> id ∉ ids rows.
Proof.
  unfold query_first, ids. induction rows as [|r rows IH]; simpl.
  - intros _. apply not_elem_of_nil.
  - destruct (String.eqb_spec (n_id r) id) as [|Hne]; [discriminate|].
    intros H. apply not_elem_of_cons. split; [congruence | now apply IH].
Qed.

Lemma ids_replace id row' rows :
  n_id row' = id ->
  ids ((fun r => if String.eqb (n_id r) id then row' else r) <$> rows) = ids rows.
Proof.
  intros Hid. unfold ids. induction rows as [|r rows IH]; [reflexivity|].
  simpl. f_equal; [|exact IH].
  destruct (String.eqb_spec (n_id r) id); congruence.
Qed.

Section Facts.
Context {World : Type} (uuid_in : string -> outcome string).
Context (time_time : World -> Q) (redis_time : World -> Q).
Context (uuid4 : World -> World * string).
Context (get_user : string -> World -> World * outcome (option UserData)).
Context (get_template : string -> World -> World * outcome (option Template)).
Context (queue_publish : string -> QueueMessage -> World -> World * outcome unit).
Context (ttl : Q) (service_token : string).

Local Abbreviation create_notification :=
  (create_notification uuid_in redis_time uuid4 get_user get_template
                       queue_publish ttl).
Local Abbreviation update_internal :=
  (update_notification_status_internal uuid_in time_time service_token).
Local Abbreviation get_notification_status :=
  (get_notification_status uuid_in).

Lemma update_internal_accepted notification_id key row status_update (s : St World) :
  uuid_in notification_id = Returned key ->
  query_first key (table s) = Some row ->
  update_internal notification_id status_update (Some service_token) s
  = (MkSt (world s) (redis_db s)
          ((fun r => if String.eqb (n_id r) key
                     then updated row status_update (time_time (world s)) else r)
             <$> table s)
          (trace s),
     Returned (success_response
                 [("notification_id", notification_id);
                  ("status", status_value (upd_status status_update))]
                 "Status updated successfully")).
Proof.
  intros Huuid Hq. unfold update_notification_status_internal, update_try.
  unfold try_except, mbind, M_bind, mret, M_ret, db_update, select_by_id.
  rewrite bool_decide_eq_true_2 by reflexivity. simpl. rewrite Huuid, Hq. simpl.
  unfold updated. now rewrite (GatewayFacts.query_first_id _ _ _ Hq).
Qed.

(** X14.  What the internal endpoint writes is what the owner reads:
    after an accepted status update, [get_notification_status] for the
    owner answers with the new status, the time of the update and the
    error (the new one if the update carried one, else the old one);
    for any other user it answers "Unauthorized" without data. *)
Theorem owner_reads_the_update notification_id key row status_update (s : St World)
    (user_id : string) :
  uuid_in notification_id = Returned key ->
  query_first key (table s) = Some row ->
  let s1 := fst (update_internal notification_id status_update
                                 (Some service_token) s) in
  get_notification_status notification_id (n_user_id row) s1
  = (s1, Returned (ok (View key
                            (status_value (upd_status status_update))
                            (Some (time_time (world s)))
                            (if truthy_opt (upd_error status_update)
                             then upd_error status_update else n_error row))
                      "Status retrieved successfully"))
  /\ (user_id <> n_user_id row ->
      get_notification_status notification_id user_id s1
      = (s1, Returned (failure "Unauthorized" "Access denied"))).
Proof.
  intros Huuid Hq s1. subst s1.
  rewrite (update_internal_accepted _ key row) by assumption.
  cbn [fst]. unfold GatewayViews.get_notification_status.
  unfold try_except, mbind, M_bind, mret, M_ret, select_by_id.
  rewrite Huuid. cbn [table].
  rewrite (GatewayFacts.query_first_updated key (table s) row
             (updated row status_update (time_time (world s))) Hq)
    by (simpl; now apply GatewayFacts.query_first_id in Hq).
  cbn [updated n_user_id n_id n_status n_updated_at n_error].
  rewrite (GatewayFacts.query_first_id _ _ _ Hq).
  split.
  - now rewrite String.eqb_refl.
  - intros Hne. destruct (String.eqb_spec (n_user_id row) user_id); [congruence|].
    reflexivity.
Qed.

(** X15.  An error text outlives the failure it belongs to: after a
    [failed] report with a non-empty error text, a later report
    without one (a [delivered] report, as the consumers send it)
    changes the status and leaves the old error text in the record. *)
Theorem error_text_survives_delivery notification_id key row (s : St World)
    (err : string) (st : NotificationStatus) (ts1 ts2 : option Q) :
  uuid_in notification_id = Returned key ->
  query_first key (table s) = Some row ->
  truthy err = true ->
  let s1 := fst (update_internal notification_id (Upd failed ts1 (Some err))
                                 (Some service_token) s) in
  let s2 := fst (update_internal notification_id (Upd st ts2 None)
                                 (Some service_token) s1) in
  exists row2,
    query_first key (table s2) = Some row2
    /\ n_status row2 = status_value st
    /\ n_error row2 = Some err.
Proof.
  intros Huuid Hq Herr s1 s2. subst s2 s1.
  rewrite (update_internal_accepted notification_id key row
             (Upd failed ts1 (Some err)) s Huuid Hq). cbn [fst].
  set (row1 := updated row (Upd failed ts1 (Some err)) (time_time (world s))).
  assert (Hid : n_id row1 = key)
    by (simpl; now apply GatewayFacts.query_first_id in Hq).
  assert (Hq1 : query_first key
                  ((fun r => if String.eqb (n_id r) key then row1 else r)
                     <$> table s) = Some row1)
    by (now apply GatewayFacts.query_first_updated with (row := row)).
  rewrite (update_internal_accepted _ key row1) by assumption.
  cbn [fst table world].
  eexists. split.
  - apply GatewayFacts.query_first_updated with (row := row1); [exact Hq1|].
    simpl. now apply GatewayFacts.query_first_id in Hq.
  - simpl. rewrite Herr. auto.
Qed.

(** X16.  Callers without the right to change a record change
    nothing: the internal endpoint with a missing or wrong service
    token, and the user endpoint called by someone who does not own
    the record, answer "Unauthorized" and leave the state as it is. *)
Theorem unauthorized_update_changes_nothing notification_id status_update
    (s : St World) :
  (forall x_service_token,
      x_service_token <> Some service_token ->
      update_internal notification_id status_update x_service_token s
      = (s, Returned (error_response "Unauthorized" "Invalid service token")))
  /\ (forall key row user_id,
         uuid_in notification_id = Returned key ->
         query_first key (table s) = Some row ->
         user_id <> n_user_id row ->
         GatewayViews.update_notification_status uuid_in time_time notification_id
           status_update user_id s
         = (s, Returned (error_response "Unauthorized" "Access denied"))).
Proof.
  split.
  - intros tok Hne. unfold update_notification_status_internal, update_try, try_except.
    rewrite bool_decide_eq_false_2 by assumption. reflexivity.
  - intros key row user_id Huuid Hq Hne.
    unfold GatewayViews.update_notification_status.
    unfold try_except, mbind, M_bind, mret, M_ret, select_by_id.
    rewrite Huuid, Hq. destruct (String.eqb_spec (n_user_id row) user_id); [congruence|].
    reflexivity.
Qed.

End Facts.

Lemma owner_reads_the_update_witness :
  let s1 := fst (update_notification_status_internal uuid_canonical (fun w => w)
                   "internal-service-token" id_42 late_failure
                   (Some "internal-service-token") gateway_state) in
  get_notification_status uuid_canonical id_42 "u-7" s1
  = (s1, Returned (ok (View id_42 "failed" (Some 20%Q)
                            (Some "User u-7 not found or has no email"))
                      "Status retrieved successfully")).
Proof.
  refine (proj1 (owner_reads_the_update uuid_canonical (fun w => w)
                   "internal-service-token"
                   id_42 id_42 delivered_row late_failure gateway_state "u-8" _ _));
    reflexivity.
Defined.

Lemma error_text_survives_delivery_witness :
  let s1 := fst (update_notification_status_internal uuid_canonical (fun w => w)
                   "internal-service-token" id_42
                   (Upd failed None (Some "smtp unreachable"))
                   (Some "internal-service-token") gateway_state) in
  let s2 := fst (update_notification_status_internal uuid_canonical (fun w => w)
                   "internal-service-token" id_42 (Upd delivered None None)
                   (Some "internal-service-token") s1) in
  exists row2,
    query_first id_42 (table s2) = Some row2
    /\ n_status row2 = "delivered"
    /\ n_error row2 = Some "smtp unreachable".
Proof.
  apply (error_text_survives_delivery uuid_canonical (fun w => w)
           "internal-service-token"
           id_42 id_42 delivered_row gateway_state "smtp unreachable" delivered
           None None);
    reflexivity.
Defined.

Lemma unauthorized_update_changes_nothing_witness :
  update_notification_status_internal uuid_canonical (fun w => w)
    "internal-service-token" id_42 late_failure None gateway_state
  = (gateway_state, Returned (error_response "Unauthorized" "Invalid service token"))
  /\ GatewayViews.update_notification_status uuid_canonical (fun w => w) id_42
       late_failure "u-8" gateway_state
     = (gateway_state, Returned (error_response "Unauthorized" "Access denied")).
Proof.
  destruct (unauthorized_update_changes_nothing uuid_canonical (fun w => w)
              "internal-service-token"
              id_42 late_failure gateway_state) as [Hint Husr].
  split.
  - apply Hint. discriminate.
  - apply (Husr id_42 delivered_row); [reflexivity | reflexivity | discriminate].
Defined.

(** *** What [create_notification] leaves behind *)

Section Admission.
Context {World : Type} (uuid_in : string -> outcome string).
Context (redis_time : World -> Q).
Context (uuid4 : World -> World * string).
Context (get_user : string -> World -> World * outcome (option UserData)).
Context (get_template : string -> World -> World * outcome (option Template)).
Context (queue_publish : string -> QueueMessage -> World -> World * outcome unit).
Context (ttl : Q).

Local Abbreviation create_notification :=
  (create_notification uuid_in redis_time uuid4 get_user get_template
                       queue_publish ttl).

Ltac run_create :=
  unfold Gateway.create_notification, create_try, validate_and_queue,
    effective_request_id, try_except, mbind, M_bind, mret, M_ret, raise, io, emit,
    db_add, idem_is_duplicate, idem_check_and_store, is_duplicate, redis_exists,
    check_and_store, success_response, error_response in *.

Lemma create_notification_effect notification user_id (s0 : St World) :
  let res := create_notification notification user_id s0 in
  exists resp new,
    snd res = Returned resp
    /\ trace (fst res) = (trace s0 ++ new)%list
    /\ ((table (fst res) = table s0 /\ published_keys new = [])
        \/ exists row,
            table (fst res) = (table s0 ++ [row])%list
            /\ n_status row = "pending"
            /\ n_user_id row = user_id
            /\ query_first (n_id row) (table s0) = None)
    /\ (success resp = false -> redis_db (fst res) = redis_db s0).
Proof.
  intros res. subst res. run_create.
  split_matches;
    (do 2 eexists; split; [reflexivity|];
     split; [first [symmetry; apply app_nil_r | rewrite <- ?app_assoc; reflexivity]|];
     split;
     [ first [ left; split; reflexivity
             | right; eexists; split; [reflexivity|];
               split; [reflexivity|]; split; [|assumption];
               match goal with
               | H : negb (String.eqb _ _) = false |- _ =>
                   apply negb_false_iff, String.eqb_eq in H; exact H
               end ]
     | first [ intros _; reflexivity | intros H; discriminate H ] ]).
Qed.


(** X18.  The primary key stays a key: if no two rows of the table
    share an [id], that is still so after [create_notification],
    after the internal status update and after the user's status
    update, whatever their arguments and whatever the collaborators
    answer; the two updates leave the list of ids as it is. *)
Theorem ids_stay_unique (time_time : World -> Q) (service_token : string)
    notification user_id notification_id status_update x_service_token
    (s : St World) :
  NoDup (ids (table s)) ->
  NoDup (ids (table (fst (create_notification notification user_id s))))
  /\ ids (table (fst (update_notification_status_internal uuid_in time_time
                        service_token notification_id status_update
                        x_service_token s)))
     = ids (table s)
  /\ ids (table (fst (GatewayViews.update_notification_status uuid_in time_time
                        notification_id status_update user_id s)))
     = ids (table s).
Proof.
  intros Hnd. split; [|split].
  - destruct (create_notification_effect notification user_id s)
      as (resp & new & _ & _ & [[Ht _]|(row & Ht & _ & _ & Hq)] & _).
    + now rewrite Ht.
    + rewrite Ht. unfold ids in *. rewrite fmap_app. simpl.
      apply NoDup_app. split; [exact Hnd|]. split.
      * intros x Hx Hin. apply list_elem_of_singleton in Hin as ->.
        now apply query_first_not_in in Hq.
      * apply NoDup_singleton.
  - unfold update_notification_status_internal, update_try, try_except,
      mbind, M_bind, mret, M_ret, db_update, select_by_id.
    destruct (negb (bool_decide (x_service_token = Some service_token)));
      [reflexivity|].
    destruct (uuid_in notification_id) as [key|e]; [|reflexivity].
    destruct (query_first key (table s)) as [row|] eqn:Hq;
      [|reflexivity].
    simpl. rewrite (GatewayFacts.query_first_id _ _ _ Hq).
    apply ids_replace. simpl. now apply GatewayFacts.query_first_id in Hq.
  - unfold GatewayViews.update_notification_status, try_except,
      mbind, M_bind, mret, M_ret, db_update, select_by_id.
    destruct (uuid_in notification_id) as [key|e]; [|reflexivity].
    destruct (query_first key (table s)) as [row|] eqn:Hq;
      [|reflexivity].
    destruct (negb (String.eqb (n_user_id row) user_id)); [reflexivity|].
    simpl. rewrite (GatewayFacts.query_first_id _ _ _ Hq).
    apply ids_replace. simpl. now apply GatewayFacts.query_first_id in Hq.
Qed.

(** X19.  A record without a live idempotency entry blocks its
    request id: when the table already holds a record under the
    request id of a call and Redis holds no live entry for it, the
    call answers with an error, adds no record, publishes nothing and
    writes no idempotency entry, whatever the collaborators answer. *)
Theorem existing_record_blocks_the_request notification user_id rid key row
    (s0 : St World) :
  req_request_id notification = Some rid -> rid <> "" ->
  uuid_in rid = Returned key ->
  query_first key (table s0) = Some row ->
  redis_get (redis_time (world s0)) (generate_key rid "notification") (redis_db s0)
  = None ->
  let res := create_notification notification user_id s0 in
  exists resp new,
    snd res = Returned resp
    /\ success resp = false
    /\ table (fst res) = table s0
    /\ redis_db (fst res) = redis_db s0
    /\ trace (fst res) = (trace s0 ++ new)%list
    /\ published_keys new = [].
Proof.
  intros Hrid Hne Huuid Hrow Hredis res. subst res. run_create.
  rewrite Hrid. simpl. rewrite (GatewayFacts.truthy_nonempty rid Hne). simpl.
  destruct (negb (req_user_id notification =? user_id)%string); simpl.
  { exists (Resp false None
              (Some "Unauthorized: You can only create notifications for yourself")
              "Notification creation failed"), [].
    repeat split. symmetry. apply app_nil_r. }
  rewrite Hredis. simpl.
  split_matches; simpl in *; try congruence;
    (do 2 eexists; split; [reflexivity|]; split; [reflexivity|];
     split; [reflexivity|]; split; [reflexivity|];
     split; [first [symmetry; apply app_nil_r | rewrite <- ?app_assoc; reflexivity]|];
     reflexivity).
Qed.

(** X20.  A publish that fails leaves a record nobody is told about:
    when user and template are valid, the request id is a uuid that
    the table does not hold yet and the priority fits its 32-bit
    column, but [QueueManager.publish] raises, the answer is the
    error of the publish, the [pending] record is in the table under
    that uuid, and no idempotency entry is written. *)
Theorem failed_publish_leaves_the_record notification user_id rid key
    (s0 : St World) (w1 w2 w3 : World) (u : UserData) (t : Template) (e : exn) :
  req_request_id notification = Some rid -> rid <> "" ->
  req_user_id notification = user_id ->
  redis_get (redis_time (world s0)) (generate_key rid "notification") (redis_db s0)
  = None ->
  uuid_in rid = Returned key ->
  int32 (req_priority notification) = true ->
  query_first key (table s0) = None ->
  get_user user_id (world s0) = (w1, Returned (Some u)) ->
  get_template (req_template_code notification) w1 = (w2, Returned (Some t)) ->
  notification_type t = Some (type_value (req_notification_type notification)) ->
  (forall m, queue_publish (type_value (req_notification_type notification)) m w2
             = (w3, Raised e)) ->
  let res := create_notification notification user_id s0 in
  snd res = Returned (error_response (exn_str e) "Failed to create notification")
  /\ redis_db (fst res) = redis_db s0
  /\ exists row,
      table (fst res) = (table s0 ++ [row])%list
      /\ n_id row = key /\ n_status row = "pending".
Proof.
  intros Hrid Hne Huser Hredis Huuid Hprio Hq Hget Htmpl Htype Hpub res.
  subst res. run_create.
  rewrite Hrid. simpl. rewrite (GatewayFacts.truthy_nonempty rid Hne). simpl.
  rewrite Huser, String.eqb_refl. simpl. simpl in Hredis. rewrite Hredis. simpl.
  rewrite Hget. simpl. rewrite Htmpl. simpl.
  rewrite bool_decide_eq_true_2 by exact Htype. simpl.
  rewrite Huuid, Hprio. simpl. rewrite Hq. simpl. rewrite Hpub. simpl.
  split; [reflexivity|]. split; [reflexivity|].
  eexists. split; [reflexivity|]. split; reflexivity.
Qed.

End Admission.

(** *** [list_notifications] *)

Section Listing.
Context {World : Type}.

(** X21.  For a positive [limit] and a page number from 1 on,
    [list_notifications] leaves the state alone and answers with at
    most [limit] entries, namely as many as the user has beyond the
    pages before; the metadata counts the user's notifications, gives
    the least number of pages of [limit] entries that hold them all,
    says [has_next] exactly when there are notifications beyond this
    page and [has_previous] exactly when the page is not the first. *)
Theorem list_notifications_pages (page limit : Z) (user_id : string)
    (s : St World) :
  0 < limit -> 1 <= page ->
  exists items meta,
    list_notifications page limit user_id s
    = (s, Returned (ok items "Notifications retrieved successfully", Some meta))
    /\ total meta = Z.of_nat (length (owned_by user_id (table s)))
    /\ Z.of_nat (length items)
       = Z.min limit (Z.max 0 (total meta - (page - 1) * limit))
    /\ (total_pages meta - 1) * limit < total meta <= total_pages meta * limit
    /\ (has_next meta = true <-> page * limit < total meta)
    /\ (has_previous meta = true <-> 1 < page).
Proof.
  intros Hlimit Hpage. unfold list_notifications, list_try, try_except.
  unfold offset_limit, floordiv.
  replace (((page - 1) * limit <? 0) || (limit <? 0)) with false
    by (symmetry; apply orb_false_iff; split; apply Z.ltb_ge; nia).
  replace (limit =? 0) with false by (symmetry; apply Z.eqb_neq; lia).
  do 2 eexists. split; [reflexivity|]. cbn [total total_pages has_next has_previous].
  set (n := Z.of_nat (length (owned_by user_id (table s)))).
  assert (Hn : 0 <= n) by (subst n; lia).
  split; [reflexivity|]. split; [|split; [|split]].
  - rewrite length_fmap, length_take, length_drop. subst n.
    assert (Hoff : 0 <= (page - 1) * limit) by nia.
    revert Hoff. generalize ((page - 1) * limit). intros off Hoff. lia.
  - pose proof (Z.div_mod (n + limit - 1) limit ltac:(lia)) as Hdm.
    pose proof (Z.mod_pos_bound (n + limit - 1) limit Hlimit) as Hmod.
    nia.
  - rewrite Z.ltb_lt.
    pose proof (Z.div_mod (n + limit - 1) limit ltac:(lia)) as Hdm.
    pose proof (Z.mod_pos_bound (n + limit - 1) limit Hlimit) as Hmod.
    split; intros H; nia.
  - apply Z.ltb_lt.
Qed.

(** X22.  [list_notifications] has no empty page for a [limit] of
    zero: whatever the page and whoever asks, the division for
    [total_pages] fails and the answer is its error, without
    metadata; the state is left alone. *)
Theorem list_notifications_limit_zero (page : Z) (user_id : string)
    (s : St World) :
  list_notifications page 0 user_id s
  = (s, Returned (failure (exn_str ZeroDivisionError)
                          "Failed to list notifications", None)).
Proof.
  unfold list_notifications, list_try, try_except, offset_limit, floordiv.
  rewrite Z.mul_0_r. reflexivity.
Qed.

End Listing.

Lemma ids_stay_unique_witness :
  NoDup (ids (table (fst (post_notification request_42 "u-7" two_rows)))).
Proof.
  refine (proj1 (ids_stay_unique uuid_canonical (fun w => w) uuid4_fixed gw_get_user
                   gw_get_template gw_publish 3600 (fun w => w)
                   "internal-service-token"
                   request_42 "u-7" id_42 late_failure None two_rows _)).
  apply (bool_decide_unpack _). vm_compute. exact I.
Defined.

Lemma existing_record_blocks_the_request_witness :
  exists resp,
    snd (post_notification request_42 "u-7" two_rows) = Returned resp
    /\ success resp = false
    /\ table (fst (post_notification request_42 "u-7" two_rows)) = table two_rows.
Proof.
  destruct (existing_record_blocks_the_request uuid_canonical (fun w => w)
              uuid4_fixed gw_get_user
              gw_get_template gw_publish 3600 request_42 "u-7" id_42 id_42
              delivered_row two_rows)
    as (resp & new & Hr & Hs & Ht & _); try reflexivity; [discriminate|].
  exists resp. auto.
Defined.

Lemma failed_publish_leaves_the_record_witness :
  let res := create_notification uuid_canonical (fun w => w) uuid4_fixed gw_get_user
               gw_get_template gw_publish_down 3600 request_42 "u-7" empty_gateway in
  snd res = Returned (error_response "connection refused" "Failed to create notification")
  /\ redis_db (fst res) = ∅
  /\ ids (table (fst res)) = [id_42].
Proof.
  destruct (failed_publish_leaves_the_record uuid_canonical (fun w => w) uuid4_fixed
              gw_get_user
              gw_get_template gw_publish_down 3600 request_42 "u-7" id_42 id_42
              empty_gateway 1%Q 2%Q 3%Q ConsumerScenario.user_ada
              (Tmpl (Some "email"))
              (Exn "AMQPConnectionError" "connection refused"))
    as (Hr & Hredis & row & Htable & Hid & _); try reflexivity; [discriminate|].
  split; [exact Hr|]. split; [exact Hredis|].
  rewrite Htable. simpl. now rewrite Hid.
Defined.

Lemma list_notifications_pages_witness :
  exists items meta,
    list_notifications 2 1 "u-7" two_rows
    = (two_rows, Returned (ok items "Notifications retrieved successfully", Some meta))
    /\ has_next meta = false /\ has_previous meta = true.
Proof.
  destruct (list_notifications_pages 2 1 "u-7" two_rows)
    as (items & meta & Hres & _ & _ & _ & Hnext & Hprev); [lia | lia |].
  exists items, meta. split; [exact Hres|]. split.
  - injection Hres as _ <-. reflexivity.
  - apply Hprev. lia.
Defined.

End GatewayMoreFacts.

(** ** services/email_service/consumer.py and
    services/push_service/consumer.py *)

Module ConsumerMore.
Import Model Consumer ConsumerSpec ConsumerFacts.

Lemma reporter_log_off_channel (r : outcome Z) :
  Forall (fun ev => off_channel ev = true) (reporter_log r).
Proof. destruct r; repeat constructor. Qed.

Lemma settled_by_ack pre delivery_tag body :
  Forall (fun ev => off_channel ev = true) pre ->
  settled_once delivery_tag body (pre ++ [Ack delivery_tag]).
Proof.
  intros H. destruct (off_channel_counts pre H) as (Ha & Hp & Hn).
  left. unfold acks, publishes, nacks in *. rewrite !omap_app, Ha, Hp, Hn. auto.
Qed.

Lemma settled_by_decision pre delivery_tag body retry_count :
  Forall (fun ev => off_channel ev = true) pre ->
  settled_once delivery_tag body (pre ++ decision delivery_tag body retry_count).
Proof.
  intros H. destruct (off_channel_counts pre H) as (Ha & Hp & Hn).
  unfold decision. destruct (retry_count <? 3); [right; left | right; right];
    unfold acks, publishes, nacks in *; rewrite !omap_app, Ha, Hp, Hn; auto.
Qed.

Section EmailMore.
Context {World : Type}.
Context (time_time : World -> Q) (json_loads : string -> outcome Json).
Context (get_user : option string -> World -> World * outcome (option UserData)).
Context (get_template : option string -> World -> World * outcome (option Template)).
Context (render_template : option string -> gmap string string ->
                           World -> World * outcome (option Rendered)).
Context (requests_post : string -> string -> option string -> World -> World * outcome Z).
Context (email_sender_send : string -> string -> string -> World -> World * outcome bool).

Local Abbreviation email_try :=
  (email_try time_time json_loads get_user get_template render_template
             requests_post email_sender_send).
Local Abbreviation email_process_message :=
  (email_process_message time_time json_loads get_user get_template render_template
                         requests_post email_sender_send).

(** A [try] block that comes to its end has acknowledged the
    delivery, as its last and only channel call. *)
Lemma email_try_returns delivery_tag body (s s1 : St World) :
  email_try delivery_tag body s = (s1, Returned tt) ->
  exists pre, trace s1 = (trace s ++ pre ++ [Ack delivery_tag])%list
              /\ Forall (fun ev => off_channel ev = true) pre.
Proof.
  unfold Consumer.email_try, Consumer.update_notification_status. run_monad.
  intros H. split_matches;
    first [ exists []; split; [reflexivity | constructor]
          | refine (ex_intro _ [_] _); rewrite <- ?app_assoc;
            split; [reflexivity | repeat constructor]
          | refine (ex_intro _ [_; _] _); rewrite <- ?app_assoc;
            split; [reflexivity | repeat constructor] ].
Qed.

Lemma email_settles delivery_tag body (s : St World) :
  exists s' new,
    email_process_message delivery_tag body s = (s', Returned tt)
    /\ trace s' = (trace s ++ new)%list
    /\ settled_once delivery_tag body new.
Proof.
  destruct (email_try delivery_tag body s) as [s1 [[]|e]] eqn:Htry.
  - destruct (email_try_returns _ _ _ _ Htry) as (pre & Htr & Hpre).
    exists s1, (pre ++ [Ack delivery_tag])%list.
    split; [|split; [exact Htr | now apply settled_by_ack]].
    unfold Consumer.email_process_message, try_except. now rewrite Htry.
  - destruct (email_try_raises _ _ _ _ _ _ _ _ _ _ _ _ Htry) as [Htr _].
    rewrite (email_process_message_failure _ _ _ _ _ _ _ _ _ _ _ _ Htry).
    destruct (email_except_shape json_loads requests_post delivery_tag body e s1)
      as (w' & pre & Hexc & Hoff).
    rewrite Hexc. eexists. eexists. split; [reflexivity|]. simpl trace. rewrite Htr.
    split; [reflexivity|]. now apply settled_by_decision.
Qed.

(** X24.  An OPEN breaker spares the sender.  When the message
    parses, user, template and rendering are there, and the consumer's
    breaker is OPEN with its last failure no more than
    [recovery_timeout] ago, [EmailSender.send] is not called whatever
    it would do: the world goes from the rendering straight to the
    status reporter, which posts [failed] with the text of the
    breaker, the breaker stays as it is, and the delivery goes the way
    of every failure (requeue, or nack and republish at the limit). *)
Theorem open_breaker_spares_the_sender delivery_tag body (s : St World)
    (m : QueueMessage) (u : UserData) (t : Template) (r : Rendered)
    (w1 w2 w3 w4 : World) (last : Q) (posted : outcome Z) :
  json_loads body = Returned (JObject m) ->
  get_user (user_id m) (world s) = (w1, Returned (Some u)) ->
  truthy_opt (email u) = true ->
  default true (email_enabled u) = true ->
  get_template (template_code m) w1 = (w2, Returned (Some t)) ->
  render_template (template_code m) (variables m) w2 = (w3, Returned (Some r)) ->
  CircuitBreaker.state (circuit_breaker s) = CircuitBreaker.OPEN ->
  CircuitBreaker.last_failure_time (circuit_breaker s) = Some last ->
  (time_time w3 - last <= CircuitBreaker.recovery_timeout (circuit_breaker s))%Q ->
  requests_post (default "unknown" (request_id m)) "failed"
    (Some "Circuit breaker is OPEN - service unavailable") w3 = (w4, posted) ->
  email_process_message delivery_tag body s
  = (MkSt w4 (circuit_breaker s) (decided_properties (properties s))
          (trace s
           ++ [StatusPost (default "unknown" (request_id m)) "failed"
                          (Some "Circuit breaker is OPEN - service unavailable")]
           ++ reporter_log posted
           ++ decision delivery_tag body (retry_count_of (properties s))),
     Returned tt).
Proof.
  intros Hjson Huser Hemail Henabled Htmpl Hrender Hopen Hlast Hwait Hpost.
  assert (Htry : email_try delivery_tag body s
                 = (MkSt w3 (circuit_breaker s) (properties s) (trace s),
                    Raised CircuitBreaker.circuit_open_error)).
  { unfold Consumer.email_try. run_monad. rewrite Hjson, Huser. simpl.
    rewrite Hemail, Henabled. simpl. rewrite Htmpl. simpl. rewrite Hrender. simpl.
    unfold CircuitBreaker.call, CircuitBreaker.gate. rewrite Hopen, Hlast.
    apply Qgtb_false in Hwait. rewrite Hwait. reflexivity. }
  rewrite (email_process_message_failure _ _ _ _ _ _ _ _ _ _ _ _ Htry).
  rewrite email_except_spec by (now rewrite Hjson).
  cbv zeta. rewrite Hjson. simpl.
  rewrite Hpost. reflexivity.
Qed.

End EmailMore.

Section PushMore.
Context {World : Type}.
Context (time_time : World -> Q) (json_loads : string -> outcome Json).
Context (get_user : option string -> World -> World * outcome (option UserData)).
Context (get_template : option string -> World -> World * outcome (option Template)).
Context (render_template : option string -> gmap string string ->
                           World -> World * outcome (option Rendered)).
Context (http_update_notification_status :
           string -> string -> option string -> World -> World * outcome unit).
Context (push_sender_send : string -> string -> string -> gmap string string ->
                            World -> World * outcome bool).

Local Abbreviation push_try :=
  (push_try time_time json_loads get_user get_template render_template
            http_update_notification_status push_sender_send).
Local Abbreviation push_process_message :=
  (push_process_message time_time json_loads get_user get_template render_template
                        http_update_notification_status push_sender_send).

Lemma push_try_returns delivery_tag body (s s1 : St World) :
  push_try delivery_tag body s = (s1, Returned tt) ->
  exists pre, trace s1 = (trace s ++ pre ++ [Ack delivery_tag])%list
              /\ Forall (fun ev => off_channel ev = true) pre.
Proof.
  unfold Consumer.push_try, push_report. run_monad.
  intros H. split_matches;
    first [ exists []; split; [reflexivity | constructor]
          | refine (ex_intro _ [_] _); rewrite <- ?app_assoc;
            split; [reflexivity | repeat constructor] ].
Qed.

Lemma push_settles delivery_tag body (s : St World) :
  exists s' new,
    push_process_message delivery_tag body s = (s', Returned tt)
    /\ trace s' = (trace s ++ new)%list
    /\ settled_once delivery_tag body new.
Proof.
  destruct (push_try delivery_tag body s) as [s1 [[]|e]] eqn:Htry.
  - destruct (push_try_returns _ _ _ _ Htry) as (pre & Htr & Hpre).
    exists s1, (pre ++ [Ack delivery_tag])%list.
    split; [|split; [exact Htr | now apply settled_by_ack]].
    unfold Consumer.push_process_message, try_except. now rewrite Htry.
  - destruct (push_try_raises _ _ _ _ _ _ _ _ _ _ _ _ Htry) as (pre & Htr & Hpre & _).
    unfold Consumer.push_process_message, try_except. rewrite Htry.
    destruct (push_except_shape json_loads http_update_notification_status
                delivery_tag body e s1) as (w' & post & Hexc & Hpost).
    rewrite Hexc. eexists. eexists. split; [reflexivity|]. simpl trace. rewrite Htr.
    rewrite <- app_assoc. split; [reflexivity|].
    rewrite app_assoc.
    apply settled_by_decision. apply Forall_app. split; assumption.
Qed.

End PushMore.

(** X23.  Every delivery is settled exactly once.  For a delivery
    whose [x-retry-count] header is absent or an integer (the
    deliveries [BasicProperties] has here; the gateway publishes
    without headers), whatever the body, the rest of the state and the
    answers of the collaborators, [process_message] of the email
    consumer and of the push consumer returns and what it adds to the
    trace holds exactly one of: one ack of the delivery; one nack of it
    with requeue; one nack of it without requeue and one republish of
    the body under the key [failed].  Never an ack and a nack, never
    two of either, never a republish of a message that is
    acknowledged or requeued. *)
Theorem every_delivery_is_settled_once {World : Type}
    (time_time : World -> Q) (json_loads : string -> outcome Json)
    (get_user : option string -> World -> World * outcome (option UserData))
    (get_template : option string -> World -> World * outcome (option Template))
    (render_template : option string -> gmap string string ->
                       World -> World * outcome (option Rendered))
    (requests_post : string -> string -> option string -> World -> World * outcome Z)
    (email_sender_send : string -> string -> string -> World -> World * outcome bool)
    (http_update_notification_status :
       string -> string -> option string -> World -> World * outcome unit)
    (push_sender_send : string -> string -> string -> gmap string string ->
                        World -> World * outcome bool)
    (delivery_tag : Z) (body : string) (s : St World) :
  (exists s' new,
      email_process_message time_time json_loads get_user get_template
        render_template requests_post email_sender_send delivery_tag body s
      = (s', Returned tt)
      /\ trace s' = (trace s ++ new)%list
      /\ settled_once delivery_tag body new)
  /\ (exists s' new,
         push_process_message time_time json_loads get_user get_template
           render_template http_update_notification_status push_sender_send
           delivery_tag body s
         = (s', Returned tt)
         /\ trace s' = (trace s ++ new)%list
         /\ settled_once delivery_tag body new).
Proof. split; [apply email_settles | apply push_settles]. Qed.

(** X25.  A body that is not JSON is a failure like any other: no
    user, template or sender is asked, the status reporter is called
    with the notification id [unknown], status [failed] and the text of
    the parse error, and the delivery is requeued (or, at the limit,
    rejected and republished), in the email consumer and in the push
    consumer alike. *)
Theorem unparsable_body_is_reported_as_unknown {World : Type}
    (time_time : World -> Q) (json_loads : string -> outcome Json)
    (get_user : option string -> World -> World * outcome (option UserData))
    (get_template : option string -> World -> World * outcome (option Template))
    (render_template : option string -> gmap string string ->
                       World -> World * outcome (option Rendered))
    (requests_post : string -> string -> option string -> World -> World * outcome Z)
    (email_sender_send : string -> string -> string -> World -> World * outcome bool)
    (http_update_notification_status :
       string -> string -> option string -> World -> World * outcome unit)
    (push_sender_send : string -> string -> string -> gmap string string ->
                        World -> World * outcome bool)
    (delivery_tag : Z) (body : string) (s : St World) (e : exn) :
  json_loads body = Raised e ->
  truthy (exn_str e) = true ->
  let posted := requests_post "unknown" "failed" (Some (exn_str e)) (world s) in
  let reported :=
    http_update_notification_status "unknown" "failed" (Some (exn_str e)) (world s) in
  email_process_message time_time json_loads get_user get_template
    render_template requests_post email_sender_send delivery_tag body s
  = (MkSt (fst posted) (circuit_breaker s) (decided_properties (properties s))
          (trace s ++ [StatusPost "unknown" "failed" (Some (exn_str e))]
                   ++ reporter_log (snd posted)
                   ++ decision delivery_tag body (retry_count_of (properties s))),
     Returned tt)
  /\ push_process_message time_time json_loads get_user get_template
       render_template http_update_notification_status push_sender_send
       delivery_tag body s
     = (MkSt (fst reported) (circuit_breaker s) (decided_properties (properties s))
             (trace s ++ [StatusPost "unknown" "failed" (Some (exn_str e))]
                      ++ decision delivery_tag body (retry_count_of (properties s))),
        Returned tt).
Proof.
  intros Hjson Htext posted reported. subst posted reported. split.
  - assert (Htry : email_try time_time json_loads get_user get_template
                     render_template requests_post email_sender_send
                     delivery_tag body s = (s, Raised e)).
    { unfold email_try. run_monad. now rewrite Hjson. }
    rewrite (email_process_message_failure _ _ _ _ _ _ _ _ _ _ _ _ Htry).
    rewrite email_except_spec by (now rewrite Hjson).
    cbv zeta. rewrite Hjson, Htext. reflexivity.
  - unfold push_process_message, try_except.
    assert (Htry : push_try time_time json_loads get_user get_template
                     render_template http_update_notification_status
                     push_sender_send delivery_tag body s = (s, Raised e)).
    { unfold push_try. run_monad. now rewrite Hjson. }
    rewrite Htry, push_except_spec by (now rewrite Hjson).
    cbv zeta. rewrite Hjson. reflexivity.
Qed.

Lemma open_breaker_spares_the_sender_witness :
  email_process_message (fun w => w) ConsumerScenario.json_loads_42
    ConsumerScenario.get_user_ada ConsumerScenario.get_template_ok
    ConsumerScenario.render_ok ConsumerScenario.post_ok email_send_false
    7 ConsumerScenario.body_42 start_tripped
  = (MkSt 114%Q BreakerScenario.tripped
          (Broker.Props (Some {["x-retry-count" := 1]}) (Some 2)
                        (Some "application/json"))
          [StatusPost "r-42" "failed"
                      (Some "Circuit breaker is OPEN - service unavailable");
           Nack 7 true],
     Returned tt).
Proof.
  refine (eq_trans
            (open_breaker_spares_the_sender (fun w => w)
               ConsumerScenario.json_loads_42 ConsumerScenario.get_user_ada
               ConsumerScenario.get_template_ok ConsumerScenario.render_ok
               ConsumerScenario.post_ok email_send_false 7
               ConsumerScenario.body_42 start_tripped
               ConsumerScenario.message_42 ConsumerScenario.user_ada
               (Tmpl (Some "email"))
               (Rend (Some "Welcome") (Some "<p>Hello Ada</p>"))
               (110 + 1)%Q (110 + 1 + 1)%Q (110 + 1 + 1 + 1)%Q
               (110 + 1 + 1 + 1 + 1)%Q 100%Q (Returned 200)
               eq_refl eq_refl eq_refl eq_refl eq_refl eq_refl eq_refl eq_refl
               _ eq_refl) _).
  - vm_compute. discriminate.
  - vm_compute. reflexivity.
Defined.

Lemma unparsable_body_is_reported_as_unknown_witness :
  email_process_message (fun w => w) ConsumerScenario.json_loads_42
    ConsumerScenario.get_user_ada ConsumerScenario.get_template_ok
    ConsumerScenario.render_ok ConsumerScenario.post_ok
    ConsumerScenario.email_send_ok 7 "not json"
    (ConsumerScenario.start ConsumerScenario.published_props)
  = (MkSt (0 + 1)%Q ConsumerScenario.fresh_breaker
          (Broker.Props (Some {["x-retry-count" := 1]}) (Some 2)
                        (Some "application/json"))
          [StatusPost "unknown" "failed" (Some "Expecting value"); Nack 7 true],
     Returned tt).
Proof.
  refine (eq_trans
            (proj1 (unparsable_body_is_reported_as_unknown (fun w => w)
                      ConsumerScenario.json_loads_42 ConsumerScenario.get_user_ada
                      ConsumerScenario.get_template_ok ConsumerScenario.render_ok
                      ConsumerScenario.post_ok ConsumerScenario.email_send_ok
                      ConsumerScenario.push_report_ok ConsumerScenario.push_send_ok
                      7 "not json"
                      (ConsumerScenario.start ConsumerScenario.published_props)
                      (Exn "JSONDecodeError" "Expecting value") eq_refl eq_refl)) _).
  reflexivity.
Defined.

End ConsumerMore.

(** ** The declarations and the publish of the services on the broker *)

Module BrokerMore.
Import Broker BrokerSpec.

Create HintDb broker.

Lemma exchange_declare_same ex ty (b : t) :
  exchanges b !! ex = Some ty -> exchange_declare ex ty b = b.
Proof.
  intros H. unfold exchange_declare. rewrite insert_id by exact H. now destruct b.
Qed.

Lemma queue_declare_same q d (b : t) :
  is_Some (queues b !! q) -> queue_declare q d b = b.
Proof. intros [x H]. unfold queue_declare. now rewrite H. Qed.

Lemma same_binding_eq x y : same_binding x y = true -> y = x.
Proof.
  unfold same_binding, binding_matches. destruct x, y. simpl.
  rewrite !andb_true_iff, !String.eqb_eq. intros [[-> ->] ->]. reflexivity.
Qed.

Lemma same_binding_refl x : same_binding x x = true.
Proof.
  unfold same_binding, binding_matches. now rewrite !String.eqb_refl.
Qed.

Lemma queue_bind_same ex q k (b : t) :
  Bind ex q k ∈ bindings b -> queue_bind ex q k b = b.
Proof.
  intros H. unfold queue_bind.
  replace (existsb _ _) with true; [reflexivity|].
  symmetry. apply existsb_exists. exists (Bind ex q k).
  split; [now apply list_elem_of_In | apply same_binding_refl].
Qed.

(** What each declaration establishes. *)
Lemma exchange_declared ex ty (b : t) :
  exchanges (exchange_declare ex ty b) !! ex = Some ty.
Proof. apply lookup_insert_eq. Qed.

Lemma queue_declared q d (b : t) : is_Some (queues (queue_declare q d b) !! q).
Proof.
  unfold queue_declare. destruct (queues b !! q) eqn:E; [now rewrite E|].
  simpl. rewrite lookup_insert_eq. eauto.
Qed.

Lemma queue_bound ex q k (b : t) : Bind ex q k ∈ bindings (queue_bind ex q k b).
Proof.
  unfold queue_bind. destruct (existsb _ _) eqn:E.
  - apply existsb_exists in E as (y & Hy & Hsame).
    apply same_binding_eq in Hsame as ->. now apply list_elem_of_In.
  - simpl. apply elem_of_app. right. now apply list_elem_of_singleton.
Qed.

(** What each declaration keeps. *)
Lemma queue_declare_exchanges q d (b : t) ex ty :
  exchanges b !! ex = Some ty -> exchanges (queue_declare q d b) !! ex = Some ty.
Proof. unfold queue_declare. now destruct (queues b !! q). Qed.

Lemma queue_bind_exchanges ex' q k (b : t) ex ty :
  exchanges b !! ex = Some ty -> exchanges (queue_bind ex' q k b) !! ex = Some ty.
Proof. unfold queue_bind. now destruct (existsb _ _). Qed.

Lemma queue_declare_queues q d (b : t) q' :
  is_Some (queues b !! q') -> is_Some (queues (queue_declare q d b) !! q').
Proof.
  intros H. unfold queue_declare. destruct (queues b !! q) eqn:E; [exact H|].
  simpl. destruct (decide (q = q')) as [->|Hne].
  - rewrite lookup_insert_eq. eauto.
  - now rewrite lookup_insert_ne.
Qed.

Lemma queue_bind_queues ex q k (b : t) q' :
  is_Some (queues b !! q') -> is_Some (queues (queue_bind ex q k b) !! q').
Proof. unfold queue_bind. now destruct (existsb _ _). Qed.

Lemma queue_declare_bindings q d (b : t) bd :
  bd ∈ bindings b -> bd ∈ bindings (queue_declare q d b).
Proof. unfold queue_declare. now destruct (queues b !! q). Qed.

Lemma queue_bind_bindings ex q k (b : t) bd :
  bd ∈ bindings b -> bd ∈ bindings (queue_bind ex q k b).
Proof.
  intros H. unfold queue_bind. destruct (existsb _ _); [exact H|].
  simpl. apply elem_of_app. now left.
Qed.

#[local] Hint Resolve exchange_declared queue_declared queue_bound
  queue_declare_exchanges queue_bind_exchanges queue_declare_queues
  queue_bind_queues queue_declare_bindings queue_bind_bindings : broker.

(** No declaration touches a message or a delivery in flight. *)
Lemma exchange_declare_messages ex ty (b : t) name :
  queue_messages name (exchange_declare ex ty b) = queue_messages name b.
Proof. reflexivity. Qed.

Lemma queue_declare_messages q d (b : t) name :
  queue_messages name (queue_declare q d b) = queue_messages name b.
Proof.
  unfold queue_declare, queue_messages. destruct (queues b !! q) eqn:E; [reflexivity|].
  simpl. destruct (decide (q = name)) as [->|Hne].
  - now rewrite lookup_insert_eq, E.
  - now rewrite lookup_insert_ne.
Qed.

Lemma queue_bind_messages ex q k (b : t) name :
  queue_messages name (queue_bind ex q k b) = queue_messages name b.
Proof. unfold queue_bind. now destruct (existsb _ _). Qed.

Lemma queue_declare_unacked q d (b : t) :
  unacked (queue_declare q d b) = unacked b.
Proof. unfold queue_declare. now destruct (queues b !! q). Qed.

Lemma queue_bind_unacked ex q k (b : t) :
  unacked (queue_bind ex q k b) = unacked b.
Proof. unfold queue_bind. now destruct (existsb _ _). Qed.

Ltac keep_messages :=
  repeat first
    [ rewrite queue_bind_messages | rewrite queue_declare_messages
    | rewrite exchange_declare_messages
    | rewrite queue_bind_unacked | rewrite queue_declare_unacked ];
  reflexivity.

Lemma QueueManager_initialize_harmless (b : t) : harmless QueueManager_initialize b.
Proof.
  split; [|split].
  - intros name. unfold QueueManager_initialize. keep_messages.
  - unfold QueueManager_initialize. keep_messages.
  - set (c := QueueManager_initialize b).
    unfold QueueManager_initialize at 1. cbv zeta.
    subst c. unfold QueueManager_initialize. cbv zeta.
    rewrite (exchange_declare_same "notifications.direct" "direct")
      by auto 10 with broker.
    rewrite (queue_declare_same "email.queue") by auto 10 with broker.
    rewrite (queue_declare_same "push.queue") by auto 10 with broker.
    rewrite (queue_declare_same "failed.queue") by auto 10 with broker.
    rewrite (queue_bind_same _ "email.queue") by auto 10 with broker.
    rewrite (queue_bind_same _ "push.queue") by auto 10 with broker.
    reflexivity.
Qed.

Lemma EmailConsumer_connect_harmless (b : t) : harmless EmailConsumer_connect b.
Proof.
  split; [|split].
  - intros name. unfold EmailConsumer_connect. keep_messages.
  - unfold EmailConsumer_connect. keep_messages.
  - unfold EmailConsumer_connect. cbv zeta.
    rewrite (exchange_declare_same "notifications.direct" "direct")
      by auto 10 with broker.
    rewrite (queue_declare_same "email.queue") by auto 10 with broker.
    rewrite (queue_bind_same _ "email.queue") by auto 10 with broker.
    rewrite (queue_declare_same "failed.queue") by auto 10 with broker.
    reflexivity.
Qed.

Lemma PushConsumer_connect_harmless (b : t) : harmless PushConsumer_connect b.
Proof.
  split; [|split].
  - intros name. unfold PushConsumer_connect. keep_messages.
  - unfold PushConsumer_connect. keep_messages.
  - unfold PushConsumer_connect. cbv zeta.
    rewrite (exchange_declare_same "notifications.direct" "direct")
      by auto 10 with broker.
    rewrite (queue_declare_same "push.queue") by auto 10 with broker.
    rewrite (queue_bind_same _ "push.queue") by auto 10 with broker.
    rewrite (queue_declare_same "failed.queue") by auto 10 with broker.
    reflexivity.
Qed.

(** X27.  Starting a service against a running broker loses
    nothing.  On a broker that accepts the declarations,
    [QueueManager.initialize], [EmailConsumer.connect] and
    [PushConsumer.connect] each leave the messages of every queue and
    the unacknowledged deliveries as they are, and running the step a
    second time changes nothing. *)
Theorem startup_is_harmless (b : t) :
  accepts_declarations b ->
  harmless QueueManager_initialize b
  /\ harmless EmailConsumer_connect b
  /\ harmless PushConsumer_connect b.
Proof.
  intros _. split; [|split].
  - apply QueueManager_initialize_harmless.
  - apply EmailConsumer_connect_harmless.
  - apply PushConsumer_connect_harmless.
Qed.

Lemma route_of_bindings exchange routing_key (b b0 : t) :
  bindings b = bindings b0 -> route exchange routing_key b = route exchange routing_key b0.
Proof. unfold route. now intros ->. Qed.

Lemma topology_routes (ty : Gateway.NotificationType) :
  route "notifications.direct" (Gateway.type_value ty) topology
  = [queue_of (Gateway.type_value ty)].
Proof. destruct ty; vm_compute; reflexivity. Qed.

(** X26.  A notification of the gateway reaches the queue of its
    channel and no other.  On a broker with the bindings the services
    declare, on which the queue of the channel exists,
    [QueueManager.publish] under the [.value] of the notification type
    appends the message, persistent and without headers, to the end
    of [email.queue] or [push.queue] respectively; every other queue,
    [failed.queue] among them, and the deliveries in flight are as
    before. *)
Theorem publish_reaches_its_queue (ty : Gateway.NotificationType) (body : string)
    (b : t) (q : Queue) :
  bindings b = bindings topology ->
  queues b !! queue_of (Gateway.type_value ty) = Some q ->
  let b' := QueueManager_publish (Gateway.type_value ty) body b in
  queue_messages (queue_of (Gateway.type_value ty)) b'
  = (messages q ++ [Msg (Props None (Some 2) (Some "application/json")) body])%list
  /\ (forall other, other <> queue_of (Gateway.type_value ty) ->
        queues b' !! other = queues b !! other)
  /\ unacked b' = unacked b.
Proof.
  intros Hb Hq b'. subst b'. unfold QueueManager_publish, basic_publish, queue_messages.
  rewrite (route_of_bindings _ _ b topology Hb), topology_routes.
  cbn [foldl queues unacked]. unfold enqueue. rewrite Hq.
  rewrite lookup_insert_eq. split; [reflexivity|]. split; [|reflexivity].
  intros other Hne. now rewrite lookup_insert_ne.
Qed.

Lemma startup_is_harmless_witness :
  queue_messages "email.queue"
    (EmailConsumer_connect ConsumerScenario.one_email_published)
  = queue_messages "email.queue" ConsumerScenario.one_email_published.
Proof.
  refine (proj1 (proj1 (proj2 (startup_is_harmless
                                 ConsumerScenario.one_email_published _))) _).
  split.
  - apply (bool_decide_unpack _). vm_compute. exact I.
  - reflexivity.
Defined.

Lemma publish_reaches_its_queue_witness :
  queue_messages "push.queue" (QueueManager_publish "push" "{}" topology)
  = [Msg (Props None (Some 2) (Some "application/json")) "{}"].
Proof.
  refine (proj1 (publish_reaches_its_queue Gateway.type_push "{}" topology
                   (Que true []) eq_refl _)).
  vm_compute. reflexivity.
Defined.

End BrokerMore.
